(** * SpecForge: normalisation and rendering of raw specifications

    A shallow embedding of [src/specforge.py]: the raw YAML document as a
    value of Python's dynamic types, the dataclasses of the typed model,
    the ten [process_*] routines of [SpecificationProcessor],
    [OutputFormatter.format_text] and [SpecForge.process_spec].

    Python exceptions are results of an error monad.  Values the YAML
    loader can produce are [None], booleans, integers, strings, lists
    and mappings; mappings keep their insertion order and are keyed by
    strings here (floats, dates and non-string keys are left out).

    Two more limits of the embedding.  A string is its sequence of
    bytes: iterating a string and [repr] are those of ASCII text.  And
    [str] and [repr] are the text of a value, which CPython gives only
    when it can: an integer of more than 4300 digits makes them raise a
    ValueError (3.11 and later), a value nested deeper than the
    recursion limit a RecursionError.  [printable] is a condition on a
    value under which they return, and the theorems that say when
    normalization and the forge operation return are stated for
    printable documents. *)

From Stdlib Require Import String Ascii List ZArith Bool Lia.
From Stdlib Require Import DecimalString.
Import ListNotations.
Local Open Scope list_scope.
Local Open Scope string_scope.

(** ** Python values *)

Set Warnings "-register-all".

Inductive PyVal : Type :=
| VNone : PyVal
| VBool : bool -> PyVal
| VInt  : Z -> PyVal
| VStr  : string -> PyVal
| VList : list PyVal -> PyVal
| VDict : list (string * PyVal) -> PyVal.

(** ** Exceptions and the error monad *)

Inductive exn : Type :=
| KeyError        : string -> exn
| TypeError       : string -> exn
| AttributeError  : string -> exn
| ValidationError : string -> exn
| SpecForgeError  : string -> exn.

Inductive result (A : Type) : Type :=
| Ok  : A -> result A
| Err : exn -> result A.
Arguments Ok {A} _.
Arguments Err {A} _.

Definition bind {A B : Type} (m : result A) (k : A -> result B) : result B :=
  match m with
  | Ok a => k a
  | Err e => Err e
  end.

Notation "x <- m ;; k" := (bind m (fun x => k))
  (at level 61, m at next level, right associativity).

Fixpoint mapM {A B : Type} (f : A -> result B) (l : list A) : result (list B) :=
  match l with
  | [] => Ok []
  | x :: r => y <- f x ;; ys <- mapM f r ;; Ok (y :: ys)
  end.

Fixpoint foldM {A S : Type} (f : S -> A -> result S) (l : list A) (s : S)
  : result S :=
  match l with
  | [] => Ok s
  | x :: r => s' <- f s x ;; foldM f r s'
  end.

Definition is_ok {A : Type} (m : result A) : bool :=
  match m with Ok _ => true | Err _ => false end.

(** ** Strings: [str], [repr], [join] *)

Definition hex_digit (n : nat) : ascii :=
  nth n (list_ascii_of_string "0123456789abcdef") "0"%char.

Definition hex_escape (c : ascii) : string :=
  let n := nat_of_ascii c in
  String "\" (String "x" (String (hex_digit (n / 16))
                                 (String (hex_digit (n mod 16)) EmptyString))).

Fixpoint str_mem (c : ascii) (s : string) : bool :=
  match s with
  | EmptyString => false
  | String d r => Ascii.eqb c d || str_mem c r
  end.

Definition squote : ascii := "'"%char.
Definition dquote : ascii := ascii_of_nat 34.

(** [repr] of one character inside quotes [q]; bytes from 128 up (the
    UTF-8 encoding of printable non-ASCII text) are kept as they are. *)
Definition repr_char (q c : ascii) : string :=
  let n := nat_of_ascii c in
  if Ascii.eqb c "\"%char then String "\" (String "\" EmptyString)
  else if Ascii.eqb c q then String "\" (String q EmptyString)
  else if Nat.eqb n 10 then String "\" (String "n" EmptyString)
  else if Nat.eqb n 13 then String "\" (String "r" EmptyString)
  else if Nat.eqb n 9 then String "\" (String "t" EmptyString)
  else if Nat.ltb n 32 || Nat.eqb n 127 then hex_escape c
  else String c EmptyString.

Fixpoint repr_body (q : ascii) (s : string) : string :=
  match s with
  | EmptyString => EmptyString
  | String c r => repr_char q c ++ repr_body q r
  end.

(** [repr(s)] for a [str]: single quotes unless the text has a single
    quote and no double quote. *)
Definition repr_str (s : string) : string :=
  let q := if str_mem squote s && negb (str_mem dquote s) then dquote else squote in
  String q (repr_body q s ++ String q EmptyString).

(** The decimal text of an integer, which is [str(z)] whenever [str]
    returns (see [printable_int] below). *)
Definition str_int (z : Z) : string := NilZero.string_of_int (Z.to_int z).

Definition str_bool (b : bool) : string := if b then "True" else "False".

(** [sep.join(l)] on strings. *)
Fixpoint join (sep : string) (l : list string) : string :=
  match l with
  | [] => EmptyString
  | [x] => x
  | x :: r => x ++ sep ++ join sep r
  end.

Fixpoint py_repr (v : PyVal) : string :=
  match v with
  | VNone => "None"
  | VBool b => str_bool b
  | VInt z => str_int z
  | VStr s => repr_str s
  | VList l => "[" ++ join ", " (map py_repr l) ++ "]"
  | VDict d =>
      "{" ++ join ", " (map (fun kv => repr_str (fst kv) ++ ": " ++ py_repr (snd kv)) d)
          ++ "}"
  end.

(** [str(v)], which is what an f-string field [{v}] inserts. *)
Definition py_str (v : PyVal) : string :=
  match v with
  | VStr s => s
  | _ => py_repr v
  end.

(** [sys.int_max_str_digits]: [str] and [repr] of an integer with more
    digits raise a ValueError instead of returning its text. *)
Definition max_str_digits : nat := 4300.

Definition printable_int (z : Z) : bool :=
  Nat.leb (String.length (str_int (Z.abs z))) max_str_digits.

(** [repr] of a list or a mapping calls itself on the elements, as far
    as the recursion limit of the interpreter allows; a nesting of this
    depth is within the limit of every build. *)
Definition max_repr_depth : nat := 100.

Fixpoint printable_within (v : PyVal) (depth : nat) {struct v} : bool :=
  match v with
  | VInt z => printable_int z
  | VList l =>
      match depth with
      | O => false
      | S n => forallb (fun x => printable_within x n) l
      end
  | VDict d =>
      match depth with
      | O => false
      | S n => forallb (fun kv => printable_within (snd kv) n) d
      end
  | _ => true
  end.

(** [str(v)] and [repr(v)] return: no integer in [v] is beyond the limit
    of digits and [v] is not nested deeper than [max_repr_depth]. *)
Definition printable (v : PyVal) : bool := printable_within v max_repr_depth.

Definition type_name (v : PyVal) : string :=
  match v with
  | VNone => "NoneType"
  | VBool _ => "bool"
  | VInt _ => "int"
  | VStr _ => "str"
  | VList _ => "list"
  | VDict _ => "dict"
  end.

(** Truth value of [v] in a condition. *)
Definition truthy (v : PyVal) : bool :=
  match v with
  | VNone => false
  | VBool b => b
  | VInt z => negb (Z.eqb z 0)
  | VStr s => negb (String.eqb s "")
  | VList l => match l with [] => false | _ => true end
  | VDict d => match d with [] => false | _ => true end
  end.

(** ** Mappings as ordered association lists *)

Definition dict := list (string * PyVal).

Fixpoint lookup {V : Type} (k : string) (d : list (string * V)) : option V :=
  match d with
  | [] => None
  | (k', v) :: r => if String.eqb k k' then Some v else lookup k r
  end.

(** [d[k] = v]: an existing key keeps its position, a new one goes last. *)
Fixpoint dict_set {V : Type} (d : list (string * V)) (k : string) (v : V)
  : list (string * V) :=
  match d with
  | [] => [(k, v)]
  | (k', v') :: r =>
      if String.eqb k k' then (k, v) :: r else (k', v') :: dict_set r k v
  end.

Definition keys {V : Type} (d : list (string * V)) : list string := map fst d.

Definition no_attribute (v : PyVal) (a : string) : exn :=
  AttributeError ("'" ++ type_name v ++ "' object has no attribute '" ++ a ++ "'").

Definition or_default {V : Type} (o : option V) (dflt : V) : V :=
  match o with Some x => x | None => dflt end.

(** [v.get(k, dflt)] *)
Definition py_get (v : PyVal) (k : string) (dflt : PyVal) : result PyVal :=
  match v with
  | VDict d => Ok (or_default (lookup k d) dflt)
  | _ => Err (no_attribute v "get")
  end.

(** [v.items()] *)
Definition py_items (v : PyVal) : result dict :=
  match v with
  | VDict d => Ok d
  | _ => Err (no_attribute v "items")
  end.

(** [v[k]] for a string key [k]. *)
Definition py_getitem (v : PyVal) (k : string) : result PyVal :=
  match v with
  | VDict d => match lookup k d with Some x => Ok x | None => Err (KeyError k) end
  | VStr _ => Err (TypeError "string indices must be integers, not 'str'")
  | VList _ => Err (TypeError "list indices must be integers or slices, not str")
  | _ => Err (TypeError ("'" ++ type_name v ++ "' object is not subscriptable"))
  end.

(** The characters of a string, one per byte (those of ASCII text). *)
Fixpoint chars (s : string) : list PyVal :=
  match s with
  | EmptyString => []
  | String c r => VStr (String c EmptyString) :: chars r
  end.

(** [for x in v]: the elements of a list, the keys of a mapping, the
    characters of a string. *)
Definition py_iter (v : PyVal) : result (list PyVal) :=
  match v with
  | VList l => Ok l
  | VDict d => Ok (map (fun kv => VStr (fst kv)) d)
  | VStr s => Ok (chars s)
  | _ => Err (TypeError ("'" ++ type_name v ++ "' object is not iterable"))
  end.

Fixpoint prefixb (p s : string) : bool :=
  match p, s with
  | EmptyString, _ => true
  | String a p', String b s' => Ascii.eqb a b && prefixb p' s'
  | String _ _, EmptyString => false
  end.

Fixpoint substringb (p s : string) : bool :=
  prefixb p s ||
  match s with
  | EmptyString => false
  | String _ s' => substringb p s'
  end.

(** [k in v] for a string [k]. *)
Definition py_contains (k : string) (v : PyVal) : result bool :=
  match v with
  | VDict d => Ok (match lookup k d with Some _ => true | None => false end)
  | VList l =>
      Ok (existsb (fun x => match x with VStr s => String.eqb k s | _ => false end) l)
  | VStr s => Ok (substringb k s)
  | _ => Err (TypeError ("argument of type '" ++ type_name v ++ "' is not iterable"))
  end.

Definition as_str (i : nat) (v : PyVal) : result string :=
  match v with
  | VStr s => Ok s
  | _ => Err (TypeError ("sequence item " ++ NilZero.string_of_uint (Nat.to_uint i)
                          ++ ": expected str instance, " ++ type_name v ++ " found"))
  end.

Fixpoint strs_from (i : nat) (l : list PyVal) : result (list string) :=
  match l with
  | [] => Ok []
  | x :: r => s <- as_str i x ;; ss <- strs_from (S i) r ;; Ok (s :: ss)
  end.

(** [sep.join(v)] on a value. *)
Definition py_join (sep : string) (v : PyVal) : result string :=
  match py_iter v with
  | Ok l => ss <- strs_from 0 l ;; Ok (join sep ss)
  | Err _ => Err (TypeError "can only join an iterable")
  end.

(** ** The typed model: one record per dataclass

    A dataclass does not check the types of its fields, so a field read
    from the raw document holds whatever value the document has there. *)

Module HeaderFormat.
Record t := mk {
  border_line : PyVal;
  file_name_line : PyVal;
  description_line : PyVal;
  blank_comment : PyVal;
  assembly_lines : PyVal;
  directives : PyVal }.
End HeaderFormat.

Module RegisterInfo.
Record t := mk {
  name : PyVal;
  purpose : PyVal;
  byte_regs : PyVal;
  constraints : PyVal }.
End RegisterInfo.

Module RegisterUsage.
Record t := mk { general_purpose : list RegisterInfo.t }.
End RegisterUsage.

Module Field.
Record t := mk {
  name : PyVal;
  type : PyVal;
  description : PyVal;
  constraints : PyVal }.
End Field.

Module DataStructure.
Record t := mk {
  name : string;
  fields : list Field.t;
  documentation : PyVal;
  constraints : PyVal;
  examples : PyVal;
  complexity : PyVal }.
End DataStructure.

Module PaddingRules.
Record t := mk { one_byte : PyVal; two_bytes : PyVal }.
End PaddingRules.

Module ImplementationRequirements.
Record t := mk {
  memory_operations : PyVal;
  encoding_requirements : PyVal;
  leftover_handling : PyVal;
  padding_rules : PaddingRules.t }.
End ImplementationRequirements.

Module Algorithm.
Record t := mk {
  name : string;
  description : PyVal;
  implementation_requirements : ImplementationRequirements.t;
  steps : PyVal;
  complexity : PyVal;
  edge_cases : PyVal;
  preconditions : PyVal;
  postconditions : PyVal;
  invariants : PyVal;
  examples : PyVal }.
End Algorithm.

Module ErrorType.
Record t := mk { name : PyVal; description : PyVal; handling : PyVal }.
End ErrorType.

Module ErrorHandling.
Record t := mk {
  strategies : PyVal;
  error_types : list ErrorType.t;
  syscall_requirements : PyVal }.
End ErrorHandling.

Module BssVariable.
Record t := mk { name : PyVal; size : PyVal; align : PyVal; purpose : PyVal }.
End BssVariable.

Module SectionRequirements.
Record t := mk { data : PyVal; bss : list BssVariable.t; text : PyVal }.
End SectionRequirements.

Module Benchmark.
Record t := mk {
  name : PyVal;
  input_size : PyVal;
  expected_time : PyVal;
  requirements : PyVal }.
End Benchmark.

Module Performance.
Record t := mk {
  time_complexity : PyVal;
  space_complexity : PyVal;
  constraints : PyVal;
  register_usage : PyVal;
  memory_access : PyVal;
  benchmarks : list Benchmark.t }.
End Performance.

Module TestCase.
Record t := mk {
  name : PyVal;
  input : PyVal;
  expected_output : PyVal;
  validation : PyVal }.
End TestCase.

Module Testing.
Record t := mk {
  unit_tests : list TestCase.t;
  integration_tests : list PyVal;
  conformance_tests : list PyVal }.
End Testing.

Module CodeStyle.
Record t := mk {
  indentation : PyVal;
  comments : PyVal;
  naming : PyVal;
  organization : PyVal }.
End CodeStyle.

Module Specification.
Record t := mk {
  metadata : PyVal;
  header_format : HeaderFormat.t;
  register_usage : RegisterUsage.t;
  structures : list (string * DataStructure.t);
  algorithms : list (string * Algorithm.t);
  error_handling : ErrorHandling.t;
  section_requirements : SectionRequirements.t;
  performance : Performance.t;
  testing : Testing.t;
  code_style : CodeStyle.t }.
End Specification.

(** ** SpecificationProcessor *)

Definition empty_str : PyVal := VStr "".
Definition empty_list : PyVal := VList [].
Definition empty_dict : PyVal := VDict [].

Module SpecificationProcessor.

Definition process_metadata (data : PyVal) : result PyVal :=
  py_get data "metadata" empty_dict.

Definition process_header_format (data : PyVal) : result HeaderFormat.t :=
  header <- py_get data "header_format" empty_dict ;;
  border_line <- py_get header "border_line" empty_str ;;
  file_name_line <- py_get header "file_name_line" empty_str ;;
  description_line <- py_get header "description_line" empty_str ;;
  blank_comment <- py_get header "blank_comment" empty_str ;;
  assembly_lines <- py_get header "assembly_lines" empty_list ;;
  directives <- py_get header "directives" empty_list ;;
  Ok (HeaderFormat.mk border_line file_name_line description_line
        blank_comment assembly_lines directives).

(** One element of the comprehension in [process_register_usage]. *)
Definition register_info (reg : PyVal) : result RegisterInfo.t :=
  name <- py_getitem reg "name" ;;
  purpose <- py_getitem reg "purpose" ;;
  byte_regs <- py_get reg "byte_regs" VNone ;;
  constraints <- py_get reg "constraints" empty_list ;;
  Ok (RegisterInfo.mk name purpose byte_regs constraints).

Definition process_register_usage (data : PyVal) : result RegisterUsage.t :=
  usage <- py_get data "register_usage" empty_dict ;;
  regs_raw <- py_get usage "general_purpose" empty_list ;;
  regs <- py_iter regs_raw ;;
  general_purpose <- mapM register_info regs ;;
  Ok (RegisterUsage.mk general_purpose).

Definition field_of (field : PyVal) : result Field.t :=
  name <- py_getitem field "name" ;;
  type <- py_getitem field "type" ;;
  description <- py_get field "description" empty_str ;;
  constraints <- py_get field "constraints" empty_list ;;
  Ok (Field.mk name type description constraints).

Definition data_structure (name : string) (struct : PyVal)
  : result DataStructure.t :=
  fields_raw <- py_get struct "fields" empty_list ;;
  fields_it <- py_iter fields_raw ;;
  fields <- mapM field_of fields_it ;;
  documentation <- py_get struct "documentation" empty_str ;;
  constraints <- py_get struct "constraints" empty_list ;;
  examples <- py_get struct "examples" empty_list ;;
  complexity <- py_get struct "complexity" empty_dict ;;
  Ok (DataStructure.mk name fields documentation constraints examples complexity).

Definition process_data_structures (data : PyVal)
  : result (list (string * DataStructure.t)) :=
  raw <- py_get data "structures" empty_dict ;;
  items <- py_items raw ;;
  foldM (fun structures kv =>
           s <- data_structure (fst kv) (snd kv) ;;
           Ok (dict_set structures (fst kv) s))
        items [].

Definition algorithm (name : string) (algo : PyVal) : result Algorithm.t :=
  impl_req <- py_get algo "implementation_requirements" empty_dict ;;
  padding_rules <- py_get impl_req "padding_rules" empty_dict ;;
  memory_operations <- py_get impl_req "memory_operations" empty_list ;;
  encoding_requirements <- py_get impl_req "encoding_requirements" empty_list ;;
  leftover_handling <- py_get impl_req "leftover_handling" empty_list ;;
  one_byte <- py_get padding_rules "one_byte" empty_list ;;
  two_bytes <- py_get padding_rules "two_bytes" empty_list ;;
  let implementation_requirements :=
    ImplementationRequirements.mk memory_operations encoding_requirements
      leftover_handling (PaddingRules.mk one_byte two_bytes) in
  description <- py_get algo "description" empty_str ;;
  steps <- py_get algo "steps" empty_dict ;;
  complexity <- py_get algo "complexity" empty_dict ;;
  edge_cases <- py_get algo "edge_cases" empty_list ;;
  preconditions <- py_get algo "preconditions" empty_list ;;
  postconditions <- py_get algo "postconditions" empty_list ;;
  invariants <- py_get algo "invariants" empty_list ;;
  examples <- py_get algo "examples" empty_list ;;
  Ok (Algorithm.mk name description implementation_requirements steps
        complexity edge_cases preconditions postconditions invariants examples).

Definition process_algorithms (data : PyVal)
  : result (list (string * Algorithm.t)) :=
  raw <- py_get data "algorithms" empty_dict ;;
  items <- py_items raw ;;
  foldM (fun algorithms kv =>
           a <- algorithm (fst kv) (snd kv) ;;
           Ok (dict_set algorithms (fst kv) a))
        items [].

Definition default_handling : PyVal :=
  VList [VStr "Detect"; VStr "Log"; VStr "Handle"].

(** The body of the loop over [error_types]: what one raw entry adds
    to the list (nothing when it is neither a string nor a mapping). *)
Definition error_type (err : PyVal) : result (list ErrorType.t) :=
  match err with
  | VStr s =>
      Ok [ErrorType.mk err (VStr ("Handle " ++ s)) default_handling]
  | VDict _ =>
      name <- py_getitem err "name" ;;
      name' <- py_getitem err "name" ;;
      description <- py_get err "description" (VStr ("Handle " ++ py_str name')) ;;
      handling <- py_get err "handling" default_handling ;;
      Ok [ErrorType.mk name description handling]
  | _ => Ok []
  end.

(** The reconciliation of the raw [strategies] value. *)
Definition strategies_of (strategies_raw : PyVal) : PyVal :=
  match strategies_raw with
  | VList _ => VDict [("general", strategies_raw)]
  | VDict _ => strategies_raw
  | _ => empty_dict
  end.

Definition process_error_handling (data : PyVal) : result ErrorHandling.t :=
  err_handling <- py_get data "error_handling" empty_dict ;;
  error_types_raw <- py_get err_handling "error_types" empty_list ;;
  errs <- py_iter error_types_raw ;;
  error_types <- mapM error_type errs ;;
  strategies_raw <- py_get err_handling "strategies" empty_dict ;;
  let strategies := strategies_of strategies_raw in
  syscall_requirements <- py_get err_handling "syscall_requirements" empty_list ;;
  Ok (ErrorHandling.mk strategies (concat error_types) syscall_requirements).

Definition bss_variable (var : PyVal) : result BssVariable.t :=
  name <- py_getitem var "name" ;;
  size <- py_getitem var "size" ;;
  align <- py_getitem var "align" ;;
  purpose <- py_getitem var "purpose" ;;
  Ok (BssVariable.mk name size align purpose).

Definition process_section_requirements (data : PyVal)
  : result SectionRequirements.t :=
  reqs <- py_get data "section_requirements" empty_dict ;;
  bss_raw <- py_get reqs "bss" empty_dict ;;
  vars_raw <- py_get bss_raw "variables" empty_list ;;
  vars <- py_iter vars_raw ;;
  bss_vars <- mapM bss_variable vars ;;
  data' <- py_get reqs "data" empty_list ;;
  text <- py_get reqs "text" empty_dict ;;
  Ok (SectionRequirements.mk data' bss_vars text).

Definition benchmark (bench : PyVal) : result Benchmark.t :=
  name <- py_getitem bench "name" ;;
  input_size <- py_getitem bench "input_size" ;;
  expected_time <- py_get bench "expected_time" VNone ;;
  requirements <- py_get bench "requirements" empty_list ;;
  Ok (Benchmark.mk name input_size expected_time requirements).

Definition process_performance (data : PyVal) : result Performance.t :=
  perf <- py_get data "performance" empty_dict ;;
  benchmarks_raw <- py_get perf "benchmarks" empty_list ;;
  benches <- py_iter benchmarks_raw ;;
  benchmarks <- mapM benchmark benches ;;
  time_complexity <- py_get perf "time_complexity" empty_str ;;
  space_complexity <- py_get perf "space_complexity" empty_str ;;
  constraints <- py_get perf "constraints" empty_list ;;
  register_usage <- py_get perf "register_usage" empty_list ;;
  memory_access <- py_get perf "memory_access" empty_list ;;
  Ok (Performance.mk time_complexity space_complexity constraints
        register_usage memory_access benchmarks).

Definition TBD : PyVal := VStr "TBD".

Definition unit_test (test : PyVal) : result TestCase.t :=
  match test with
  | VStr _ => Ok (TestCase.mk test TBD TBD empty_list)
  | _ =>
      name <- py_getitem test "name" ;;
      input <- py_get test "input" TBD ;;
      expected_output <- py_get test "expected_output" TBD ;;
      validation <- py_get test "validation" empty_list ;;
      Ok (TestCase.mk name input expected_output validation)
  end.

Definition integration_test (test : PyVal) : PyVal :=
  match test with
  | VStr _ => VDict [("name", test)]
  | _ => test
  end.

Definition conformance_test (test : PyVal) : PyVal :=
  match test with
  | VStr _ => VDict [("standard", test)]
  | _ => test
  end.

Definition process_testing (data : PyVal) : result Testing.t :=
  test_data <- py_get data "testing" empty_dict ;;
  units_raw <- py_get test_data "unit_tests" empty_list ;;
  units <- py_iter units_raw ;;
  unit_tests <- mapM unit_test units ;;
  integ_raw <- py_get test_data "integration_tests" empty_list ;;
  integ <- py_iter integ_raw ;;
  conf_raw <- py_get test_data "conformance_tests" empty_list ;;
  conf <- py_iter conf_raw ;;
  Ok (Testing.mk unit_tests (map integration_test integ)
        (map conformance_test conf)).

Definition process_code_style (data : PyVal) : result CodeStyle.t :=
  style <- py_get data "code_style" empty_dict ;;
  indentation <- py_get style "indentation" empty_list ;;
  comments <- py_get style "comments" empty_list ;;
  naming <- py_get style "naming" empty_list ;;
  organization <- py_get style "organization" empty_list ;;
  Ok (CodeStyle.mk indentation comments naming organization).

End SpecificationProcessor.

(** ** OutputFormatter *)

Notation "l +++ r" := (@app string l r) (at level 60, right associativity).

Module OutputFormatter.

(** [for x in v: lines.append(f x)] *)
Definition each (f : PyVal -> string) (v : PyVal) : result (list string) :=
  xs <- py_iter v ;; Ok (map f xs).

Definition bullet (indent : string) (x : PyVal) : string :=
  indent ++ "- " ++ py_str x.

(** [if v: lines.append(label); for x in v: lines.append(bullet)] *)
Definition labelled (label indent : string) (v : PyVal) : result (list string) :=
  if truthy v then xs <- each (bullet indent) v ;; Ok (label :: xs) else Ok [].

(** [for name, xs in v.items(): ...] with one bulleted list per key. *)
Definition group (kv : string * PyVal) : result (list string) :=
  xs <- each (bullet "    ") (snd kv) ;; Ok (("  " ++ fst kv ++ ":") :: xs).

Definition groups (v : PyVal) : result (list string) :=
  items <- py_items v ;; ls <- mapM group items ;; Ok (concat ls).

Definition metadata_lines (metadata : PyVal) : result (list string) :=
  name <- py_getitem metadata "name" ;;
  version <- py_getitem metadata "version" ;;
  description <- py_getitem metadata "description" ;;
  Ok ["=== SPECIFICATION ===";
      "Name: " ++ py_str name;
      "Version: " ++ py_str version;
      "Description: " ++ py_str description;
      ""].

Definition header_lines (h : HeaderFormat.t) : result (list string) :=
  assembly <- each (fun line => "  " ++ py_str line) (HeaderFormat.assembly_lines h) ;;
  directives <- each (fun d => "  " ++ py_str d) (HeaderFormat.directives h) ;;
  Ok (["=== HEADER FORMAT ===";
       "Border Line: " ++ py_str (HeaderFormat.border_line h);
       "Assembly Lines:"]
      +++ assembly +++ ["Directives:"] +++ directives +++ [""]).

Definition register_lines (reg : RegisterInfo.t) : result (list string) :=
  byte_regs <-
    (if truthy (RegisterInfo.byte_regs reg)
     then j <- py_join ", " (RegisterInfo.byte_regs reg) ;;
          Ok ["Byte Registers: " ++ j]
     else Ok []) ;;
  constraints <- labelled "Constraints:" "  " (RegisterInfo.constraints reg) ;;
  Ok (["Register: " ++ py_str (RegisterInfo.name reg);
       "Purpose: " ++ py_str (RegisterInfo.purpose reg)]
      +++ byte_regs +++ constraints +++ [""]).

Definition register_usage_lines (u : RegisterUsage.t) : result (list string) :=
  regs <- mapM register_lines (RegisterUsage.general_purpose u) ;;
  Ok ("=== REGISTER USAGE ===" :: concat regs).

Definition field_line (f : Field.t) : string :=
  "  " ++ py_str (Field.name f) ++ " (" ++ py_str (Field.type f) ++ "): "
       ++ py_str (Field.description f).

Definition structure_lines (kv : string * DataStructure.t) : result (list string) :=
  let struct := snd kv in
  constraints <- labelled "Constraints:" "  " (DataStructure.constraints struct) ;;
  Ok (["Structure: " ++ fst kv;
       "Documentation: " ++ py_str (DataStructure.documentation struct);
       "Fields:"]
      +++ map field_line (DataStructure.fields struct)
      +++ constraints +++ [""]).

Definition structures_lines (structures : list (string * DataStructure.t))
  : result (list string) :=
  ss <- mapM structure_lines structures ;;
  Ok ("=== DATA STRUCTURES ===" :: concat ss).

(** The [Steps:] part of one algorithm. *)
Definition step_lines (kv : string * PyVal) : result (list string) :=
  actions <- each (bullet "    ") (snd kv) ;;
  Ok (("  " ++ fst kv ++ ":") :: actions).

Definition steps_lines (steps : PyVal) : result (list string) :=
  items <- py_items steps ;; ls <- mapM step_lines items ;; Ok (concat ls).

Definition algorithm_lines (kv : string * Algorithm.t) : result (list string) :=
  let algo := snd kv in
  let req := Algorithm.implementation_requirements algo in
  let pad := ImplementationRequirements.padding_rules req in
  memory <- each (bullet "    ") (ImplementationRequirements.memory_operations req) ;;
  encoding <- each (bullet "    ") (ImplementationRequirements.encoding_requirements req) ;;
  leftover <- each (bullet "    ") (ImplementationRequirements.leftover_handling req) ;;
  one_byte <- each (bullet "      ") (PaddingRules.one_byte pad) ;;
  two_bytes <- each (bullet "      ") (PaddingRules.two_bytes pad) ;;
  steps <- steps_lines (Algorithm.steps algo) ;;
  edge_cases <- labelled "Edge Cases:" "  " (Algorithm.edge_cases algo) ;;
  preconditions <- labelled "Preconditions:" "  " (Algorithm.preconditions algo) ;;
  postconditions <- labelled "Postconditions:" "  " (Algorithm.postconditions algo) ;;
  invariants <- labelled "Invariants:" "  " (Algorithm.invariants algo) ;;
  Ok (["Algorithm: " ++ fst kv;
       "Description: " ++ py_str (Algorithm.description algo);
       "Implementation Requirements:";
       "  Memory Operations:"]
      +++ memory +++ ["  Encoding Requirements:"] +++ encoding
      +++ ["  Leftover Handling:"] +++ leftover
      +++ ["  Padding Rules:"; "    One Byte:"] +++ one_byte
      +++ ["    Two Bytes:"] +++ two_bytes
      +++ ["Steps:"] +++ steps
      +++ edge_cases +++ preconditions +++ postconditions +++ invariants
      +++ [""]).

Definition algorithms_lines (algorithms : list (string * Algorithm.t))
  : result (list string) :=
  als <- mapM algorithm_lines algorithms ;;
  Ok ("=== ALGORITHMS ===" :: concat als).

Definition strategies_lines (strategies : PyVal) : result (list string) :=
  match strategies with
  | VDict _ => groups strategies
  | VList _ => each (bullet "  ") strategies
  | _ => Ok []
  end.

Definition error_type_lines (error : ErrorType.t) : result (list string) :=
  handling <- each (bullet "      ") (ErrorType.handling error) ;;
  Ok (["  " ++ py_str (ErrorType.name error) ++ ":";
       "    Description: " ++ py_str (ErrorType.description error);
       "    Handling:"] +++ handling).

Definition error_handling_lines (e : ErrorHandling.t) : result (list string) :=
  strategies <- strategies_lines (ErrorHandling.strategies e) ;;
  error_types <- mapM error_type_lines (ErrorHandling.error_types e) ;;
  syscalls <- each (bullet "  ") (ErrorHandling.syscall_requirements e) ;;
  Ok (["=== ERROR HANDLING ==="; "Strategies:"] +++ strategies
      +++ ["Error Types:"] +++ concat error_types
      +++ ["Syscall Requirements:"] +++ syscalls +++ [""]).

Definition bss_lines (var : BssVariable.t) : list string :=
  ["  " ++ py_str (BssVariable.name var) ++ ":";
   "    Size: " ++ py_str (BssVariable.size var);
   "    Align: " ++ py_str (BssVariable.align var);
   "    Purpose: " ++ py_str (BssVariable.purpose var)].

Definition section_requirements_lines (s : SectionRequirements.t)
  : result (list string) :=
  data <- each (bullet "  ") (SectionRequirements.data s) ;;
  text <- groups (SectionRequirements.text s) ;;
  Ok (["=== SECTION REQUIREMENTS ==="; "Data Section:"] +++ data
      +++ ["BSS Section:"] +++ concat (map bss_lines (SectionRequirements.bss s))
      +++ ["Text Section:"] +++ text +++ [""]).

Definition benchmark_lines (bench : Benchmark.t) : result (list string) :=
  requirements <- labelled "    Requirements:" "      " (Benchmark.requirements bench) ;;
  Ok (["  " ++ py_str (Benchmark.name bench) ++ ":";
       "    Input Size: " ++ py_str (Benchmark.input_size bench)]
      +++ (if truthy (Benchmark.expected_time bench)
          then ["    Expected Time: " ++ py_str (Benchmark.expected_time bench)]
          else [])
      +++ requirements).

Definition performance_lines (p : Performance.t) : result (list string) :=
  constraints <- each (bullet "  ") (Performance.constraints p) ;;
  register_usage <- each (bullet "  ") (Performance.register_usage p) ;;
  memory_access <- each (bullet "  ") (Performance.memory_access p) ;;
  benchmarks <- mapM benchmark_lines (Performance.benchmarks p) ;;
  Ok (["=== PERFORMANCE ===";
       "Time Complexity: " ++ py_str (Performance.time_complexity p);
       "Space Complexity: " ++ py_str (Performance.space_complexity p);
       "Constraints:"] +++ constraints
      +++ ["Register Usage:"] +++ register_usage
      +++ ["Memory Access:"] +++ memory_access
      +++ ["Benchmarks:"] +++ concat benchmarks +++ [""]).

Definition unit_test_lines (test : TestCase.t) : result (list string) :=
  validation <- labelled "    Validation:" "      " (TestCase.validation test) ;;
  Ok (["  " ++ py_str (TestCase.name test) ++ ":";
       "    Input: " ++ py_str (TestCase.input test);
       "    Expected Output: " ++ py_str (TestCase.expected_output test)]
      +++ validation).

(** One [key, value] pair of an integration test. *)
Definition integration_item (kv : string * PyVal) : list string :=
  if String.eqb (fst kv) "name" then []
  else match snd kv with
       | VList l => ("    " ++ fst kv ++ ":") :: map (bullet "      ") l
       | value => ["    " ++ fst kv ++ ": " ++ py_str value]
       end.

Definition integration_test_lines (test : PyVal) : result (list string) :=
  name <- py_getitem test "name" ;;
  items <- py_items test ;;
  Ok (("  " ++ py_str name ++ ":") :: concat (map integration_item items)).

Definition vector_lines (vector : PyVal) : result (list string) :=
  input <- py_getitem vector "input" ;;
  output <- py_getitem vector "output" ;;
  Ok ["    Input: " ++ py_str input; "    Output: " ++ py_str output].

Definition conformance_test_lines (test : PyVal) : result (list string) :=
  standard <- py_getitem test "standard" ;;
  has_vectors <- py_contains "test_vectors" test ;;
  vectors <-
    (if has_vectors
     then tv <- py_getitem test "test_vectors" ;;
          vs <- py_iter tv ;;
          ls <- mapM vector_lines vs ;;
          Ok ("  Test Vectors:" :: concat ls)
     else Ok []) ;;
  Ok (("  Standard: " ++ py_str standard) :: vectors).

Definition testing_lines (t : Testing.t) : result (list string) :=
  unit_tests <- mapM unit_test_lines (Testing.unit_tests t) ;;
  integration <- mapM integration_test_lines (Testing.integration_tests t) ;;
  conformance <- mapM conformance_test_lines (Testing.conformance_tests t) ;;
  Ok (["=== TESTING ==="; "Unit Tests:"] +++ concat unit_tests
      +++ ["Integration Tests:"] +++ concat integration
      +++ ["Conformance Tests:"] +++ concat conformance +++ [""]).

Definition code_style_lines (c : CodeStyle.t) : result (list string) :=
  indentation <- each (bullet "  ") (CodeStyle.indentation c) ;;
  comments <- each (bullet "  ") (CodeStyle.comments c) ;;
  naming <- each (bullet "  ") (CodeStyle.naming c) ;;
  organization <- each (bullet "  ") (CodeStyle.organization c) ;;
  Ok (["=== CODE STYLE ==="; "Indentation:"] +++ indentation
      +++ ["Comments:"] +++ comments
      +++ ["Naming:"] +++ naming
      +++ ["Organization:"] +++ organization).

(** The list [lines] at the end of [format_text]. *)
Definition format_lines (spec : Specification.t) : result (list string) :=
  metadata <- metadata_lines (Specification.metadata spec) ;;
  header <- header_lines (Specification.header_format spec) ;;
  registers <- register_usage_lines (Specification.register_usage spec) ;;
  structures <- structures_lines (Specification.structures spec) ;;
  algorithms <- algorithms_lines (Specification.algorithms spec) ;;
  errors <- error_handling_lines (Specification.error_handling spec) ;;
  sections <- section_requirements_lines (Specification.section_requirements spec) ;;
  performance <- performance_lines (Specification.performance spec) ;;
  testing <- testing_lines (Specification.testing spec) ;;
  style <- code_style_lines (Specification.code_style spec) ;;
  Ok (metadata +++ header +++ registers +++ structures +++ algorithms +++ errors
      +++ sections +++ performance +++ testing +++ style).

Definition newline : string := String (ascii_of_nat 10) EmptyString.

Definition format_text (spec : Specification.t) : result string :=
  lines <- format_lines spec ;; Ok (join newline lines).

End OutputFormatter.

(** ** SpecForge *)

Module SpecForge.

(** [str(e)] *)
Definition str_exn (e : exn) : string :=
  match e with
  | KeyError k => repr_str k
  | TypeError m | AttributeError m | ValidationError m | SpecForgeError m => m
  end.

Definition build_specification (data : PyVal) : result Specification.t :=
  metadata <- SpecificationProcessor.process_metadata data ;;
  header_format <- SpecificationProcessor.process_header_format data ;;
  register_usage <- SpecificationProcessor.process_register_usage data ;;
  structures <- SpecificationProcessor.process_data_structures data ;;
  algorithms <- SpecificationProcessor.process_algorithms data ;;
  error_handling <- SpecificationProcessor.process_error_handling data ;;
  section_requirements <- SpecificationProcessor.process_section_requirements data ;;
  performance <- SpecificationProcessor.process_performance data ;;
  testing <- SpecificationProcessor.process_testing data ;;
  code_style <- SpecificationProcessor.process_code_style data ;;
  Ok (Specification.mk metadata header_format register_usage structures
        algorithms error_handling section_requirements performance testing
        code_style).

(** The [try] of [_create_specification]: a [KeyError] becomes a
    [ValidationError], any other exception a [SpecForgeError]. *)
Definition _create_specification (data : PyVal) : result Specification.t :=
  match build_specification data with
  | Ok spec => Ok spec
  | Err (KeyError k) =>
      Err (ValidationError ("Missing required field: " ++ repr_str k))
  | Err e => Err (SpecForgeError ("Error creating specification: " ++ str_exn e))
  end.

Definition process_spec (spec_data : PyVal) (output_format : string)
  : result string :=
  match spec <- _create_specification spec_data ;;
        OutputFormatter.format_text spec with
  | Ok report => Ok report
  | Err e => Err (SpecForgeError ("Failed to process specification: " ++ str_exn e))
  end.

End SpecForge.

(** ** Documents used as examples *)

Definition memcpy_doc : PyVal :=
  VDict [("metadata", VDict [("name", VStr "memcpy_impl"); ("version", VStr "1.0");
                             ("description", VStr "fast copy")]);
         ("structures",
          VDict [("Header",
                  VDict [("fields",
                          VList [VDict [("name", VStr "len"); ("type", VStr "u32");
                                        ("description", VStr "length")]])])])].


(** Top-level section labels of [format_text], in their order. *)
Definition section_headers : list string :=
  ["=== SPECIFICATION ==="; "=== HEADER FORMAT ==="; "=== REGISTER USAGE ===";
   "=== DATA STRUCTURES ==="; "=== ALGORITHMS ==="; "=== ERROR HANDLING ===";
   "=== SECTION REQUIREMENTS ==="; "=== PERFORMANCE ==="; "=== TESTING ===";
   "=== CODE STYLE ==="].

Definition is_header (line : string) : bool :=
  existsb (String.eqb line) section_headers.

(** The lines up to the next section label or blank separator. *)
Fixpoint body_prefix (lines : list string) : list string :=
  match lines with
  | [] => []
  | l :: r => if is_header l || String.eqb l "" then [] else l :: body_prefix r
  end.

(** The body of the section labelled [h] in a report. *)
Fixpoint section_body (h : string) (lines : list string) : list string :=
  match lines with
  | [] => []
  | l :: r => if String.eqb l h then body_prefix r else section_body h r
  end.

(** The entries of [data[section][key]] as the normalizer iterates them. *)
Definition raw_entries (data : PyVal) (section key : string) : list PyVal :=
  match py_get data section empty_dict with
  | Ok sec =>
      match py_get sec key empty_list with
      | Ok v => match py_iter v with Ok l => l | Err _ => [] end
      | Err _ => []
      end
  | Err _ => []
  end.

(** * Properties *)

(** ** The error monad *)

Lemma bind_Ok {A B : Type} (m : result A) (k : A -> result B) (b : B) :
  bind m k = Ok b -> exists a, m = Ok a /\ k a = Ok b.
Proof.
  destruct m as [a|e]; simpl; intros H; [exists a; auto | discriminate].
Qed.

Lemma bind_Err {A B : Type} (m : result A) (k : A -> result B) (e : exn) :
  m = Err e -> bind m k = Err e.
Proof. intros ->; reflexivity. Qed.

Ltac inv_bind H :=
  match type of H with
  | bind _ _ = Ok _ =>
      let a := fresh "a" in
      let Ha := fresh "Ha" in
      apply bind_Ok in H; destruct H as (a & Ha & H); inv_bind H
  | Ok _ = Ok _ => injection H as H
  | _ => idtac
  end.


Lemma mapM_Forall2 {A B : Type} (f : A -> result B) (l : list A) (r : list B) :
  mapM f l = Ok r -> Forall2 (fun x y => f x = Ok y) l r.
Proof.
  revert r; induction l as [|x l IH]; simpl; intros r H.
  - injection H as <-. constructor.
  - inv_bind H. subst r. constructor; auto.
Qed.

Lemma mapM_total {A B : Type} (f : A -> result B) (l : list A) :
  Forall (fun x => is_ok (f x) = true) l -> is_ok (mapM f l) = true.
Proof.
  induction 1 as [|x l Hx _ IH]; simpl; [reflexivity|].
  destruct (f x); [simpl | discriminate].
  destruct (mapM f l); [reflexivity | discriminate].
Qed.


Lemma is_ok_true {A : Type} (m : result A) :
  is_ok m = true -> exists a, m = Ok a.
Proof. destruct m; [eauto | discriminate]. Qed.

(** ** Orchestration *)

Import SpecForge.

Lemma create_specification_Ok (data : PyVal) (spec : Specification.t) :
  _create_specification data = Ok spec -> build_specification data = Ok spec.
Proof.
  unfold _create_specification.
  destruct (build_specification data) as [s|[]]; congruence.
Qed.

Lemma process_spec_error (data : PyVal) (fmt : string) :
  is_ok (process_spec data fmt) = false ->
  exists m, process_spec data fmt = Err (SpecForgeError m).
Proof.
  unfold process_spec.
  destruct (bind _ _); [discriminate | eauto].
Qed.

Lemma process_spec_fails (data : PyVal) (fmt : string) :
  (forall spec, _create_specification data = Ok spec ->
                is_ok (OutputFormatter.format_text spec) = false) ->
  is_ok (process_spec data fmt) = false.
Proof.
  intros H. unfold process_spec.
  destruct (_create_specification data) as [spec|e]; simpl; [|reflexivity].
  specialize (H spec eq_refl).
  destruct (OutputFormatter.format_text spec); [discriminate | reflexivity].
Qed.

Lemma process_spec_Ok (data : PyVal) (fmt report : string) :
  process_spec data fmt = Ok report ->
  exists spec lines,
    build_specification data = Ok spec /\
    OutputFormatter.format_lines spec = Ok lines /\
    report = join OutputFormatter.newline lines.
Proof.
  unfold process_spec. intros H.
  destruct (_create_specification data) as [spec|e] eqn:Hc; simpl in H;
    [|discriminate].
  unfold OutputFormatter.format_text in H.
  destruct (OutputFormatter.format_lines spec) as [lines|e] eqn:Hl; simpl in H;
    [|discriminate].
  exists spec, lines. injection H as <-.
  auto using create_specification_Ok.
Qed.


(** ** Rendering of open-ended test records *)

Import OutputFormatter.











(** ** Shape reconciliation in [error_handling] *)

Import SpecificationProcessor.





(** C6: when the [error_handling] section normalizes, its strategies
    are [{"general": L}] for a raw list [L], the raw mapping itself for
    a mapping, and the empty mapping for any other raw value and for an
    absent key. *)
Theorem strategies_reconciled (data : PyVal) (eh : ErrorHandling.t) :
  process_error_handling data = Ok eh ->
  exists section,
    py_get data "error_handling" empty_dict = Ok (VDict section) /\
    match lookup "strategies" section with
    | Some (VList L) => ErrorHandling.strategies eh = VDict [("general", VList L)]
    | Some (VDict m) => ErrorHandling.strategies eh = VDict m
    | Some _ | None => ErrorHandling.strategies eh = VDict []
    end.
Proof.
  unfold process_error_handling. intros H. inv_bind H. subst eh. simpl.
  destruct a as [| | | | |section]; try discriminate.
  exists section. split; [assumption|].
  simpl in Ha3. injection Ha3 as <-.
  destruct (lookup "strategies" section) as [[]|]; reflexivity.
Qed.

Definition strategies_list_doc : PyVal :=
  VDict [("error_handling",
          VDict [("strategies", VList [VStr "check bounds"; VStr "log"])])].

Lemma strategies_reconciled_witness :
  exists eh,
    process_error_handling strategies_list_doc = Ok eh /\
    ErrorHandling.strategies eh
    = VDict [("general", VList [VStr "check bounds"; VStr "log"])].
Proof.
  eexists. split; [reflexivity|].
  destruct (strategies_reconciled strategies_list_doc _ eq_refl)
    as (section & Hs & Hm).
  injection Hs as <-. exact Hm.
Defined.

(** ** Expansion of test entries *)

Lemma Forall2_weaken {A B : Type} (P Q : A -> B -> Prop) (l : list A) (r : list B) :
  (forall x y, P x y -> Q x y) -> Forall2 P l r -> Forall2 Q l r.
Proof. intros HPQ; induction 1; constructor; auto. Qed.

Lemma Forall2_map_fun {A B : Type} (f : A -> B) (Q : A -> B -> Prop) (l : list A) :
  (forall x, Q x (f x)) -> Forall2 Q l (map f l).
Proof. intros HQ; induction l; simpl; constructor; auto. Qed.

(** What the normalized unit test [tc] of a raw entry has to be. *)
Definition unit_test_of (raw : PyVal) (tc : TestCase.t) : Prop :=
  match raw with
  | VStr s => tc = TestCase.mk (VStr s) (VStr "TBD") (VStr "TBD") (VList [])
  | VDict d =>
      lookup "name" d = Some (TestCase.name tc) /\
      TestCase.input tc = or_default (lookup "input" d) (VStr "TBD") /\
      TestCase.expected_output tc
      = or_default (lookup "expected_output" d) (VStr "TBD") /\
      TestCase.validation tc = or_default (lookup "validation" d) (VList [])
  | _ => False
  end.

(** A string is wrapped under [key]; anything else is kept. *)
Definition wrapped_under (key : string) (raw typed : PyVal) : Prop :=
  match raw with
  | VStr s => typed = VDict [(key, VStr s)]
  | _ => typed = raw
  end.

Lemma unit_test_spec (raw : PyVal) (tc : TestCase.t) :
  unit_test raw = Ok tc -> unit_test_of raw tc.
Proof.
  destruct raw as [| | |s|l|d]; simpl; try discriminate.
  - intros H. now injection H as <-.
  - unfold unit_test. simpl.
    destruct (lookup "name" d) as [n|]; simpl; [|discriminate].
    intros H. injection H as <-. simpl. auto.
Qed.

(** C7: when the [testing] section normalizes, each unit test entry [s]
    given as a string is the test case named [s] with input and
    expected output "TBD" and no validation, each mapping entry has its
    own name and "TBD" for an absent input or expected output; each
    integration test string [s] is the record [{name: s}], each
    conformance test string the record [{standard: s}], and every other
    entry of these two lists is kept as it is. *)
Theorem testing_entries_expanded (data : PyVal) (t : Testing.t) :
  process_testing data = Ok t ->
  Forall2 unit_test_of (raw_entries data "testing" "unit_tests")
          (Testing.unit_tests t) /\
  Forall2 (wrapped_under "name") (raw_entries data "testing" "integration_tests")
          (Testing.integration_tests t) /\
  Forall2 (wrapped_under "standard") (raw_entries data "testing" "conformance_tests")
          (Testing.conformance_tests t).
Proof.
  unfold process_testing. intros H. inv_bind H. subst t. simpl.
  unfold raw_entries. rewrite Ha. rewrite Ha0, Ha1, Ha3, Ha4, Ha5, Ha6.
  repeat split.
  - apply mapM_Forall2 in Ha2.
    revert Ha2. apply Forall2_weaken. exact unit_test_spec.
  - apply Forall2_map_fun. intros []; reflexivity.
  - apply Forall2_map_fun. intros []; reflexivity.
Qed.

Definition testing_doc : PyVal :=
  VDict [("testing",
          VDict [("unit_tests",
                  VList [VStr "empty input";
                         VDict [("name", VStr "one byte"); ("input", VStr "A")]]);
                 ("integration_tests",
                  VList [VStr "round trip"; VDict [("steps", VList [VStr "run"])]]);
                 ("conformance_tests", VList [VStr "RFC 4648"])])].

Lemma testing_entries_expanded_witness :
  exists t,
    process_testing testing_doc = Ok t /\
    Forall2 unit_test_of (raw_entries testing_doc "testing" "unit_tests")
            (Testing.unit_tests t) /\
    Testing.integration_tests t
    = [VDict [("name", VStr "round trip")]; VDict [("steps", VList [VStr "run"])]] /\
    Testing.conformance_tests t = [VDict [("standard", VStr "RFC 4648")]].
Proof.
  eexists. split; [reflexivity|].
  split; [exact (proj1 (testing_entries_expanded testing_doc _ eq_refl))|].
  split; reflexivity.
Defined.

(** ** The end-to-end scenario *)

Definition memcpy_lines : list string :=
  ["=== SPECIFICATION ==="; "Name: memcpy_impl"; "Version: 1.0";
   "Description: fast copy"; "";
   "=== HEADER FORMAT ==="; "Border Line: "; "Assembly Lines:"; "Directives:"; "";
   "=== REGISTER USAGE ===";
   "=== DATA STRUCTURES ==="; "Structure: Header"; "Documentation: "; "Fields:";
   "  len (u32): length"; "";
   "=== ALGORITHMS ===";
   "=== ERROR HANDLING ==="; "Strategies:"; "Error Types:";
   "Syscall Requirements:"; "";
   "=== SECTION REQUIREMENTS ==="; "Data Section:"; "BSS Section:";
   "Text Section:"; "";
   "=== PERFORMANCE ==="; "Time Complexity: "; "Space Complexity: ";
   "Constraints:"; "Register Usage:"; "Memory Access:"; "Benchmarks:"; "";
   "=== TESTING ==="; "Unit Tests:"; "Integration Tests:"; "Conformance Tests:"; "";
   "=== CODE STYLE ==="; "Indentation:"; "Comments:"; "Naming:"; "Organization:"].

(** The list [lines] that [process_spec] joins into the report. *)
Definition report_lines (data : PyVal) : result (list string) :=
  spec <- _create_specification data ;; format_lines spec.

Lemma process_spec_report_lines (data : PyVal) (fmt : string) (lines : list string) :
  report_lines data = Ok lines ->
  process_spec data fmt = Ok (join newline lines).
Proof.
  unfold report_lines, process_spec, format_text. intros H.
  destruct (_create_specification data) as [spec|]; simpl in *; [|discriminate].
  now rewrite H.
Qed.

(** The claim as the specification words it: every section other than
    the first and the data structures has its label and no body line. *)
Definition other_sections_empty (lines : list string) : Prop :=
  forall h, In h section_headers ->
            h <> "=== SPECIFICATION ===" -> h <> "=== DATA STRUCTURES ===" ->
            In h lines /\ section_body h lines = [].

(** C9, as stated, fails on the scenario: the header format section of
    its report has body lines, the fixed sub-labels. *)
Lemma memcpy_sections_not_all_empty :
  exists lines,
    report_lines memcpy_doc = Ok lines /\
    process_spec memcpy_doc "text" = Ok (join newline lines) /\
    ~ other_sections_empty lines.
Proof.
  exists memcpy_lines. split; [reflexivity|]. split; [reflexivity|].
  intros H.
  destruct (H "=== HEADER FORMAT ===") as [_ Hb];
    [simpl; tauto | discriminate | discriminate | discriminate].
Qed.

(** C9, amended: the scenario forges to the report below.  It has the
    specification block naming memcpy_impl, the data structures block
    with structure Header and its one field line, and every other
    section label; the register usage and algorithms sections have no
    body line, the other sections have their fixed sub-labels and no
    item line. *)
Theorem memcpy_report :
  report_lines memcpy_doc = Ok memcpy_lines /\
  process_spec memcpy_doc "text" = Ok (join newline memcpy_lines) /\
  (forall h, In h section_headers -> In h memcpy_lines) /\
  section_body "=== SPECIFICATION ===" memcpy_lines
  = ["Name: memcpy_impl"; "Version: 1.0"; "Description: fast copy"] /\
  section_body "=== DATA STRUCTURES ===" memcpy_lines
  = ["Structure: Header"; "Documentation: "; "Fields:"; "  len (u32): length"] /\
  section_body "=== REGISTER USAGE ===" memcpy_lines = [] /\
  section_body "=== ALGORITHMS ===" memcpy_lines = [] /\
  section_body "=== HEADER FORMAT ===" memcpy_lines
  = ["Border Line: "; "Assembly Lines:"; "Directives:"] /\
  section_body "=== ERROR HANDLING ===" memcpy_lines
  = ["Strategies:"; "Error Types:"; "Syscall Requirements:"] /\
  section_body "=== SECTION REQUIREMENTS ===" memcpy_lines
  = ["Data Section:"; "BSS Section:"; "Text Section:"] /\
  section_body "=== PERFORMANCE ===" memcpy_lines
  = ["Time Complexity: "; "Space Complexity: "; "Constraints:"; "Register Usage:";
     "Memory Access:"; "Benchmarks:"] /\
  section_body "=== TESTING ===" memcpy_lines
  = ["Unit Tests:"; "Integration Tests:"; "Conformance Tests:"] /\
  section_body "=== CODE STYLE ===" memcpy_lines
  = ["Indentation:"; "Comments:"; "Naming:"; "Organization:"].
Proof.
  split; [reflexivity|]. split; [reflexivity|]. split.
  - intros h Hh. simpl in Hh.
    repeat (destruct Hh as [<-|Hh]; [simpl; tauto|]). contradiction.
  - repeat split; reflexivity.
Qed.

(** ** No field is left undefined *)

Definition present (v : PyVal) : bool :=
  match v with VNone => false | _ => true end.

(** The raw document holds no explicit null at any depth. *)
Fixpoint no_null (v : PyVal) : bool :=
  match v with
  | VNone => false
  | VList l => forallb no_null l
  | VDict d => forallb (fun kv => no_null (snd kv)) d
  | _ => true
  end.

(** Every field of every entity of the model is present; [opt] judges
    the two fields declared [Optional], [RegisterInfo.byte_regs] and
    [Benchmark.expected_time]. *)
Section FieldsPresent.
Variable opt : PyVal -> bool.

Definition header_present (h : HeaderFormat.t) : bool :=
  present (HeaderFormat.border_line h) && present (HeaderFormat.file_name_line h)
  && present (HeaderFormat.description_line h)
  && present (HeaderFormat.blank_comment h)
  && present (HeaderFormat.assembly_lines h) && present (HeaderFormat.directives h).

Definition register_present (r : RegisterInfo.t) : bool :=
  present (RegisterInfo.name r) && present (RegisterInfo.purpose r)
  && opt (RegisterInfo.byte_regs r) && present (RegisterInfo.constraints r).

Definition field_present (f : Field.t) : bool :=
  present (Field.name f) && present (Field.type f)
  && present (Field.description f) && present (Field.constraints f).

Definition structure_present (s : DataStructure.t) : bool :=
  forallb field_present (DataStructure.fields s)
  && present (DataStructure.documentation s)
  && present (DataStructure.constraints s)
  && present (DataStructure.examples s) && present (DataStructure.complexity s).

Definition algorithm_present (a : Algorithm.t) : bool :=
  let req := Algorithm.implementation_requirements a in
  let pad := ImplementationRequirements.padding_rules req in
  present (Algorithm.description a)
  && present (ImplementationRequirements.memory_operations req)
  && present (ImplementationRequirements.encoding_requirements req)
  && present (ImplementationRequirements.leftover_handling req)
  && present (PaddingRules.one_byte pad) && present (PaddingRules.two_bytes pad)
  && present (Algorithm.steps a) && present (Algorithm.complexity a)
  && present (Algorithm.edge_cases a) && present (Algorithm.preconditions a)
  && present (Algorithm.postconditions a) && present (Algorithm.invariants a)
  && present (Algorithm.examples a).

Definition error_type_present (e : ErrorType.t) : bool :=
  present (ErrorType.name e) && present (ErrorType.description e)
  && present (ErrorType.handling e).

Definition error_handling_present (e : ErrorHandling.t) : bool :=
  present (ErrorHandling.strategies e)
  && forallb error_type_present (ErrorHandling.error_types e)
  && present (ErrorHandling.syscall_requirements e).

Definition bss_present (b : BssVariable.t) : bool :=
  present (BssVariable.name b) && present (BssVariable.size b)
  && present (BssVariable.align b) && present (BssVariable.purpose b).

Definition section_requirements_present (s : SectionRequirements.t) : bool :=
  present (SectionRequirements.data s)
  && forallb bss_present (SectionRequirements.bss s)
  && present (SectionRequirements.text s).

Definition benchmark_present (b : Benchmark.t) : bool :=
  present (Benchmark.name b) && present (Benchmark.input_size b)
  && opt (Benchmark.expected_time b) && present (Benchmark.requirements b).

Definition performance_present (p : Performance.t) : bool :=
  present (Performance.time_complexity p) && present (Performance.space_complexity p)
  && present (Performance.constraints p) && present (Performance.register_usage p)
  && present (Performance.memory_access p)
  && forallb benchmark_present (Performance.benchmarks p).

Definition test_case_present (t : TestCase.t) : bool :=
  present (TestCase.name t) && present (TestCase.input t)
  && present (TestCase.expected_output t) && present (TestCase.validation t).

Definition testing_present (t : Testing.t) : bool :=
  forallb test_case_present (Testing.unit_tests t)
  && forallb present (Testing.integration_tests t)
  && forallb present (Testing.conformance_tests t).

Definition code_style_present (c : CodeStyle.t) : bool :=
  present (CodeStyle.indentation c) && present (CodeStyle.comments c)
  && present (CodeStyle.naming c) && present (CodeStyle.organization c).

Definition fields_present (spec : Specification.t) : bool :=
  present (Specification.metadata spec)
  && header_present (Specification.header_format spec)
  && forallb register_present
       (RegisterUsage.general_purpose (Specification.register_usage spec))
  && forallb (fun kv => structure_present (snd kv)) (Specification.structures spec)
  && forallb (fun kv => algorithm_present (snd kv)) (Specification.algorithms spec)
  && error_handling_present (Specification.error_handling spec)
  && section_requirements_present (Specification.section_requirements spec)
  && performance_present (Specification.performance spec)
  && testing_present (Specification.testing spec)
  && code_style_present (Specification.code_style spec).

End FieldsPresent.

(** A register that does not list its byte registers, and a benchmark
    without an expected time. *)
Definition optional_fields_doc : PyVal :=
  VDict [("metadata", VDict [("name", VStr "crc"); ("version", VStr "2");
                             ("description", VStr "checksum")]);
         ("register_usage",
          VDict [("general_purpose",
                  VList [VDict [("name", VStr "rax");
                                ("purpose", VStr "accumulator")]])]);
         ("performance",
          VDict [("benchmarks",
                  VList [VDict [("name", VStr "small");
                                ("input_size", VStr "64 bytes")]])])].

(** C3, as stated, fails: the register of this document is normalized
    with [byte_regs] equal to [None], and its benchmark with
    [expected_time] equal to [None]. *)
Lemma absent_optional_fields_are_None :
  exists spec reg bench,
    _create_specification optional_fields_doc = Ok spec /\
    RegisterUsage.general_purpose (Specification.register_usage spec) = [reg] /\
    RegisterInfo.byte_regs reg = VNone /\
    Performance.benchmarks (Specification.performance spec) = [bench] /\
    Benchmark.expected_time bench = VNone /\
    fields_present present spec = false.
Proof. do 3 eexists. repeat split. Qed.

Arguments py_get : simpl never.
Arguments py_getitem : simpl never.
Arguments py_iter : simpl never.
Arguments py_items : simpl never.

Lemma lookup_no_null (k : string) (d : dict) (v : PyVal) :
  lookup k d = Some v -> no_null (VDict d) = true -> no_null v = true.
Proof.
  simpl. induction d as [|[k' v'] d IH]; simpl; [discriminate|].
  intros H Hn. apply andb_prop in Hn. destruct Hn as [Hv Hd].
  destruct (String.eqb k k'); [injection H as <-; assumption | auto].
Qed.

Lemma py_get_no_null (v : PyVal) (k : string) (dflt x : PyVal) :
  py_get v k dflt = Ok x -> no_null v = true -> no_null dflt = true ->
  no_null x = true.
Proof.
  unfold py_get. destruct v; try discriminate. intros H Hn Hd. injection H as <-.
  destruct (lookup k l) eqn:E; simpl; [|assumption].
  eapply lookup_no_null; eauto.
Qed.

Lemma py_getitem_no_null (v : PyVal) (k : string) (x : PyVal) :
  py_getitem v k = Ok x -> no_null v = true -> no_null x = true.
Proof.
  unfold py_getitem. destruct v; try discriminate. intros H Hn.
  destruct (lookup k l) eqn:E; [|discriminate]. injection H as <-.
  eapply lookup_no_null; eauto.
Qed.

Lemma py_iter_no_null (v : PyVal) (l : list PyVal) :
  py_iter v = Ok l -> no_null v = true -> forallb no_null l = true.
Proof.
  unfold py_iter. destruct v as [| | |s|l'|d]; try discriminate; intros H Hn;
    injection H as <-.
  - clear Hn. induction s; simpl; auto.
  - assumption.
  - clear Hn. induction d; simpl; auto.
Qed.

Lemma py_items_no_null (v : PyVal) (d : dict) :
  py_items v = Ok d -> no_null v = true ->
  forallb (fun kv => no_null (snd kv)) d = true.
Proof.
  unfold py_items. destruct v; try discriminate. intros H Hn. now injection H as <-.
Qed.

Lemma no_null_present (v : PyVal) : no_null v = true -> present v = true.
Proof. destruct v; simpl; auto. Qed.

Lemma mapM_forallb {A B : Type} (f : A -> result B) (P : A -> bool) (Q : B -> bool)
      (l : list A) (r : list B) :
  (forall x y, f x = Ok y -> P x = true -> Q y = true) ->
  mapM f l = Ok r -> forallb P l = true -> forallb Q r = true.
Proof.
  intros HPQ. revert r. induction l as [|x l IH]; simpl; intros r H Hl.
  - now injection H as <-.
  - inv_bind H. subst r. apply andb_prop in Hl. destruct Hl as [Hx Hl]. simpl.
    rewrite (HPQ _ _ Ha Hx). simpl. auto.
Qed.

Lemma dict_set_forallb {V : Type} (P : V -> bool) (d : list (string * V))
      (k : string) (v : V) :
  forallb (fun kv => P (snd kv)) d = true -> P v = true ->
  forallb (fun kv => P (snd kv)) (dict_set d k v) = true.
Proof.
  intros Hd Hv. induction d as [|[k' v'] d IH]; simpl in *.
  - now rewrite Hv.
  - apply andb_prop in Hd. destruct Hd as [Hv' Hd].
    destruct (String.eqb k k'); simpl.
    + now rewrite Hv, Hd.
    + now rewrite Hv', (IH Hd).
Qed.

Lemma foldM_dict_forallb {V : Type} (f : string -> PyVal -> result V)
      (P : PyVal -> bool) (Q : V -> bool) (items : dict) :
  (forall k x y, f k x = Ok y -> P x = true -> Q y = true) ->
  forall acc res,
    foldM (fun acc kv => s <- f (fst kv) (snd kv) ;; Ok (dict_set acc (fst kv) s))
          items acc = Ok res ->
    forallb (fun kv => P (snd kv)) items = true ->
    forallb (fun kv => Q (snd kv)) acc = true ->
    forallb (fun kv => Q (snd kv)) res = true.
Proof.
  intros HPQ. induction items as [|[k x] items IH]; simpl; intros acc res H Hi Ha.
  - now injection H as <-.
  - apply andb_prop in Hi. destruct Hi as [Hx Hi].
    apply bind_Ok in H. destruct H as (acc' & H1 & H2).
    apply bind_Ok in H1. destruct H1 as (s & Hs & H1). injection H1 as <-.
    apply (IH _ _ H2 Hi). apply dict_set_forallb; eauto.
Qed.

(** Derive [no_null] for everything read from a value without nulls. *)
Ltac no_null_step :=
  match goal with
  | H : py_get ?a _ _ = Ok ?x, Hn : no_null ?a = true |- _ =>
      lazymatch goal with
      | _ : no_null x = true |- _ => fail
      | _ => assert (no_null x = true)
               by (apply (py_get_no_null _ _ _ _ H Hn); reflexivity)
      end
  | H : py_getitem ?a _ = Ok ?x, Hn : no_null ?a = true |- _ =>
      lazymatch goal with
      | _ : no_null x = true |- _ => fail
      | _ => assert (no_null x = true) by (apply (py_getitem_no_null _ _ _ H Hn))
      end
  | H : py_iter ?a = Ok ?x, Hn : no_null ?a = true |- _ =>
      lazymatch goal with
      | _ : forallb no_null x = true |- _ => fail
      | _ => assert (forallb no_null x = true) by (apply (py_iter_no_null _ _ H Hn))
      end
  | H : py_items ?a = Ok ?x, Hn : no_null ?a = true |- _ =>
      lazymatch goal with
      | _ : forallb (fun kv => no_null (snd kv)) x = true |- _ => fail
      | _ => assert (forallb (fun kv => no_null (snd kv)) x = true)
               by (apply (py_items_no_null _ _ H Hn))
      end
  end.

Ltac present_fields :=
  repeat no_null_step; simpl;
  repeat match goal with
         | H : no_null ?x = true |- context [present ?x] =>
             rewrite (no_null_present x H)
         end;
  simpl; auto.

(** The judgement of an [Optional] field that lets [None] through. *)
Definition optional (_ : PyVal) : bool := true.

Lemma forallb_concat {A : Type} (Q : A -> bool) (ll : list (list A)) :
  forallb (forallb Q) ll = true -> forallb Q (concat ll) = true.
Proof.
  induction ll as [|l ll IH]; simpl; [reflexivity|].
  intros H. apply andb_prop in H. destruct H as [Hl Hll].
  rewrite forallb_app, Hl. simpl. auto.
Qed.

Lemma forallb_map_present (f : PyVal -> PyVal) (l : list PyVal) :
  (forall x, no_null x = true -> present (f x) = true) ->
  forallb no_null l = true -> forallb present (map f l) = true.
Proof.
  intros Hf. induction l as [|x l IH]; simpl; [reflexivity|].
  intros H. apply andb_prop in H. destruct H as [Hx Hl].
  now rewrite (Hf x Hx), (IH Hl).
Qed.

Lemma header_format_present (data : PyVal) (h : HeaderFormat.t) :
  no_null data = true -> process_header_format data = Ok h ->
  header_present h = true.
Proof.
  unfold process_header_format. intros Hn H. inv_bind H. subst h.
  unfold header_present. present_fields.
Qed.

Lemma register_info_present (reg : PyVal) (r : RegisterInfo.t) :
  register_info reg = Ok r -> no_null reg = true ->
  register_present optional r = true.
Proof.
  unfold register_info. intros H Hn. inv_bind H. subst r.
  unfold register_present, optional. present_fields.
Qed.

Lemma register_usage_present (data : PyVal) (u : RegisterUsage.t) :
  no_null data = true -> process_register_usage data = Ok u ->
  forallb (register_present optional) (RegisterUsage.general_purpose u) = true.
Proof.
  unfold process_register_usage. intros Hn H. inv_bind H. subst u. simpl.
  repeat no_null_step.
  now apply (mapM_forallb _ _ _ _ _ register_info_present Ha2).
Qed.

Lemma field_of_present (field : PyVal) (f : Field.t) :
  field_of field = Ok f -> no_null field = true -> field_present f = true.
Proof.
  unfold field_of. intros H Hn. inv_bind H. subst f.
  unfold field_present. present_fields.
Qed.

Lemma data_structure_present (name : string) (struct : PyVal) (s : DataStructure.t) :
  data_structure name struct = Ok s -> no_null struct = true ->
  structure_present s = true.
Proof.
  unfold data_structure. intros H Hn. inv_bind H. subst s.
  unfold structure_present. repeat no_null_step. simpl.
  rewrite (mapM_forallb _ _ _ _ _ field_of_present Ha1) by assumption.
  present_fields.
Qed.

Lemma data_structures_present (data : PyVal) (ss : list (string * DataStructure.t)) :
  no_null data = true -> process_data_structures data = Ok ss ->
  forallb (fun kv => structure_present (snd kv)) ss = true.
Proof.
  unfold process_data_structures. intros Hn H. inv_bind H.
  repeat no_null_step.
  eapply (foldM_dict_forallb data_structure no_null structure_present); eauto.
  intros k x y. apply data_structure_present.
Qed.

Lemma algorithm_present_ok (name : string) (algo : PyVal) (a : Algorithm.t) :
  algorithm name algo = Ok a -> no_null algo = true -> algorithm_present a = true.
Proof.
  unfold algorithm. intros H Hn. inv_bind H. subst a.
  unfold algorithm_present. present_fields.
Qed.

Lemma algorithms_present (data : PyVal) (als : list (string * Algorithm.t)) :
  no_null data = true -> process_algorithms data = Ok als ->
  forallb (fun kv => algorithm_present (snd kv)) als = true.
Proof.
  unfold process_algorithms. intros Hn H. inv_bind H.
  repeat no_null_step.
  eapply (foldM_dict_forallb algorithm no_null algorithm_present); eauto.
  intros k x y. apply algorithm_present_ok.
Qed.

Lemma error_type_present_ok (err : PyVal) (es : list ErrorType.t) :
  error_type err = Ok es -> no_null err = true ->
  forallb error_type_present es = true.
Proof.
  unfold error_type. destruct err as [| | |s|l|d]; intros H Hn;
    try (injection H as <-; reflexivity).
  inv_bind H. subst es. unfold error_type_present. present_fields.
Qed.

Lemma error_handling_present_ok (data : PyVal) (e : ErrorHandling.t) :
  no_null data = true -> process_error_handling data = Ok e ->
  error_handling_present e = true.
Proof.
  unfold process_error_handling. intros Hn H. inv_bind H. subst e.
  unfold error_handling_present. repeat no_null_step. simpl.
  rewrite forallb_concat
    by (now apply (mapM_forallb _ _ _ _ _ error_type_present_ok Ha2)).
  assert (Hs : present (strategies_of a3) = true) by (destruct a3; reflexivity).
  rewrite Hs. present_fields.
Qed.

Lemma bss_variable_present (var : PyVal) (b : BssVariable.t) :
  bss_variable var = Ok b -> no_null var = true -> bss_present b = true.
Proof.
  unfold bss_variable. intros H Hn. inv_bind H. subst b.
  unfold bss_present. present_fields.
Qed.

Lemma section_requirements_present_ok (data : PyVal) (s : SectionRequirements.t) :
  no_null data = true -> process_section_requirements data = Ok s ->
  section_requirements_present s = true.
Proof.
  unfold process_section_requirements. intros Hn H. inv_bind H. subst s.
  unfold section_requirements_present. repeat no_null_step. simpl.
  rewrite (mapM_forallb _ _ _ _ _ bss_variable_present Ha3) by assumption.
  present_fields.
Qed.

Lemma benchmark_present_ok (bench : PyVal) (b : Benchmark.t) :
  benchmark bench = Ok b -> no_null bench = true ->
  benchmark_present optional b = true.
Proof.
  unfold benchmark. intros H Hn. inv_bind H. subst b.
  unfold benchmark_present, optional. present_fields.
Qed.

Lemma performance_present_ok (data : PyVal) (p : Performance.t) :
  no_null data = true -> process_performance data = Ok p ->
  performance_present optional p = true.
Proof.
  unfold process_performance. intros Hn H. inv_bind H. subst p.
  unfold performance_present. repeat no_null_step. simpl.
  rewrite (mapM_forallb _ _ _ _ _ benchmark_present_ok Ha2) by assumption.
  present_fields.
Qed.

Lemma unit_test_present (test : PyVal) (t : TestCase.t) :
  unit_test test = Ok t -> no_null test = true -> test_case_present t = true.
Proof.
  unfold unit_test.
  destruct test; intros H Hn; try discriminate;
    try (injection H as <-; reflexivity);
    inv_bind H; subst t; unfold test_case_present; present_fields.
Qed.

Lemma testing_present_ok (data : PyVal) (t : Testing.t) :
  no_null data = true -> process_testing data = Ok t -> testing_present t = true.
Proof.
  unfold process_testing. intros Hn H. inv_bind H. subst t.
  unfold testing_present. repeat no_null_step. simpl.
  rewrite (mapM_forallb _ _ _ _ _ unit_test_present Ha2) by assumption.
  rewrite !forallb_map_present; auto;
    intros [] Hx; simpl; auto; discriminate.
Qed.

Lemma code_style_present_ok (data : PyVal) (c : CodeStyle.t) :
  no_null data = true -> process_code_style data = Ok c ->
  code_style_present c = true.
Proof.
  unfold process_code_style. intros Hn H. inv_bind H. subst c.
  unfold code_style_present. present_fields.
Qed.

(** An [Optional] field is [None] exactly when the raw item, a mapping,
    has no such key. *)
Definition none_iff_absent (key : string) (raw v : PyVal) : Prop :=
  exists d, raw = VDict d /\ (v = VNone <-> lookup key d = None).

Lemma py_getitem_dict (v : PyVal) (k : string) (x : PyVal) :
  py_getitem v k = Ok x -> exists d, v = VDict d /\ lookup k d = Some x.
Proof.
  unfold py_getitem. destruct v as [| | | | |d]; try discriminate.
  destruct (lookup k d) as [y|] eqn:E; [|discriminate].
  intros H. injection H as <-. exists d. auto.
Qed.

Lemma optional_get (key : string) (d : dict) (v : PyVal) :
  no_null (VDict d) = true ->
  py_get (VDict d) key VNone = Ok v -> none_iff_absent key (VDict d) v.
Proof.
  intros Hn H. exists d. split; [reflexivity|].
  unfold py_get in H. injection H as <-.
  destruct (lookup key d) as [x|] eqn:E; simpl; [|tauto].
  pose proof (lookup_no_null _ _ _ E Hn) as Hx.
  split; [intros -> | ]; discriminate.
Qed.

Lemma register_info_optional (reg : PyVal) (r : RegisterInfo.t) :
  register_info reg = Ok r -> no_null reg = true ->
  none_iff_absent "byte_regs" reg (RegisterInfo.byte_regs r).
Proof.
  unfold register_info. intros H Hn. inv_bind H. subst r. simpl.
  destruct (py_getitem_dict _ _ _ Ha) as (d & -> & _).
  now apply optional_get.
Qed.

Lemma benchmark_optional (bench : PyVal) (b : Benchmark.t) :
  benchmark bench = Ok b -> no_null bench = true ->
  none_iff_absent "expected_time" bench (Benchmark.expected_time b).
Proof.
  unfold benchmark. intros H Hn. inv_bind H. subst b. simpl.
  destruct (py_getitem_dict _ _ _ Ha) as (d & -> & _).
  now apply optional_get.
Qed.

Lemma mapM_Forall2_on {A B : Type} (f : A -> result B) (P : A -> bool)
      (R : A -> B -> Prop) (l : list A) (r : list B) :
  (forall x y, f x = Ok y -> P x = true -> R x y) ->
  mapM f l = Ok r -> forallb P l = true -> Forall2 R l r.
Proof.
  intros HR. revert r. induction l as [|x l IH]; simpl; intros r H Hl.
  - injection H as <-. constructor.
  - inv_bind H. subst r. apply andb_prop in Hl. destruct Hl as [Hx Hl].
    constructor; auto.
Qed.

(** C3, amended: when a raw document without explicit nulls normalizes,
    every field of every entity of the model other than
    [RegisterInfo.byte_regs] and [Benchmark.expected_time] is present
    (not [None]); these two fields are [None] exactly when the raw
    register or benchmark has no such key. *)
Theorem normalized_fields_present (data : PyVal) (spec : Specification.t) :
  no_null data = true ->
  _create_specification data = Ok spec ->
  fields_present optional spec = true /\
  Forall2 (fun raw reg => none_iff_absent "byte_regs" raw (RegisterInfo.byte_regs reg))
          (raw_entries data "register_usage" "general_purpose")
          (RegisterUsage.general_purpose (Specification.register_usage spec)) /\
  Forall2 (fun raw b => none_iff_absent "expected_time" raw (Benchmark.expected_time b))
          (raw_entries data "performance" "benchmarks")
          (Performance.benchmarks (Specification.performance spec)).
Proof.
  intros Hn Hc. apply create_specification_Ok in Hc.
  unfold build_specification in Hc. inv_bind Hc. subst spec. simpl.
  split; [|split].
  - unfold fields_present. simpl.
    unfold process_metadata in Ha.
    rewrite (no_null_present a)
      by (apply (py_get_no_null _ _ _ _ Ha Hn); reflexivity).
    rewrite (header_format_present _ _ Hn Ha0).
    rewrite (register_usage_present _ _ Hn Ha1).
    rewrite (data_structures_present _ _ Hn Ha2).
    rewrite (algorithms_present _ _ Hn Ha3).
    rewrite (error_handling_present_ok _ _ Hn Ha4).
    rewrite (section_requirements_present_ok _ _ Hn Ha5).
    rewrite (performance_present_ok _ _ Hn Ha6).
    rewrite (testing_present_ok _ _ Hn Ha7).
    rewrite (code_style_present_ok _ _ Hn Ha8).
    reflexivity.
  - clear - Hn Ha1. unfold process_register_usage in Ha1. inv_bind Ha1.
    subst a1. simpl. unfold raw_entries. rewrite Ha, Ha0, Ha2.
    repeat no_null_step.
    now apply (mapM_Forall2_on _ _ _ _ _ register_info_optional Ha3).
  - clear - Hn Ha6. unfold process_performance in Ha6. inv_bind Ha6.
    subst a6. simpl. unfold raw_entries. rewrite Ha, Ha0, Ha1.
    repeat no_null_step.
    now apply (mapM_Forall2_on _ _ _ _ _ benchmark_optional Ha2).
Qed.

Lemma normalized_fields_present_witness :
  exists spec,
    _create_specification optional_fields_doc = Ok spec /\
    fields_present optional spec = true.
Proof.
  eexists. split; [reflexivity|].
  exact (proj1 (normalized_fields_present optional_fields_doc _ eq_refl eq_refl)).
Defined.

(** ** Documents that normalize

    [normalizable] is the shape a raw document must have for
    [_create_specification] to return: every section that is present is
    a mapping, the item lists can be iterated and every item has the
    fields the code reads by subscript.  Nothing is asked of the
    metadata. *)

Definition is_dict (v : PyVal) : bool :=
  match v with VDict _ => true | _ => false end.

Definition iterable (v : PyVal) : bool :=
  match v with VList _ | VDict _ | VStr _ => true | _ => false end.

Definition has_key (k : string) (v : PyVal) : bool :=
  match v with
  | VDict d => match lookup k d with Some _ => true | None => false end
  | _ => false
  end.

(** The value under [k], or [dflt] when [v] has no such key. *)
Definition field (v : PyVal) (k : string) (dflt : PyVal) : PyVal :=
  match v with
  | VDict d => or_default (lookup k d) dflt
  | _ => dflt
  end.

Definition entries (v : PyVal) : list PyVal :=
  match py_iter v with Ok l => l | Err _ => [] end.

Definition dict_items (v : PyVal) : dict :=
  match v with VDict d => d | _ => [] end.

Definition all_entries (P : PyVal -> bool) (v : PyVal) : bool :=
  iterable v && forallb P (entries v).

Definition all_values (P : PyVal -> bool) (v : PyVal) : bool :=
  is_dict v && forallb (fun kv => P (snd kv)) (dict_items v).

Module Shape.

Definition header_format (data : PyVal) : bool :=
  is_dict (field data "header_format" empty_dict).

Definition register (reg : PyVal) : bool :=
  has_key "name" reg && has_key "purpose" reg.

Definition register_usage (data : PyVal) : bool :=
  let usage := field data "register_usage" empty_dict in
  is_dict usage && all_entries register (field usage "general_purpose" empty_list).

Definition struct_field (f : PyVal) : bool :=
  has_key "name" f && has_key "type" f.

Definition structure (struct : PyVal) : bool :=
  is_dict struct && all_entries struct_field (field struct "fields" empty_list).

Definition structures (data : PyVal) : bool :=
  all_values structure (field data "structures" empty_dict).

Definition algorithm (algo : PyVal) : bool :=
  let impl_req := field algo "implementation_requirements" empty_dict in
  is_dict algo && is_dict impl_req
  && is_dict (field impl_req "padding_rules" empty_dict).

Definition algorithms (data : PyVal) : bool :=
  all_values algorithm (field data "algorithms" empty_dict).

Definition error_type (err : PyVal) : bool :=
  match err with
  | VDict _ => has_key "name" err
  | _ => true
  end.

Definition error_handling (data : PyVal) : bool :=
  let err_handling := field data "error_handling" empty_dict in
  is_dict err_handling
  && all_entries error_type (field err_handling "error_types" empty_list).

Definition bss_variable (var : PyVal) : bool :=
  has_key "name" var && has_key "size" var && has_key "align" var
  && has_key "purpose" var.

Definition section_requirements (data : PyVal) : bool :=
  let reqs := field data "section_requirements" empty_dict in
  let bss := field reqs "bss" empty_dict in
  is_dict reqs && is_dict bss
  && all_entries bss_variable (field bss "variables" empty_list).

Definition benchmark (bench : PyVal) : bool :=
  has_key "name" bench && has_key "input_size" bench.

Definition performance (data : PyVal) : bool :=
  let perf := field data "performance" empty_dict in
  is_dict perf && all_entries benchmark (field perf "benchmarks" empty_list).

Definition unit_test (test : PyVal) : bool :=
  match test with
  | VStr _ => true
  | _ => has_key "name" test
  end.

Definition testing (data : PyVal) : bool :=
  let test_data := field data "testing" empty_dict in
  is_dict test_data
  && all_entries unit_test (field test_data "unit_tests" empty_list)
  && iterable (field test_data "integration_tests" empty_list)
  && iterable (field test_data "conformance_tests" empty_list).

Definition code_style (data : PyVal) : bool :=
  is_dict (field data "code_style" empty_dict).

End Shape.

Definition normalizable (data : PyVal) : bool :=
  is_dict data
  && Shape.header_format data && Shape.register_usage data
  && Shape.structures data && Shape.algorithms data
  && Shape.error_handling data && Shape.section_requirements data
  && Shape.performance data && Shape.testing data && Shape.code_style data.

(** ** The model the specification describes

    Each field is the raw value under its key, or the documented
    default when the key is absent; an absent section is the section
    with every field at its default. *)

Module Defaulted.

Definition header_format (data : PyVal) : HeaderFormat.t :=
  let header := field data "header_format" empty_dict in
  HeaderFormat.mk (field header "border_line" empty_str)
    (field header "file_name_line" empty_str)
    (field header "description_line" empty_str)
    (field header "blank_comment" empty_str)
    (field header "assembly_lines" empty_list)
    (field header "directives" empty_list).

Definition register (reg : PyVal) : RegisterInfo.t :=
  RegisterInfo.mk (field reg "name" VNone) (field reg "purpose" VNone)
    (field reg "byte_regs" VNone) (field reg "constraints" empty_list).

Definition register_usage (data : PyVal) : RegisterUsage.t :=
  let usage := field data "register_usage" empty_dict in
  RegisterUsage.mk (map register (entries (field usage "general_purpose" empty_list))).

Definition struct_field (f : PyVal) : Field.t :=
  Field.mk (field f "name" VNone) (field f "type" VNone)
    (field f "description" empty_str) (field f "constraints" empty_list).

Definition structure (name : string) (struct : PyVal) : DataStructure.t :=
  DataStructure.mk name
    (map struct_field (entries (field struct "fields" empty_list)))
    (field struct "documentation" empty_str)
    (field struct "constraints" empty_list)
    (field struct "examples" empty_list)
    (field struct "complexity" empty_dict).

(** A mapping keyed by name: a name given twice keeps its first place
    and its last value. *)
Definition keyed {V : Type} (f : string -> PyVal -> V) (items : dict)
  : list (string * V) :=
  fold_left (fun acc kv => dict_set acc (fst kv) (f (fst kv) (snd kv))) items [].

Definition structures (data : PyVal) : list (string * DataStructure.t) :=
  keyed structure (dict_items (field data "structures" empty_dict)).

Definition algorithm (name : string) (algo : PyVal) : Algorithm.t :=
  let impl_req := field algo "implementation_requirements" empty_dict in
  let padding_rules := field impl_req "padding_rules" empty_dict in
  Algorithm.mk name (field algo "description" empty_str)
    (ImplementationRequirements.mk
       (field impl_req "memory_operations" empty_list)
       (field impl_req "encoding_requirements" empty_list)
       (field impl_req "leftover_handling" empty_list)
       (PaddingRules.mk (field padding_rules "one_byte" empty_list)
          (field padding_rules "two_bytes" empty_list)))
    (field algo "steps" empty_dict) (field algo "complexity" empty_dict)
    (field algo "edge_cases" empty_list) (field algo "preconditions" empty_list)
    (field algo "postconditions" empty_list) (field algo "invariants" empty_list)
    (field algo "examples" empty_list).

Definition algorithms (data : PyVal) : list (string * Algorithm.t) :=
  keyed algorithm (dict_items (field data "algorithms" empty_dict)).

Definition handling_steps : PyVal := VList [VStr "Detect"; VStr "Log"; VStr "Handle"].

Definition error_type (err : PyVal) : list ErrorType.t :=
  match err with
  | VStr s => [ErrorType.mk (VStr s) (VStr ("Handle " ++ s)) handling_steps]
  | VDict _ =>
      [ErrorType.mk (field err "name" VNone)
         (field err "description" (VStr ("Handle " ++ py_str (field err "name" VNone))))
         (field err "handling" handling_steps)]
  | _ => []
  end.

Definition strategies (raw : PyVal) : PyVal :=
  match raw with
  | VList l => VDict [("general", VList l)]
  | VDict d => VDict d
  | _ => VDict []
  end.

Definition error_handling (data : PyVal) : ErrorHandling.t :=
  let err_handling := field data "error_handling" empty_dict in
  ErrorHandling.mk (strategies (field err_handling "strategies" empty_dict))
    (flat_map error_type (entries (field err_handling "error_types" empty_list)))
    (field err_handling "syscall_requirements" empty_list).

Definition bss_variable (var : PyVal) : BssVariable.t :=
  BssVariable.mk (field var "name" VNone) (field var "size" VNone)
    (field var "align" VNone) (field var "purpose" VNone).

Definition section_requirements (data : PyVal) : SectionRequirements.t :=
  let reqs := field data "section_requirements" empty_dict in
  SectionRequirements.mk (field reqs "data" empty_list)
    (map bss_variable
       (entries (field (field reqs "bss" empty_dict) "variables" empty_list)))
    (field reqs "text" empty_dict).

Definition benchmark (bench : PyVal) : Benchmark.t :=
  Benchmark.mk (field bench "name" VNone) (field bench "input_size" VNone)
    (field bench "expected_time" VNone) (field bench "requirements" empty_list).

Definition performance (data : PyVal) : Performance.t :=
  let perf := field data "performance" empty_dict in
  Performance.mk (field perf "time_complexity" empty_str)
    (field perf "space_complexity" empty_str)
    (field perf "constraints" empty_list)
    (field perf "register_usage" empty_list)
    (field perf "memory_access" empty_list)
    (map benchmark (entries (field perf "benchmarks" empty_list))).

Definition unit_test (test : PyVal) : TestCase.t :=
  match test with
  | VStr s => TestCase.mk (VStr s) (VStr "TBD") (VStr "TBD") (VList [])
  | _ => TestCase.mk (field test "name" VNone) (field test "input" (VStr "TBD"))
           (field test "expected_output" (VStr "TBD"))
           (field test "validation" empty_list)
  end.

Definition wrap (key : string) (test : PyVal) : PyVal :=
  match test with
  | VStr s => VDict [(key, VStr s)]
  | _ => test
  end.

Definition testing (data : PyVal) : Testing.t :=
  let test_data := field data "testing" empty_dict in
  Testing.mk (map unit_test (entries (field test_data "unit_tests" empty_list)))
    (map (wrap "name") (entries (field test_data "integration_tests" empty_list)))
    (map (wrap "standard") (entries (field test_data "conformance_tests" empty_list))).

Definition code_style (data : PyVal) : CodeStyle.t :=
  let style := field data "code_style" empty_dict in
  CodeStyle.mk (field style "indentation" empty_list)
    (field style "comments" empty_list) (field style "naming" empty_list)
    (field style "organization" empty_list).

Definition specification (data : PyVal) : Specification.t :=
  Specification.mk (field data "metadata" empty_dict) (header_format data)
    (register_usage data) (structures data) (algorithms data)
    (error_handling data) (section_requirements data) (performance data)
    (testing data) (code_style data).

End Defaulted.

(** ** Documents that are regular up to missing item fields

    [regular] asks of a document what [normalizable] asks, except that
    an item need only be a mapping (a unit test, a string or a mapping):
    it may lack fields the code reads by subscript.  [missing_field] is
    the first such field in the order the normalizer reads the document:
    sections in the order of [_create_specification], items in the order
    of their list, fields in the order of the subscripts. *)

Module Regular.

Definition register_usage (data : PyVal) : bool :=
  let usage := field data "register_usage" empty_dict in
  is_dict usage && all_entries is_dict (field usage "general_purpose" empty_list).

Definition structure (struct : PyVal) : bool :=
  is_dict struct && all_entries is_dict (field struct "fields" empty_list).

Definition structures (data : PyVal) : bool :=
  all_values structure (field data "structures" empty_dict).

Definition error_handling (data : PyVal) : bool :=
  let err_handling := field data "error_handling" empty_dict in
  is_dict err_handling && iterable (field err_handling "error_types" empty_list).

Definition section_requirements (data : PyVal) : bool :=
  let reqs := field data "section_requirements" empty_dict in
  let bss := field reqs "bss" empty_dict in
  is_dict reqs && is_dict bss
  && all_entries is_dict (field bss "variables" empty_list).

Definition performance (data : PyVal) : bool :=
  let perf := field data "performance" empty_dict in
  is_dict perf && all_entries is_dict (field perf "benchmarks" empty_list).

Definition unit_test (test : PyVal) : bool :=
  match test with
  | VStr _ | VDict _ => true
  | _ => false
  end.

Definition testing (data : PyVal) : bool :=
  let test_data := field data "testing" empty_dict in
  is_dict test_data
  && all_entries unit_test (field test_data "unit_tests" empty_list)
  && iterable (field test_data "integration_tests" empty_list)
  && iterable (field test_data "conformance_tests" empty_list).

End Regular.

Definition regular (data : PyVal) : bool :=
  is_dict data
  && Shape.header_format data && Regular.register_usage data
  && Regular.structures data && Shape.algorithms data
  && Regular.error_handling data && Regular.section_requirements data
  && Regular.performance data && Regular.testing data && Shape.code_style data.

(** The first key of [ks] that the item lacks. *)
Definition first_absent (ks : list string) (item : PyVal) : option string :=
  find (fun k => negb (has_key k item)) ks.

(** The first result that [f] gives along [l]. *)
Fixpoint first_some {A : Type} (f : A -> option string) (l : list A)
  : option string :=
  match l with
  | [] => None
  | x :: r => match f x with Some k => Some k | None => first_some f r end
  end.

Module Missing.

Definition register : PyVal -> option string := first_absent ["name"; "purpose"].

Definition register_usage (data : PyVal) : option string :=
  let usage := field data "register_usage" empty_dict in
  first_some register (entries (field usage "general_purpose" empty_list)).

Definition struct_field : PyVal -> option string := first_absent ["name"; "type"].

Definition structure (struct : PyVal) : option string :=
  first_some struct_field (entries (field struct "fields" empty_list)).

Definition structures (data : PyVal) : option string :=
  first_some (fun kv => structure (snd kv))
             (dict_items (field data "structures" empty_dict)).

Definition error_type (err : PyVal) : option string :=
  match err with
  | VDict _ => first_absent ["name"] err
  | _ => None
  end.

Definition error_handling (data : PyVal) : option string :=
  let err_handling := field data "error_handling" empty_dict in
  first_some error_type (entries (field err_handling "error_types" empty_list)).

Definition bss_variable : PyVal -> option string :=
  first_absent ["name"; "size"; "align"; "purpose"].

Definition section_requirements (data : PyVal) : option string :=
  let reqs := field data "section_requirements" empty_dict in
  let bss := field reqs "bss" empty_dict in
  first_some bss_variable (entries (field bss "variables" empty_list)).

Definition benchmark : PyVal -> option string := first_absent ["name"; "input_size"].

Definition performance (data : PyVal) : option string :=
  let perf := field data "performance" empty_dict in
  first_some benchmark (entries (field perf "benchmarks" empty_list)).

Definition unit_test (test : PyVal) : option string :=
  match test with
  | VStr _ => None
  | _ => first_absent ["name"] test
  end.

Definition testing (data : PyVal) : option string :=
  let test_data := field data "testing" empty_dict in
  first_some unit_test (entries (field test_data "unit_tests" empty_list)).

End Missing.

Definition missing_field (data : PyVal) : option string :=
  first_some (fun section : PyVal -> option string => section data)
    [Missing.register_usage; Missing.structures; Missing.error_handling;
     Missing.section_requirements; Missing.performance; Missing.testing].

(** What a routine gives that raises [KeyError k] when [m] is [Some k]
    and returns [a] otherwise. *)
Definition outcome {A : Type} (m : option string) (a : A) : result A :=
  match m with
  | Some k => Err (KeyError k)
  | None => Ok a
  end.

(** ** Normalization returns the described model *)

Lemma py_get_field (v : PyVal) (k : string) (dflt : PyVal) :
  is_dict v = true -> py_get v k dflt = Ok (field v k dflt).
Proof. destruct v; try discriminate. reflexivity. Qed.

Lemma py_getitem_field (v : PyVal) (k : string) :
  has_key k v = true -> py_getitem v k = Ok (field v k VNone).
Proof.
  unfold has_key, py_getitem, field. destruct v as [| | | | |d]; try discriminate.
  destruct (lookup k d); [reflexivity | discriminate].
Qed.

Lemma py_getitem_KeyError (v : PyVal) (k : string) :
  is_dict v = true -> has_key k v = false -> py_getitem v k = Err (KeyError k).
Proof.
  unfold has_key, py_getitem. destruct v as [| | | | |d]; try discriminate.
  destruct (lookup k d); [discriminate | reflexivity].
Qed.

Lemma py_iter_entries (v : PyVal) :
  iterable v = true -> py_iter v = Ok (entries v).
Proof. destruct v; try discriminate; reflexivity. Qed.

Lemma py_items_dict (v : PyVal) :
  is_dict v = true -> py_items v = Ok (dict_items v).
Proof. destruct v; try discriminate. reflexivity. Qed.

Lemma has_key_is_dict (k : string) (v : PyVal) :
  has_key k v = true -> is_dict v = true.
Proof. destruct v; try discriminate. reflexivity. Qed.

Lemma mapM_map {A B : Type} (f : A -> result B) (g : A -> B) (P : A -> bool)
      (l : list A) :
  (forall x, P x = true -> f x = Ok (g x)) ->
  forallb P l = true -> mapM f l = Ok (map g l).
Proof.
  intros Hf. induction l as [|x l IH]; simpl; [reflexivity|].
  intros H. apply andb_prop in H. destruct H as [Hx Hl].
  now rewrite (Hf x Hx), (IH Hl).
Qed.

Lemma foldM_keyed {V : Type} (f : string -> PyVal -> result V)
      (g : string -> PyVal -> V) (P : PyVal -> bool) (items : dict) :
  (forall k x, P x = true -> f k x = Ok (g k x)) ->
  forallb (fun kv => P (snd kv)) items = true ->
  forall acc,
    foldM (fun acc kv => s <- f (fst kv) (snd kv) ;; Ok (dict_set acc (fst kv) s))
          items acc
    = Ok (fold_left (fun acc kv => dict_set acc (fst kv) (g (fst kv) (snd kv)))
                    items acc).
Proof.
  intros Hf. induction items as [|[k x] items IH]; simpl; [reflexivity|].
  intros H acc. apply andb_prop in H. destruct H as [Hx Hl].
  rewrite (Hf k x Hx). simpl. now apply IH.
Qed.

(** Split a conjunction of shape conditions into its parts. *)
Ltac shape_split H :=
  repeat match type of H with
         | (_ && _)%bool = true =>
             let H1 := fresh "S" in
             apply andb_prop in H; destruct H as [H H1]
         end.

Ltac shaped :=
  repeat match goal with
         | H : (_ && _)%bool = true |- _ =>
             let H1 := fresh "S" in
             apply andb_prop in H; destruct H as [H H1]
         end;
  repeat match goal with
         | H : has_key ?k ?v = true |- _ =>
             lazymatch goal with
             | _ : is_dict v = true |- _ => fail
             | _ => pose proof (has_key_is_dict k v H)
             end
         end;
  repeat (cbn [bind];
          first
            [ rewrite py_get_field by assumption
            | rewrite py_getitem_field by assumption
            | rewrite py_iter_entries by assumption
            | rewrite py_items_dict by assumption ]);
  cbn [bind].

Lemma header_format_defaulted (data : PyVal) :
  is_dict data = true -> Shape.header_format data = true ->
  process_header_format data = Ok (Defaulted.header_format data).
Proof.
  unfold Shape.header_format, process_header_format. intros Hd H.
  shaped. reflexivity.
Qed.

Lemma register_defaulted (reg : PyVal) :
  Shape.register reg = true -> register_info reg = Ok (Defaulted.register reg).
Proof.
  unfold Shape.register, register_info. intros H. shaped. reflexivity.
Qed.

Lemma all_entries_forallb (P : PyVal -> bool) (v : PyVal) :
  all_entries P v = true -> iterable v = true /\ forallb P (entries v) = true.
Proof. unfold all_entries. intros H. now apply andb_prop in H. Qed.

Ltac entries_shaped :=
  repeat match goal with
         | H : all_entries _ _ = true |- _ =>
             apply all_entries_forallb in H; destruct H as [? ?]
         | H : all_values _ _ = true |- _ =>
             unfold all_values in H
         end.

Ltac by_shape := intros; shaped; entries_shaped; shaped.

Lemma register_usage_defaulted (data : PyVal) :
  is_dict data = true -> Shape.register_usage data = true ->
  process_register_usage data = Ok (Defaulted.register_usage data).
Proof.
  unfold Shape.register_usage, process_register_usage. by_shape.
  rewrite (mapM_map _ _ _ _ register_defaulted) by assumption. reflexivity.
Qed.

Lemma struct_field_defaulted (f : PyVal) :
  Shape.struct_field f = true -> field_of f = Ok (Defaulted.struct_field f).
Proof. unfold Shape.struct_field, field_of. by_shape. reflexivity. Qed.

Lemma structure_defaulted (name : string) (struct : PyVal) :
  Shape.structure struct = true ->
  data_structure name struct = Ok (Defaulted.structure name struct).
Proof.
  unfold Shape.structure, data_structure. by_shape.
  rewrite (mapM_map _ _ _ _ struct_field_defaulted) by assumption.
  by_shape. reflexivity.
Qed.

Lemma structures_defaulted (data : PyVal) :
  is_dict data = true -> Shape.structures data = true ->
  process_data_structures data = Ok (Defaulted.structures data).
Proof.
  unfold Shape.structures, process_data_structures. by_shape.
  apply (foldM_keyed data_structure Defaulted.structure Shape.structure);
    auto using structure_defaulted.
Qed.

Lemma algorithm_defaulted (name : string) (algo : PyVal) :
  Shape.algorithm algo = true ->
  algorithm name algo = Ok (Defaulted.algorithm name algo).
Proof. unfold Shape.algorithm, algorithm. by_shape. reflexivity. Qed.

Lemma algorithms_defaulted (data : PyVal) :
  is_dict data = true -> Shape.algorithms data = true ->
  process_algorithms data = Ok (Defaulted.algorithms data).
Proof.
  unfold Shape.algorithms, process_algorithms. by_shape.
  apply (foldM_keyed algorithm Defaulted.algorithm Shape.algorithm);
    auto using algorithm_defaulted.
Qed.

Lemma error_type_defaulted (err : PyVal) :
  Shape.error_type err = true -> error_type err = Ok (Defaulted.error_type err).
Proof.
  unfold Shape.error_type, error_type.
  destruct err; intros H; try reflexivity. by_shape. reflexivity.
Qed.

Lemma strategies_defaulted (raw : PyVal) :
  strategies_of raw = Defaulted.strategies raw.
Proof. destruct raw; reflexivity. Qed.

Lemma error_handling_defaulted (data : PyVal) :
  is_dict data = true -> Shape.error_handling data = true ->
  process_error_handling data = Ok (Defaulted.error_handling data).
Proof.
  unfold Shape.error_handling, process_error_handling. by_shape.
  rewrite (mapM_map _ _ _ _ error_type_defaulted) by assumption.
  by_shape. unfold Defaulted.error_handling.
  now rewrite strategies_defaulted, flat_map_concat_map.
Qed.

Lemma bss_variable_defaulted (var : PyVal) :
  Shape.bss_variable var = true -> bss_variable var = Ok (Defaulted.bss_variable var).
Proof. unfold Shape.bss_variable, bss_variable. by_shape. reflexivity. Qed.

Lemma section_requirements_defaulted (data : PyVal) :
  is_dict data = true -> Shape.section_requirements data = true ->
  process_section_requirements data = Ok (Defaulted.section_requirements data).
Proof.
  unfold Shape.section_requirements, process_section_requirements. by_shape.
  rewrite (mapM_map _ _ _ _ bss_variable_defaulted) by assumption.
  by_shape. reflexivity.
Qed.

Lemma benchmark_defaulted (bench : PyVal) :
  Shape.benchmark bench = true -> benchmark bench = Ok (Defaulted.benchmark bench).
Proof. unfold Shape.benchmark, benchmark. by_shape. reflexivity. Qed.

Lemma performance_defaulted (data : PyVal) :
  is_dict data = true -> Shape.performance data = true ->
  process_performance data = Ok (Defaulted.performance data).
Proof.
  unfold Shape.performance, process_performance. by_shape.
  rewrite (mapM_map _ _ _ _ benchmark_defaulted) by assumption.
  by_shape. reflexivity.
Qed.

Lemma unit_test_defaulted (test : PyVal) :
  Shape.unit_test test = true -> unit_test test = Ok (Defaulted.unit_test test).
Proof.
  unfold Shape.unit_test, unit_test.
  destruct test; intros H; try reflexivity; by_shape; reflexivity.
Qed.

Lemma integration_test_wrap (test : PyVal) :
  integration_test test = Defaulted.wrap "name" test.
Proof. destruct test; reflexivity. Qed.

Lemma conformance_test_wrap (test : PyVal) :
  conformance_test test = Defaulted.wrap "standard" test.
Proof. destruct test; reflexivity. Qed.

Lemma testing_defaulted (data : PyVal) :
  is_dict data = true -> Shape.testing data = true ->
  process_testing data = Ok (Defaulted.testing data).
Proof.
  unfold Shape.testing, process_testing. by_shape.
  rewrite (mapM_map _ _ _ _ unit_test_defaulted) by assumption.
  by_shape. unfold Defaulted.testing.
  do 2 f_equal; apply map_ext; auto using integration_test_wrap, conformance_test_wrap.
Qed.

Lemma code_style_defaulted (data : PyVal) :
  is_dict data = true -> Shape.code_style data = true ->
  process_code_style data = Ok (Defaulted.code_style data).
Proof. unfold Shape.code_style, process_code_style. by_shape. reflexivity. Qed.

Lemma build_specification_defaulted (data : PyVal) :
  normalizable data = true ->
  build_specification data = Ok (Defaulted.specification data).
Proof.
  unfold normalizable. intros H. shape_split H.
  unfold build_specification, process_metadata.
  rewrite py_get_field, header_format_defaulted, register_usage_defaulted,
    structures_defaulted, algorithms_defaulted, error_handling_defaulted,
    section_requirements_defaulted, performance_defaulted, testing_defaulted,
    code_style_defaulted by assumption.
  reflexivity.
Qed.

(** ** Only shaped documents normalize *)

Lemma py_get_inv (v : PyVal) (k : string) (dflt x : PyVal) :
  py_get v k dflt = Ok x -> is_dict v = true /\ x = field v k dflt.
Proof.
  unfold py_get. destruct v; try discriminate.
  intros H. injection H as <-. auto.
Qed.

Lemma py_getitem_inv (v : PyVal) (k : string) (x : PyVal) :
  py_getitem v k = Ok x -> has_key k v = true.
Proof.
  intros H. destruct (py_getitem_dict _ _ _ H) as (d & -> & E).
  simpl. now rewrite E.
Qed.

Lemma py_iter_inv (v : PyVal) (l : list PyVal) :
  py_iter v = Ok l -> iterable v = true /\ l = entries v.
Proof.
  unfold entries, py_iter. destruct v; try discriminate;
    intros H; injection H as <-; auto.
Qed.

Lemma py_items_inv (v : PyVal) (d : dict) :
  py_items v = Ok d -> is_dict v = true /\ d = dict_items v.
Proof.
  unfold py_items. destruct v; try discriminate.
  intros H. injection H as <-. auto.
Qed.

Lemma mapM_shape {A B : Type} (f : A -> result B) (P : A -> bool)
      (l : list A) (r : list B) :
  (forall x y, f x = Ok y -> P x = true) ->
  mapM f l = Ok r -> forallb P l = true.
Proof.
  intros Hf. revert r. induction l as [|x l IH]; simpl; intros r H; [reflexivity|].
  inv_bind H. rewrite (Hf _ _ Ha). simpl. eauto.
Qed.

Lemma foldM_shape {V : Type} (f : string -> PyVal -> result V) (P : PyVal -> bool)
      (items : dict) :
  (forall k x y, f k x = Ok y -> P x = true) ->
  forall acc res,
    foldM (fun acc kv => s <- f (fst kv) (snd kv) ;; Ok (dict_set acc (fst kv) s))
          items acc = Ok res ->
    forallb (fun kv => P (snd kv)) items = true.
Proof.
  intros Hf. induction items as [|[k x] items IH]; simpl; intros acc res H;
    [reflexivity|].
  apply bind_Ok in H. destruct H as (acc' & H1 & H2).
  apply bind_Ok in H1. destruct H1 as (s & Hs & H1).
  rewrite (Hf _ _ _ Hs). simpl. eauto.
Qed.

(** Read back what each successful access says about the raw value. *)
Ltac accessed :=
  repeat match goal with
         | H : py_get _ _ _ = Ok _ |- _ =>
             apply py_get_inv in H; destruct H as [? ?]; subst
         | H : py_getitem _ _ = Ok _ |- _ => apply py_getitem_inv in H
         | H : py_iter _ = Ok _ |- _ =>
             apply py_iter_inv in H; destruct H as [? ?]; subst
         | H : py_items _ = Ok _ |- _ =>
             apply py_items_inv in H; destruct H as [? ?]; subst
         end.

Ltac shape_holds :=
  unfold all_entries, all_values;
  repeat match goal with
         | H : ?b = true |- context [?b] => rewrite H
         end;
  try reflexivity.

Lemma header_format_shape (data : PyVal) (h : HeaderFormat.t) :
  process_header_format data = Ok h -> Shape.header_format data = true.
Proof.
  unfold process_header_format, Shape.header_format. intros H. inv_bind H.
  accessed. assumption.
Qed.

Lemma register_shape (reg : PyVal) (r : RegisterInfo.t) :
  register_info reg = Ok r -> Shape.register reg = true.
Proof.
  unfold register_info, Shape.register. intros H. inv_bind H.
  accessed. shape_holds.
Qed.

Lemma register_usage_shape (data : PyVal) (u : RegisterUsage.t) :
  process_register_usage data = Ok u -> Shape.register_usage data = true.
Proof.
  unfold process_register_usage, Shape.register_usage. intros H. inv_bind H.
  accessed. apply (mapM_shape _ _ _ _ register_shape) in Ha2. shape_holds.
Qed.

Lemma struct_field_shape (f : PyVal) (x : Field.t) :
  field_of f = Ok x -> Shape.struct_field f = true.
Proof.
  unfold field_of, Shape.struct_field. intros H. inv_bind H.
  accessed. shape_holds.
Qed.

Lemma structure_shape (name : string) (struct : PyVal) (s : DataStructure.t) :
  data_structure name struct = Ok s -> Shape.structure struct = true.
Proof.
  unfold data_structure, Shape.structure. intros H. inv_bind H.
  accessed. apply (mapM_shape _ _ _ _ struct_field_shape) in Ha1. shape_holds.
Qed.

Lemma structures_shape (data : PyVal) (ss : list (string * DataStructure.t)) :
  process_data_structures data = Ok ss -> Shape.structures data = true.
Proof.
  unfold process_data_structures, Shape.structures. intros H. inv_bind H.
  accessed. apply (foldM_shape _ _ _ structure_shape) in H. shape_holds.
Qed.

Lemma algorithm_shape (name : string) (algo : PyVal) (a : Algorithm.t) :
  algorithm name algo = Ok a -> Shape.algorithm algo = true.
Proof.
  unfold algorithm, Shape.algorithm. intros H. inv_bind H.
  accessed. shape_holds.
Qed.

Lemma algorithms_shape (data : PyVal) (als : list (string * Algorithm.t)) :
  process_algorithms data = Ok als -> Shape.algorithms data = true.
Proof.
  unfold process_algorithms, Shape.algorithms. intros H. inv_bind H.
  accessed. apply (foldM_shape _ _ _ algorithm_shape) in H. shape_holds.
Qed.

Lemma error_type_shape (err : PyVal) (es : list ErrorType.t) :
  error_type err = Ok es -> Shape.error_type err = true.
Proof.
  unfold error_type, Shape.error_type. destruct err; intros H; try reflexivity.
  inv_bind H. accessed. assumption.
Qed.

Lemma error_handling_shape (data : PyVal) (e : ErrorHandling.t) :
  process_error_handling data = Ok e -> Shape.error_handling data = true.
Proof.
  unfold process_error_handling, Shape.error_handling. intros H. inv_bind H.
  accessed. apply (mapM_shape _ _ _ _ error_type_shape) in Ha2. shape_holds.
Qed.

Lemma bss_variable_shape (var : PyVal) (b : BssVariable.t) :
  bss_variable var = Ok b -> Shape.bss_variable var = true.
Proof.
  unfold bss_variable, Shape.bss_variable. intros H. inv_bind H.
  accessed. shape_holds.
Qed.

Lemma section_requirements_shape (data : PyVal) (s : SectionRequirements.t) :
  process_section_requirements data = Ok s ->
  Shape.section_requirements data = true.
Proof.
  unfold process_section_requirements, Shape.section_requirements.
  intros H. inv_bind H.
  accessed. apply (mapM_shape _ _ _ _ bss_variable_shape) in Ha3. shape_holds.
Qed.

Lemma benchmark_shape (bench : PyVal) (b : Benchmark.t) :
  benchmark bench = Ok b -> Shape.benchmark bench = true.
Proof.
  unfold benchmark, Shape.benchmark. intros H. inv_bind H.
  accessed. shape_holds.
Qed.

Lemma performance_shape (data : PyVal) (p : Performance.t) :
  process_performance data = Ok p -> Shape.performance data = true.
Proof.
  unfold process_performance, Shape.performance. intros H. inv_bind H.
  accessed. apply (mapM_shape _ _ _ _ benchmark_shape) in Ha2. shape_holds.
Qed.

Lemma unit_test_shape (test : PyVal) (t : TestCase.t) :
  unit_test test = Ok t -> Shape.unit_test test = true.
Proof.
  unfold unit_test, Shape.unit_test.
  destruct test; intros H; try reflexivity; inv_bind H; accessed; assumption.
Qed.

Lemma testing_shape (data : PyVal) (t : Testing.t) :
  process_testing data = Ok t -> Shape.testing data = true.
Proof.
  unfold process_testing, Shape.testing. intros H. inv_bind H.
  accessed. apply (mapM_shape _ _ _ _ unit_test_shape) in Ha2. shape_holds.
Qed.

Lemma code_style_shape (data : PyVal) (c : CodeStyle.t) :
  process_code_style data = Ok c -> Shape.code_style data = true.
Proof.
  unfold process_code_style, Shape.code_style. intros H. inv_bind H.
  accessed. assumption.
Qed.

Lemma build_specification_shape (data : PyVal) (spec : Specification.t) :
  build_specification data = Ok spec -> normalizable data = true.
Proof.
  unfold build_specification, normalizable, process_metadata.
  intros H. inv_bind H. apply py_get_inv in Ha. destruct Ha as [Hd _].
  rewrite Hd, (header_format_shape _ _ Ha0), (register_usage_shape _ _ Ha1),
    (structures_shape _ _ Ha2), (algorithms_shape _ _ Ha3),
    (error_handling_shape _ _ Ha4), (section_requirements_shape _ _ Ha5),
    (performance_shape _ _ Ha6), (testing_shape _ _ Ha7),
    (code_style_shape _ _ Ha8).
  reflexivity.
Qed.

(** ** Absent sections and missing item fields *)

(** The nine sections besides the metadata. *)
Definition section_keys : list string :=
  ["header_format"; "register_usage"; "structures"; "algorithms";
   "error_handling"; "section_requirements"; "performance"; "testing";
   "code_style"].

Definition without_purpose_doc : PyVal :=
  VDict [("metadata", VDict [("name", VStr "crc"); ("version", VStr "2");
                             ("description", VStr "checksum")]);
         ("register_usage",
          VDict [("general_purpose", VList [VDict [("name", VStr "rax")]])])].

Definition without_align_doc : PyVal :=
  VDict [("section_requirements",
          VDict [("bss",
                  VDict [("variables",
                          VList [VDict [("name", VStr "buf"); ("size", VInt 64);
                                        ("purpose", VStr "scratch")]])])])].

Definition without_input_size_doc : PyVal :=
  VDict [("performance",
          VDict [("benchmarks", VList [VDict [("name", VStr "small")]])])].

(** C2, as stated, fails: a register without its purpose, a bss
    variable without its alignment and a benchmark without its input
    size each make normalization raise a validation error naming the
    field; none of them is defaulted. *)
Lemma missing_item_fields_rejected :
  _create_specification without_purpose_doc
  = Err (ValidationError "Missing required field: 'purpose'") /\
  _create_specification without_align_doc
  = Err (ValidationError "Missing required field: 'align'") /\
  _create_specification without_input_size_doc
  = Err (ValidationError "Missing required field: 'input_size'").
Proof. repeat split. Qed.

Lemma field_absent (d : dict) (k : string) (dflt : PyVal) :
  lookup k d = None -> field (VDict d) k dflt = dflt.
Proof. intros H. simpl. now rewrite H. Qed.

Lemma sections_absent_normalizable (d : dict) :
  (forall k, In k section_keys -> lookup k d = None) ->
  normalizable (VDict d) = true.
Proof.
  intros H.
  unfold normalizable, Shape.header_format, Shape.register_usage,
    Shape.structures, Shape.algorithms, Shape.error_handling,
    Shape.section_requirements, Shape.performance, Shape.testing,
    Shape.code_style.
  rewrite !field_absent by (apply H; simpl; tauto).
  reflexivity.
Qed.

Lemma create_specification_defaulted (data : PyVal) :
  normalizable data = true ->
  _create_specification data = Ok (Defaulted.specification data).
Proof.
  intros H. unfold _create_specification.
  now rewrite build_specification_defaulted.
Qed.

Lemma create_specification_normalizable (data : PyVal) :
  is_ok (_create_specification data) = normalizable data.
Proof.
  destruct (normalizable data) eqn:E.
  - now rewrite create_specification_defaulted.
  - destruct (_create_specification data) as [spec|e] eqn:Hc; [|reflexivity].
    apply create_specification_Ok, build_specification_shape in Hc. congruence.
Qed.

(** *** The first missing item field *)

Lemma mapM_outcome {A B : Type} (f : A -> result B) (g : A -> B)
      (m : A -> option string) (P : A -> bool) (l : list A) :
  (forall x, P x = true -> f x = outcome (m x) (g x)) ->
  forallb P l = true -> mapM f l = outcome (first_some m l) (map g l).
Proof.
  intros Hf. induction l as [|x l IH]; simpl; [reflexivity|].
  intros H. apply andb_prop in H. destruct H as [Hx Hl].
  rewrite (Hf x Hx), (IH Hl).
  destruct (m x); [reflexivity|]. destruct (first_some m l); reflexivity.
Qed.

Lemma foldM_outcome {V : Type} (f : string -> PyVal -> result V)
      (g : string -> PyVal -> V) (m : PyVal -> option string) (P : PyVal -> bool)
      (items : dict) :
  (forall k x, P x = true -> f k x = outcome (m x) (g k x)) ->
  forallb (fun kv => P (snd kv)) items = true ->
  forall acc,
    foldM (fun acc kv => s <- f (fst kv) (snd kv) ;; Ok (dict_set acc (fst kv) s))
          items acc
    = outcome (first_some (fun kv => m (snd kv)) items)
              (fold_left (fun acc kv => dict_set acc (fst kv) (g (fst kv) (snd kv)))
                         items acc).
Proof.
  intros Hf. induction items as [|[k x] items IH]; simpl; [reflexivity|].
  intros H acc. apply andb_prop in H. destruct H as [Hx Hl].
  rewrite (Hf k x Hx). destruct (m x); [reflexivity|]. simpl. now apply IH.
Qed.

(** Read the subscripted fields of an item one after the other. *)
Ltac subscripts Hd :=
  cbn [find];
  repeat match goal with
         | |- context [negb (has_key ?k ?v)] =>
             let E := fresh "E" in
             destruct (has_key k v) eqn:E; cbn [negb];
             [ rewrite (py_getitem_field _ _ E); cbn [bind]
             | rewrite (py_getitem_KeyError _ _ Hd E); reflexivity ]
         end;
  rewrite ?py_get_field by assumption; reflexivity.

Lemma register_outcome (reg : PyVal) :
  is_dict reg = true ->
  register_info reg = outcome (Missing.register reg) (Defaulted.register reg).
Proof.
  intros Hd. unfold Missing.register, first_absent, register_info. subscripts Hd.
Qed.

Lemma register_usage_outcome (data : PyVal) :
  is_dict data = true -> Regular.register_usage data = true ->
  process_register_usage data
  = outcome (Missing.register_usage data) (Defaulted.register_usage data).
Proof.
  unfold Regular.register_usage, process_register_usage, Missing.register_usage.
  by_shape.
  rewrite (mapM_outcome _ _ _ _ _ register_outcome) by assumption.
  now destruct (first_some _ _).
Qed.

Lemma struct_field_outcome (f : PyVal) :
  is_dict f = true ->
  field_of f = outcome (Missing.struct_field f) (Defaulted.struct_field f).
Proof.
  intros Hd. unfold Missing.struct_field, first_absent, field_of. subscripts Hd.
Qed.

Lemma structure_outcome (name : string) (struct : PyVal) :
  Regular.structure struct = true ->
  data_structure name struct
  = outcome (Missing.structure struct) (Defaulted.structure name struct).
Proof.
  unfold Regular.structure, data_structure, Missing.structure. by_shape.
  rewrite (mapM_outcome _ _ _ _ _ struct_field_outcome) by assumption.
  destruct (first_some _ _); [reflexivity|]. cbn [outcome bind].
  by_shape. reflexivity.
Qed.

Lemma structures_outcome (data : PyVal) :
  is_dict data = true -> Regular.structures data = true ->
  process_data_structures data
  = outcome (Missing.structures data) (Defaulted.structures data).
Proof.
  unfold Regular.structures, process_data_structures, Missing.structures. by_shape.
  apply (foldM_outcome data_structure Defaulted.structure Missing.structure
           Regular.structure); auto using structure_outcome.
Qed.

Lemma error_type_outcome (err : PyVal) :
  error_type err = outcome (Missing.error_type err) (Defaulted.error_type err).
Proof.
  destruct err; try reflexivity.
  unfold Missing.error_type, first_absent, error_type.
  assert (Hd : is_dict (VDict l) = true) by reflexivity. subscripts Hd.
Qed.

Lemma error_handling_outcome (data : PyVal) :
  is_dict data = true -> Regular.error_handling data = true ->
  process_error_handling data
  = outcome (Missing.error_handling data) (Defaulted.error_handling data).
Proof.
  unfold Regular.error_handling, process_error_handling, Missing.error_handling.
  by_shape.
  rewrite (mapM_outcome _ _ _ (fun _ => true) _ (fun x _ => error_type_outcome x))
    by (apply forallb_forall; reflexivity).
  destruct (first_some _ _); [reflexivity|]. cbn [outcome bind].
  by_shape. unfold Defaulted.error_handling.
  now rewrite strategies_defaulted, flat_map_concat_map.
Qed.

Lemma bss_variable_outcome (var : PyVal) :
  is_dict var = true ->
  bss_variable var = outcome (Missing.bss_variable var) (Defaulted.bss_variable var).
Proof.
  intros Hd. unfold Missing.bss_variable, first_absent, bss_variable. subscripts Hd.
Qed.

Lemma section_requirements_outcome (data : PyVal) :
  is_dict data = true -> Regular.section_requirements data = true ->
  process_section_requirements data
  = outcome (Missing.section_requirements data) (Defaulted.section_requirements data).
Proof.
  unfold Regular.section_requirements, process_section_requirements,
    Missing.section_requirements.
  by_shape.
  rewrite (mapM_outcome _ _ _ _ _ bss_variable_outcome) by assumption.
  destruct (first_some _ _); [reflexivity|]. cbn [outcome bind].
  by_shape. reflexivity.
Qed.

Lemma benchmark_outcome (bench : PyVal) :
  is_dict bench = true ->
  benchmark bench = outcome (Missing.benchmark bench) (Defaulted.benchmark bench).
Proof.
  intros Hd. unfold Missing.benchmark, first_absent, benchmark. subscripts Hd.
Qed.

Lemma performance_outcome (data : PyVal) :
  is_dict data = true -> Regular.performance data = true ->
  process_performance data
  = outcome (Missing.performance data) (Defaulted.performance data).
Proof.
  unfold Regular.performance, process_performance, Missing.performance. by_shape.
  rewrite (mapM_outcome _ _ _ _ _ benchmark_outcome) by assumption.
  destruct (first_some _ _); [reflexivity|]. cbn [outcome bind].
  by_shape. reflexivity.
Qed.

Lemma unit_test_outcome (test : PyVal) :
  Regular.unit_test test = true ->
  unit_test test = outcome (Missing.unit_test test) (Defaulted.unit_test test).
Proof.
  destruct test; try discriminate; intros _; [reflexivity|].
  unfold Missing.unit_test, first_absent, unit_test.
  assert (Hd : is_dict (VDict l) = true) by reflexivity. subscripts Hd.
Qed.

Lemma testing_outcome (data : PyVal) :
  is_dict data = true -> Regular.testing data = true ->
  process_testing data = outcome (Missing.testing data) (Defaulted.testing data).
Proof.
  unfold Regular.testing, process_testing, Missing.testing. by_shape.
  rewrite (mapM_outcome _ _ _ _ _ unit_test_outcome) by assumption.
  destruct (first_some _ _); [reflexivity|]. cbn [outcome bind].
  by_shape. unfold Defaulted.testing.
  do 2 f_equal; apply map_ext; auto using integration_test_wrap, conformance_test_wrap.
Qed.

Lemma build_specification_outcome (data : PyVal) :
  regular data = true ->
  build_specification data
  = outcome (missing_field data) (Defaulted.specification data).
Proof.
  unfold regular. intros H. shape_split H.
  unfold build_specification, process_metadata.
  rewrite py_get_field, header_format_defaulted, register_usage_outcome,
    structures_outcome, algorithms_defaulted, error_handling_outcome,
    section_requirements_outcome, performance_outcome, testing_outcome,
    code_style_defaulted by assumption.
  unfold missing_field. cbn [first_some bind].
  repeat match goal with
         | |- context [outcome ?m _] =>
             destruct m; cbn [outcome bind]; [reflexivity|]
         end.
  reflexivity.
Qed.

Lemma create_specification_outcome (data : PyVal) :
  regular data = true ->
  _create_specification data
  = match missing_field data with
    | Some k => Err (ValidationError ("Missing required field: " ++ repr_str k))
    | None => Ok (Defaulted.specification data)
    end.
Proof.
  intros H. unfold _create_specification.
  rewrite (build_specification_outcome _ H).
  now destruct (missing_field data).
Qed.

(** C2, amended: on printable documents normalization succeeds exactly
    when every present section is a mapping, every item list can be
    iterated and every item carries the fields the code reads by
    subscript (name, purpose, type, size, align, input_size); it then
    returns the model in which each field read with a default is the
    raw value or, when the key is absent, that default.  In particular a
    document without any of the nine sections normalizes whatever its
    metadata is.  In a document that is regular but for such fields, an
    item that lacks one makes normalization fail with a validation error
    naming the first missing field in reading order.  In any document a
    failure of normalization is a validation error naming a missing key
    or a generic processing error. *)
Theorem normalization_defaults (data : PyVal) :
  (printable data = true ->
   is_ok (_create_specification data) = normalizable data) /\
  (printable data = true -> normalizable data = true ->
   _create_specification data = Ok (Defaulted.specification data)) /\
  (forall d k dflt, lookup k d = None -> field (VDict d) k dflt = dflt) /\
  (forall d, (forall k, In k section_keys -> lookup k d = None) ->
             _create_specification (VDict d) = Ok (Defaulted.specification (VDict d))) /\
  (printable data = true -> regular data = true ->
   _create_specification data
   = match missing_field data with
     | Some k => Err (ValidationError ("Missing required field: " ++ repr_str k))
     | None => Ok (Defaulted.specification data)
     end) /\
  (forall e, _create_specification data = Err e ->
             (exists k, e = ValidationError ("Missing required field: " ++ repr_str k)) \/
             (exists m, e = SpecForgeError m)).
Proof.
  split; [intros _; apply create_specification_normalizable|].
  split; [intros _; apply create_specification_defaulted|].
  split; [exact field_absent|].
  split; [|split].
  - intros d H. now apply create_specification_defaulted, sections_absent_normalizable.
  - intros _. apply create_specification_outcome.
  - unfold _create_specification. intros e.
    destruct (build_specification data) as [spec|[]]; intros H;
      try discriminate; injection H as <-;
      first [left; eexists; reflexivity | right; eexists; reflexivity].
Qed.

(** Two fields are missing: the purpose of the first register and the
    input size of a benchmark. *)
Definition two_fields_missing_doc : PyVal :=
  VDict [("performance",
          VDict [("benchmarks", VList [VDict [("name", VStr "small")]])]);
         ("register_usage",
          VDict [("general_purpose",
                  VList [VDict [("name", VStr "rax")];
                         VDict [("purpose", VStr "counter")]])])].

Lemma normalization_defaults_witness :
  normalizable optional_fields_doc = true /\
  _create_specification optional_fields_doc
  = Ok (Defaulted.specification optional_fields_doc) /\
  _create_specification (VDict [("metadata", VInt 7)])
  = Ok (Defaulted.specification (VDict [("metadata", VInt 7)])) /\
  _create_specification two_fields_missing_doc
  = Err (ValidationError "Missing required field: 'purpose'").
Proof.
  split; [reflexivity|]. split; [|split].
  - exact (proj1 (proj2 (normalization_defaults optional_fields_doc)) eq_refl eq_refl).
  - apply (proj1 (proj2 (proj2 (proj2 (normalization_defaults VNone))))).
    intros k Hk. simpl in Hk.
    repeat (destruct Hk as [<-|Hk]; [reflexivity|]). contradiction.
  - exact (proj1 (proj2 (proj2 (proj2 (proj2
             (normalization_defaults two_fields_missing_doc))))) eq_refl eq_refl).
Defined.

(** ** Documents that render

    [renderable] is what [format_text] needs of the values it walks:
    complete metadata, lists where it iterates, strings where it joins,
    and the name or standard of every open-ended test record.  Every
    condition bears on a value that is present; an absent key always
    passes. *)

Definition is_str (v : PyVal) : bool :=
  match v with VStr _ => true | _ => false end.

(** A value behind [if v: for x in v]. *)
Definition listable (v : PyVal) : bool := negb (truthy v) || iterable v.

(** A value behind [if v: ', '.join(v)]. *)
Definition joinable (v : PyVal) : bool :=
  negb (truthy v) || (iterable v && forallb is_str (entries v)).

Module Render.

Definition metadata (data : PyVal) : bool :=
  let m := field data "metadata" empty_dict in
  has_key "name" m && has_key "version" m && has_key "description" m.

Definition header_format (data : PyVal) : bool :=
  let header := field data "header_format" empty_dict in
  iterable (field header "assembly_lines" empty_list)
  && iterable (field header "directives" empty_list).

Definition register (reg : PyVal) : bool :=
  joinable (field reg "byte_regs" VNone)
  && listable (field reg "constraints" empty_list).

Definition register_usage (data : PyVal) : bool :=
  let usage := field data "register_usage" empty_dict in
  forallb register (entries (field usage "general_purpose" empty_list)).

Definition structure (struct : PyVal) : bool :=
  listable (field struct "constraints" empty_list).

Definition structures (data : PyVal) : bool :=
  forallb (fun kv => structure (snd kv))
          (dict_items (field data "structures" empty_dict)).

Definition algorithm (algo : PyVal) : bool :=
  let impl_req := field algo "implementation_requirements" empty_dict in
  let padding_rules := field impl_req "padding_rules" empty_dict in
  iterable (field impl_req "memory_operations" empty_list)
  && iterable (field impl_req "encoding_requirements" empty_list)
  && iterable (field impl_req "leftover_handling" empty_list)
  && iterable (field padding_rules "one_byte" empty_list)
  && iterable (field padding_rules "two_bytes" empty_list)
  && all_values iterable (field algo "steps" empty_dict)
  && listable (field algo "edge_cases" empty_list)
  && listable (field algo "preconditions" empty_list)
  && listable (field algo "postconditions" empty_list)
  && listable (field algo "invariants" empty_list).

Definition algorithms (data : PyVal) : bool :=
  forallb (fun kv => algorithm (snd kv))
          (dict_items (field data "algorithms" empty_dict)).

Definition strategies (raw : PyVal) : bool :=
  match raw with
  | VDict d => forallb (fun kv => iterable (snd kv)) d
  | _ => true
  end.

Definition error_type (err : PyVal) : bool :=
  match err with
  | VDict _ => iterable (field err "handling" Defaulted.handling_steps)
  | _ => true
  end.

Definition error_handling (data : PyVal) : bool :=
  let err_handling := field data "error_handling" empty_dict in
  strategies (field err_handling "strategies" empty_dict)
  && forallb error_type (entries (field err_handling "error_types" empty_list))
  && iterable (field err_handling "syscall_requirements" empty_list).

Definition section_requirements (data : PyVal) : bool :=
  let reqs := field data "section_requirements" empty_dict in
  iterable (field reqs "data" empty_list)
  && all_values iterable (field reqs "text" empty_dict).

Definition benchmark (bench : PyVal) : bool :=
  listable (field bench "requirements" empty_list).

Definition performance (data : PyVal) : bool :=
  let perf := field data "performance" empty_dict in
  iterable (field perf "constraints" empty_list)
  && iterable (field perf "register_usage" empty_list)
  && iterable (field perf "memory_access" empty_list)
  && forallb benchmark (entries (field perf "benchmarks" empty_list)).

Definition unit_test (test : PyVal) : bool :=
  match test with
  | VStr _ => true
  | _ => listable (field test "validation" empty_list)
  end.

Definition integration_test (test : PyVal) : bool :=
  match test with
  | VStr _ => true
  | _ => has_key "name" test
  end.

Definition vector (v : PyVal) : bool := has_key "input" v && has_key "output" v.

Definition conformance_test (test : PyVal) : bool :=
  match test with
  | VStr _ => true
  | _ => has_key "standard" test
         && (negb (has_key "test_vectors" test)
             || all_entries vector (field test "test_vectors" VNone))
  end.

Definition testing (data : PyVal) : bool :=
  let test_data := field data "testing" empty_dict in
  forallb unit_test (entries (field test_data "unit_tests" empty_list))
  && forallb integration_test (entries (field test_data "integration_tests" empty_list))
  && forallb conformance_test (entries (field test_data "conformance_tests" empty_list)).

Definition code_style (data : PyVal) : bool :=
  let style := field data "code_style" empty_dict in
  iterable (field style "indentation" empty_list)
  && iterable (field style "comments" empty_list)
  && iterable (field style "naming" empty_list)
  && iterable (field style "organization" empty_list).

End Render.

Definition renderable (data : PyVal) : bool :=
  Render.header_format data && Render.register_usage data
  && Render.structures data && Render.algorithms data
  && Render.error_handling data && Render.section_requirements data
  && Render.performance data && Render.testing data && Render.code_style data.

(** ** Rendering succeeds on renderable documents *)

Lemma is_ok_bind {A B : Type} (m : result A) (k : A -> result B) :
  is_ok m = true -> (forall a, is_ok (k a) = true) -> is_ok (bind m k) = true.
Proof. destruct m; simpl; [auto | discriminate]. Qed.

Lemma each_ok (f : PyVal -> string) (v : PyVal) :
  iterable v = true -> is_ok (each f v) = true.
Proof. intros H. unfold each. now rewrite py_iter_entries. Qed.

Lemma labelled_ok (label indent : string) (v : PyVal) :
  listable v = true -> is_ok (labelled label indent v) = true.
Proof.
  unfold listable, labelled. destruct (truthy v); simpl; [|reflexivity].
  intros H. apply is_ok_bind; [now apply each_ok | reflexivity].
Qed.

Lemma strs_from_ok (l : list PyVal) :
  forallb is_str l = true -> forall i, is_ok (strs_from i l) = true.
Proof.
  induction l as [|x l IH]; simpl; [reflexivity|].
  intros H i. apply andb_prop in H. destruct H as [Hx Hl].
  destruct x; try discriminate. simpl.
  apply is_ok_bind; [apply IH; assumption | reflexivity].
Qed.

Lemma mapM_ok {A B : Type} (f : A -> result B) (P : A -> bool) (l : list A) :
  (forall x, P x = true -> is_ok (f x) = true) ->
  forallb P l = true -> is_ok (mapM f l) = true.
Proof.
  intros Hf. induction l as [|x l IH]; simpl; [reflexivity|].
  intros H. apply andb_prop in H. destruct H as [Hx Hl].
  apply is_ok_bind; [auto|]. intros y.
  apply is_ok_bind; [auto | reflexivity].
Qed.

Lemma mapM_map_ok {A B C : Type} (f : B -> result C) (g : A -> B) (P : A -> bool)
      (l : list A) :
  (forall x, P x = true -> is_ok (f (g x)) = true) ->
  forallb P l = true -> is_ok (mapM f (map g l)) = true.
Proof.
  intros Hf. induction l as [|x l IH]; simpl; [reflexivity|].
  intros H. apply andb_prop in H. destruct H as [Hx Hl].
  apply is_ok_bind; [auto|]. intros y.
  apply is_ok_bind; [auto | reflexivity].
Qed.

Lemma group_ok (kv : string * PyVal) :
  iterable (snd kv) = true -> is_ok (group kv) = true.
Proof.
  intros H. unfold group. apply is_ok_bind; [now apply each_ok | reflexivity].
Qed.

Lemma groups_ok (v : PyVal) :
  all_values iterable v = true -> is_ok (groups v) = true.
Proof.
  unfold all_values, groups. intros H. apply andb_prop in H. destruct H as [Hd Hv].
  rewrite py_items_dict by assumption. cbn [bind].
  apply is_ok_bind; [|reflexivity].
  now apply (mapM_ok group (fun kv => iterable (snd kv))); [exact group_ok|].
Qed.

Lemma steps_lines_ok (v : PyVal) :
  all_values iterable v = true -> is_ok (steps_lines v) = true.
Proof. exact (groups_ok v). Qed.

Lemma dict_set_Forall {V : Type} (Q : string * V -> Prop) (d : list (string * V))
      (k : string) (v : V) :
  Forall Q d -> Q (k, v) -> Forall Q (dict_set d k v).
Proof.
  intros Hd Hv. induction Hd as [|[k' v'] d Hx Hd IH]; simpl.
  - constructor; auto.
  - destruct (String.eqb k k'); constructor; auto.
Qed.

Lemma keyed_Forall {V : Type} (Q : string * V -> Prop) (g : string -> PyVal -> V)
      (P : PyVal -> bool) (items : dict) :
  (forall k x, P x = true -> Q (k, g k x)) ->
  forallb (fun kv => P (snd kv)) items = true ->
  Forall Q (Defaulted.keyed g items).
Proof.
  intros Hg. unfold Defaulted.keyed.
  assert (G : forall acc, Forall Q acc ->
            forallb (fun kv => P (snd kv)) items = true ->
            Forall Q (fold_left
                        (fun acc kv => dict_set acc (fst kv) (g (fst kv) (snd kv)))
                        items acc)).
  { induction items as [|[k x] items IH]; simpl; intros acc Ha H; [assumption|].
    apply andb_prop in H. destruct H as [Hx Hl].
    apply IH; [|assumption]. apply dict_set_Forall; auto. }
  intros H. apply G; [constructor | assumption].
Qed.

Lemma keyed_ok {V C : Type} (f : string * V -> result C) (g : string -> PyVal -> V)
      (P : PyVal -> bool) (items : dict) :
  (forall k x, P x = true -> is_ok (f (k, g k x)) = true) ->
  forallb (fun kv => P (snd kv)) items = true ->
  is_ok (mapM f (Defaulted.keyed g items)) = true.
Proof.
  intros Hf H. apply mapM_total.
  now apply (keyed_Forall (fun kv => is_ok (f kv) = true) g P).
Qed.

(** Walk a chain of binds whose steps are loops over iterable values. *)
Ltac ok_chain :=
  repeat (apply is_ok_bind;
          [ first [ apply each_ok; assumption
                  | apply labelled_ok; assumption
                  | apply groups_ok; assumption
                  | apply steps_lines_ok; assumption
                  | idtac ]
          | intros ? ]);
  try reflexivity.

Lemma metadata_lines_ok (data : PyVal) :
  Render.metadata data = true ->
  is_ok (metadata_lines (field data "metadata" empty_dict)) = true.
Proof.
  unfold Render.metadata, metadata_lines. intros H. shaped. reflexivity.
Qed.

Lemma header_lines_ok (data : PyVal) :
  Render.header_format data = true ->
  is_ok (header_lines (Defaulted.header_format data)) = true.
Proof.
  unfold Render.header_format, header_lines, Defaulted.header_format.
  cbn [HeaderFormat.assembly_lines HeaderFormat.directives].
  intros H. shape_split H. ok_chain.
Qed.

Lemma byte_regs_ok (v : PyVal) :
  joinable v = true ->
  is_ok (if truthy v
         then j <- py_join ", " v ;; Ok ["Byte Registers: " ++ j]
         else Ok []) = true.
Proof.
  unfold joinable. destruct (truthy v); simpl; [|reflexivity].
  intros H. apply andb_prop in H. destruct H as [Hi Hs].
  unfold py_join. rewrite py_iter_entries by assumption.
  apply is_ok_bind; [|reflexivity].
  apply is_ok_bind; [now apply strs_from_ok | reflexivity].
Qed.

Lemma register_lines_ok (reg : PyVal) :
  Render.register reg = true ->
  is_ok (register_lines (Defaulted.register reg)) = true.
Proof.
  unfold Render.register, register_lines, Defaulted.register.
  cbn [RegisterInfo.byte_regs RegisterInfo.constraints].
  intros H. shape_split H.
  apply is_ok_bind; [now apply byte_regs_ok|]. intros ?. ok_chain.
Qed.

Lemma register_usage_lines_ok (data : PyVal) :
  Render.register_usage data = true ->
  is_ok (register_usage_lines (Defaulted.register_usage data)) = true.
Proof.
  unfold Render.register_usage, register_usage_lines, Defaulted.register_usage.
  cbn [RegisterUsage.general_purpose]. intros H.
  apply is_ok_bind; [|reflexivity].
  now apply (mapM_map_ok _ _ Render.register); [exact register_lines_ok|].
Qed.

Lemma structure_lines_ok (name : string) (struct : PyVal) :
  Render.structure struct = true ->
  is_ok (structure_lines (name, Defaulted.structure name struct)) = true.
Proof.
  unfold Render.structure, structure_lines, Defaulted.structure.
  cbn [snd fst DataStructure.constraints]. intros H. ok_chain.
Qed.

Lemma structures_lines_ok (data : PyVal) :
  Render.structures data = true ->
  is_ok (structures_lines (Defaulted.structures data)) = true.
Proof.
  unfold Render.structures, structures_lines, Defaulted.structures. intros H.
  apply is_ok_bind; [|reflexivity].
  now apply (keyed_ok _ _ Render.structure); [exact structure_lines_ok|].
Qed.

Lemma algorithm_lines_ok (name : string) (algo : PyVal) :
  Render.algorithm algo = true ->
  is_ok (algorithm_lines (name, Defaulted.algorithm name algo)) = true.
Proof.
  unfold Render.algorithm, algorithm_lines, Defaulted.algorithm.
  cbn [snd fst Algorithm.implementation_requirements Algorithm.steps
       Algorithm.edge_cases Algorithm.preconditions Algorithm.postconditions
       Algorithm.invariants ImplementationRequirements.memory_operations
       ImplementationRequirements.encoding_requirements
       ImplementationRequirements.leftover_handling
       ImplementationRequirements.padding_rules PaddingRules.one_byte
       PaddingRules.two_bytes].
  intros H. shape_split H. ok_chain.
Qed.

Lemma algorithms_lines_ok (data : PyVal) :
  Render.algorithms data = true ->
  is_ok (algorithms_lines (Defaulted.algorithms data)) = true.
Proof.
  unfold Render.algorithms, algorithms_lines, Defaulted.algorithms. intros H.
  apply is_ok_bind; [|reflexivity].
  now apply (keyed_ok _ _ Render.algorithm); [exact algorithm_lines_ok|].
Qed.

Lemma strategies_lines_ok (raw : PyVal) :
  Render.strategies raw = true ->
  is_ok (strategies_lines (Defaulted.strategies raw)) = true.
Proof.
  destruct raw as [| | | |l|d]; try reflexivity; intros H.
  apply groups_ok. exact H.
Qed.

Lemma error_type_lines_ok (err : PyVal) :
  Render.error_type err = true ->
  Forall (fun e => is_ok (error_type_lines e) = true) (Defaulted.error_type err).
Proof.
  destruct err as [| | |s|l|d]; intros H; cbn [Defaulted.error_type];
    try (constructor; fail).
  - constructor; [reflexivity | constructor].
  - constructor; [|constructor].
    unfold error_type_lines. cbn [ErrorType.handling].
    unfold Render.error_type in H. ok_chain.
Qed.

Lemma Forall_flat_map_of {A B : Type} (Q : B -> Prop) (g : A -> list B)
      (P : A -> bool) (l : list A) :
  (forall x, P x = true -> Forall Q (g x)) ->
  forallb P l = true -> Forall Q (flat_map g l).
Proof.
  intros Hg. induction l as [|x l IH]; simpl; [constructor|].
  intros H. apply andb_prop in H. destruct H as [Hx Hl].
  apply Forall_app. auto.
Qed.

Lemma error_handling_lines_ok (data : PyVal) :
  Render.error_handling data = true ->
  is_ok (error_handling_lines (Defaulted.error_handling data)) = true.
Proof.
  unfold Render.error_handling, error_handling_lines, Defaulted.error_handling.
  cbn [ErrorHandling.strategies ErrorHandling.error_types
       ErrorHandling.syscall_requirements].
  intros H. shape_split H.
  apply is_ok_bind; [now apply strategies_lines_ok|]. intros ?.
  apply is_ok_bind;
    [apply mapM_total;
     now apply (Forall_flat_map_of _ _ Render.error_type);
       [exact error_type_lines_ok|] |].
  intros ?. ok_chain.
Qed.

Lemma section_requirements_lines_ok (data : PyVal) :
  Render.section_requirements data = true ->
  is_ok (section_requirements_lines (Defaulted.section_requirements data)) = true.
Proof.
  unfold Render.section_requirements, section_requirements_lines,
    Defaulted.section_requirements.
  cbn [SectionRequirements.data SectionRequirements.text].
  intros H. shape_split H. ok_chain.
Qed.

Lemma benchmark_lines_ok (bench : PyVal) :
  Render.benchmark bench = true ->
  is_ok (benchmark_lines (Defaulted.benchmark bench)) = true.
Proof.
  unfold Render.benchmark, benchmark_lines, Defaulted.benchmark.
  cbn [Benchmark.requirements]. intros H. ok_chain.
Qed.

Lemma performance_lines_ok (data : PyVal) :
  Render.performance data = true ->
  is_ok (performance_lines (Defaulted.performance data)) = true.
Proof.
  unfold Render.performance, performance_lines, Defaulted.performance.
  cbn [Performance.constraints Performance.register_usage
       Performance.memory_access Performance.benchmarks].
  intros H. shape_split H.
  do 3 (apply is_ok_bind; [now apply each_ok | intros ?]).
  apply is_ok_bind; [|reflexivity].
  now apply (mapM_map_ok _ _ Render.benchmark); [exact benchmark_lines_ok|].
Qed.

Lemma unit_test_lines_ok (test : PyVal) :
  Render.unit_test test = true ->
  is_ok (unit_test_lines (Defaulted.unit_test test)) = true.
Proof.
  unfold Render.unit_test, unit_test_lines.
  destruct test; intros H; try reflexivity;
    cbn [Defaulted.unit_test TestCase.validation]; ok_chain.
Qed.

Lemma integration_test_lines_ok (test : PyVal) :
  Render.integration_test test = true ->
  is_ok (integration_test_lines (Defaulted.wrap "name" test)) = true.
Proof.
  unfold Render.integration_test, integration_test_lines.
  destruct test; intros H; try discriminate; try reflexivity.
  cbn [Defaulted.wrap]. shaped. reflexivity.
Qed.

Lemma vector_lines_ok (v : PyVal) :
  Render.vector v = true -> is_ok (vector_lines v) = true.
Proof. unfold Render.vector, vector_lines. intros H. shaped. reflexivity. Qed.

Lemma py_contains_dict (k : string) (v : PyVal) :
  is_dict v = true -> py_contains k v = Ok (has_key k v).
Proof. destruct v; try discriminate. reflexivity. Qed.

Lemma conformance_test_lines_ok (test : PyVal) :
  Render.conformance_test test = true ->
  is_ok (conformance_test_lines (Defaulted.wrap "standard" test)) = true.
Proof.
  unfold Render.conformance_test, conformance_test_lines.
  destruct test as [| | |s|l|d]; intros H; try discriminate; try reflexivity.
  cbn [Defaulted.wrap]. apply andb_prop in H. destruct H as [Hs Hv].
  rewrite py_getitem_field by assumption. cbn [bind].
  rewrite py_contains_dict by reflexivity. cbn [bind].
  destruct (has_key "test_vectors" (VDict d)) eqn:E; [|reflexivity].
  simpl in Hv. apply all_entries_forallb in Hv. destruct Hv as [Hi Hf].
  rewrite py_getitem_field by assumption. cbn [bind].
  rewrite py_iter_entries by assumption. cbn [bind].
  apply is_ok_bind; [|reflexivity].
  apply is_ok_bind; [|reflexivity].
  now apply (mapM_ok _ Render.vector); [exact vector_lines_ok|].
Qed.

Lemma testing_lines_ok (data : PyVal) :
  Render.testing data = true ->
  is_ok (testing_lines (Defaulted.testing data)) = true.
Proof.
  unfold Render.testing, testing_lines, Defaulted.testing.
  cbn [Testing.unit_tests Testing.integration_tests Testing.conformance_tests].
  intros H. shape_split H.
  apply is_ok_bind;
    [now apply (mapM_map_ok _ _ Render.unit_test); [exact unit_test_lines_ok|] |].
  intros ?.
  apply is_ok_bind;
    [now apply (mapM_map_ok _ _ Render.integration_test);
       [exact integration_test_lines_ok|] |].
  intros ?.
  apply is_ok_bind;
    [now apply (mapM_map_ok _ _ Render.conformance_test);
       [exact conformance_test_lines_ok|] |].
  reflexivity.
Qed.

Lemma code_style_lines_ok (data : PyVal) :
  Render.code_style data = true ->
  is_ok (code_style_lines (Defaulted.code_style data)) = true.
Proof.
  unfold Render.code_style, code_style_lines, Defaulted.code_style.
  cbn [CodeStyle.indentation CodeStyle.comments CodeStyle.naming
       CodeStyle.organization].
  intros H. shape_split H. ok_chain.
Qed.

Lemma format_lines_ok (data : PyVal) :
  Render.metadata data = true -> renderable data = true ->
  is_ok (format_lines (Defaulted.specification data)) = true.
Proof.
  unfold renderable. intros Hm H. shape_split H.
  unfold format_lines, Defaulted.specification.
  cbn [Specification.metadata Specification.header_format
       Specification.register_usage Specification.structures
       Specification.algorithms Specification.error_handling
       Specification.section_requirements Specification.performance
       Specification.testing Specification.code_style].
  apply is_ok_bind; [now apply metadata_lines_ok | intros ?].
  apply is_ok_bind; [now apply header_lines_ok | intros ?].
  apply is_ok_bind; [now apply register_usage_lines_ok | intros ?].
  apply is_ok_bind; [now apply structures_lines_ok | intros ?].
  apply is_ok_bind; [now apply algorithms_lines_ok | intros ?].
  apply is_ok_bind; [now apply error_handling_lines_ok | intros ?].
  apply is_ok_bind; [now apply section_requirements_lines_ok | intros ?].
  apply is_ok_bind; [now apply performance_lines_ok | intros ?].
  apply is_ok_bind; [now apply testing_lines_ok | intros ?].
  apply is_ok_bind; [now apply code_style_lines_ok | intros ?].
  reflexivity.
Qed.

(** ** The forge operation and the metadata *)

(** The first of name, version, description that the metadata lacks. *)
Definition first_missing (data : PyVal) : option string :=
  let m := field data "metadata" empty_dict in
  if negb (has_key "name" m) then Some "name"
  else if negb (has_key "version" m) then Some "version"
  else if negb (has_key "description" m) then Some "description"
  else None.

(** Complete metadata, one register without its purpose. *)
Definition version_and_purpose_missing_doc : PyVal :=
  VDict [("metadata", VDict [("name", VStr "crc"); ("description", VStr "checksum")]);
         ("register_usage",
          VDict [("general_purpose", VList [VDict [("name", VStr "rax")]])])].

(** C1, as stated, fails: a document with all three metadata fields and
    a register without its purpose does not forge; and when the version
    is missing as well, the error names the purpose, not the version. *)
Lemma complete_metadata_not_sufficient :
  Render.metadata without_purpose_doc = true /\
  process_spec without_purpose_doc "text"
  = Err (SpecForgeError
           "Failed to process specification: Missing required field: 'purpose'") /\
  first_missing version_and_purpose_missing_doc = Some "version" /\
  process_spec version_and_purpose_missing_doc "text"
  = Err (SpecForgeError
           "Failed to process specification: Missing required field: 'purpose'").
Proof. repeat split. Qed.

Lemma py_getitem_no_key (v : PyVal) (k : string) :
  has_key k v = false -> is_ok (py_getitem v k) = false.
Proof.
  unfold has_key, py_getitem. destruct v as [| | | | |d]; try reflexivity.
  destruct (lookup k d); [discriminate | reflexivity].
Qed.

Lemma is_ok_bind_false {A B : Type} (m : result A) (k : A -> result B) :
  is_ok m = false -> is_ok (bind m k) = false.
Proof. destruct m; [discriminate | reflexivity]. Qed.

Lemma metadata_lines_fails (data : PyVal) :
  Render.metadata data = false ->
  is_ok (metadata_lines (field data "metadata" empty_dict)) = false.
Proof.
  unfold Render.metadata, metadata_lines. intros H.
  destruct (has_key "name" _) eqn:E1;
    [|now apply is_ok_bind_false, py_getitem_no_key].
  rewrite (py_getitem_field _ _ E1). cbn [bind].
  destruct (has_key "version" _) eqn:E2;
    [|now apply is_ok_bind_false, py_getitem_no_key].
  rewrite (py_getitem_field _ _ E2). cbn [bind].
  destruct (has_key "description" _) eqn:E3; [discriminate|].
  now apply is_ok_bind_false, py_getitem_no_key.
Qed.

Lemma metadata_lines_KeyError (data : PyVal) (k : string) :
  is_dict (field data "metadata" empty_dict) = true ->
  first_missing data = Some k ->
  metadata_lines (field data "metadata" empty_dict) = Err (KeyError k).
Proof.
  unfold first_missing, metadata_lines. intros Hd H.
  destruct (has_key "name" _) eqn:E1; simpl in H;
    [|injection H as <-; now rewrite py_getitem_KeyError].
  rewrite (py_getitem_field _ _ E1). cbn [bind].
  destruct (has_key "version" _) eqn:E2; simpl in H;
    [|injection H as <-; now rewrite py_getitem_KeyError].
  rewrite (py_getitem_field _ _ E2). cbn [bind].
  destruct (has_key "description" _) eqn:E3; simpl in H; [discriminate|].
  injection H as <-. now rewrite py_getitem_KeyError.
Qed.

Lemma create_specification_is_defaulted (data : PyVal) (spec : Specification.t) :
  _create_specification data = Ok spec -> spec = Defaulted.specification data.
Proof.
  intros H. pose proof H as Hn.
  apply create_specification_Ok, build_specification_shape in Hn.
  rewrite (create_specification_defaulted _ Hn) in H. now injection H.
Qed.

Lemma sections_absent_renderable (d : dict) :
  (forall k, In k section_keys -> lookup k d = None) ->
  renderable (VDict d) = true.
Proof.
  intros H.
  unfold renderable, Render.header_format, Render.register_usage,
    Render.structures, Render.algorithms, Render.error_handling,
    Render.section_requirements, Render.performance, Render.testing,
    Render.code_style.
  rewrite !field_absent by (apply H; simpl; tauto).
  reflexivity.
Qed.

Lemma process_spec_renders (data : PyVal) (fmt : string) :
  normalizable data = true -> Render.metadata data = true ->
  renderable data = true ->
  exists report, process_spec data fmt = Ok report.
Proof.
  intros Hn Hm Hr. unfold process_spec, format_text.
  rewrite (create_specification_defaulted _ Hn). cbn [bind].
  destruct (is_ok_true _ (format_lines_ok _ Hm Hr)) as [lines ->].
  cbn [bind]. eauto.
Qed.

(** C1, amended: a document whose metadata lacks the name, the version
    or the description never forges: [process_spec] fails with a
    [SpecForgeError], and when the rest of the document normalizes and
    the metadata is a mapping (or absent) the message names the first
    missing field.  A document with all three metadata fields, whatever
    their values, forges whichever sections and default-read fields are
    absent, provided what is present normalizes and can be rendered; in
    particular it forges when none of the nine other sections is
    there.  Except for the first, these statements are about printable
    documents, whose values Python can turn into text (no integer of
    more than 4300 digits, no nesting deeper than 100). *)
Theorem forge_requires_metadata (data : PyVal) (fmt : string) :
  (Render.metadata data = false ->
   exists m, process_spec data fmt = Err (SpecForgeError m)) /\
  (forall k, printable data = true ->
             normalizable data = true ->
             is_dict (field data "metadata" empty_dict) = true ->
             first_missing data = Some k ->
             process_spec data fmt
             = Err (SpecForgeError ("Failed to process specification: " ++ repr_str k))) /\
  (printable data = true ->
   normalizable data = true -> Render.metadata data = true ->
   renderable data = true ->
   exists report, process_spec data fmt = Ok report) /\
  (forall d, printable (VDict d) = true ->
             Render.metadata (VDict d) = true ->
             (forall k, In k section_keys -> lookup k d = None) ->
             exists report, process_spec (VDict d) fmt = Ok report).
Proof.
  split; [|split; [|split]].
  - intros Hm. apply process_spec_error, process_spec_fails.
    intros spec Hc. apply create_specification_is_defaulted in Hc. subst spec.
    unfold format_text. apply is_ok_bind_false.
    unfold format_lines. apply is_ok_bind_false.
    now apply metadata_lines_fails.
  - intros k _ Hn Hd Hk. unfold process_spec, format_text, format_lines.
    rewrite (create_specification_defaulted _ Hn). cbn [bind].
    cbn [Defaulted.specification Specification.metadata].
    now rewrite (metadata_lines_KeyError _ _ Hd Hk).
  - intros _. apply process_spec_renders.
  - intros d _ Hm Hs. apply process_spec_renders;
      auto using sections_absent_normalizable, sections_absent_renderable.
Qed.

Definition metadata_only_doc : PyVal :=
  VDict [("metadata", VDict [("name", VStr ""); ("version", VInt 1);
                             ("description", VNone)])].

Definition no_version_doc : PyVal :=
  VDict [("metadata", VDict [("name", VStr "crc"); ("description", VStr "checksum")]);
         ("code_style", VDict [("naming", VList [VStr "snake_case"])])].

Lemma forge_requires_metadata_witness :
  (exists report, process_spec metadata_only_doc "text" = Ok report) /\
  (exists report, process_spec optional_fields_doc "text" = Ok report) /\
  process_spec no_version_doc "text"
  = Err (SpecForgeError "Failed to process specification: 'version'") /\
  (exists m, process_spec (VDict []) "text" = Err (SpecForgeError m)).
Proof.
  split; [|split; [|split]].
  - apply (proj2 (proj2 (proj2 (forge_requires_metadata VNone "text")))).
    + reflexivity.
    + reflexivity.
    + intros k Hk. simpl in Hk.
      repeat (destruct Hk as [<-|Hk]; [reflexivity|]). contradiction.
  - apply (proj1 (proj2 (proj2 (forge_requires_metadata optional_fields_doc "text"))));
      reflexivity.
  - apply (proj1 (proj2 (forge_requires_metadata no_version_doc "text")) "version");
      reflexivity.
  - apply (proj1 (forge_requires_metadata (VDict []) "text")). reflexivity.
Defined.

(** ** Order of the algorithms in the report *)

Lemma append_nil_r (s : string) : s ++ "" = s.
Proof. induction s; simpl; congruence. Qed.

Lemma append_assoc (a b c : string) : (a ++ b) ++ c = a ++ b ++ c.
Proof. induction a; simpl; congruence. Qed.

(** *** The lines of a text *)

Definition line_feed : ascii := ascii_of_nat 10.

(** [s.split(newline)]: the pieces of [s] between its line feeds. *)
Fixpoint text_lines (s : string) : list string :=
  match s with
  | EmptyString => [EmptyString]
  | String c r =>
      if Ascii.eqb line_feed c then EmptyString :: text_lines r
      else match text_lines r with
           | [] => [String c EmptyString]
           | l :: ls => String c l :: ls
           end
  end.

(** The string holds no line feed. *)
Definition single_line (s : string) : bool := negb (str_mem line_feed s).

(** The text has the lines [ls], each between two line feeds, one after
    the other: [l1] somewhere, [l2] somewhere after it, and so on. *)
Fixpoint lines_in_order (ls : list string) (text : string) : Prop :=
  match ls with
  | [] => True
  | l :: r =>
      exists a b, text = a ++ newline ++ l ++ newline ++ b
                  /\ lines_in_order r (newline ++ b)
  end.

(** [p] is [l] with some elements left out. *)
Inductive subseq {A : Type} : list A -> list A -> Prop :=
| subseq_nil : forall l, subseq [] l
| subseq_skip : forall x p l, subseq p l -> subseq p (x :: l)
| subseq_take : forall x p l, subseq p l -> subseq (x :: p) (x :: l).

(** What the report has to list of one raw step: its name, then the
    actions of its list that are strings, each as it is written. *)
Definition action_line (a : PyVal) : list string :=
  match a with
  | VStr s => ["    - " ++ s]
  | _ => []
  end.

Definition step_text (kv : string * PyVal) : list string :=
  ("  " ++ fst kv ++ ":")
    :: match snd kv with VList l => flat_map action_line l | _ => [] end.

(** And of one raw algorithm: its label, then [Steps:] and the steps of
    the raw mapping. *)
Definition algorithm_text (kv : string * PyVal) : list string :=
  ("Algorithm: " ++ fst kv) :: "Steps:"
    :: flat_map step_text (dict_items (field (snd kv) "steps" empty_dict)).

Lemma dict_set_fresh {V : Type} (d : list (string * V)) (k : string) (v : V) :
  ~ In k (keys d) -> dict_set d k v = (d ++ [(k, v)])%list.
Proof.
  induction d as [|[k' v'] d IH]; simpl; intros H; [reflexivity|].
  destruct (String.eqb_spec k k') as [->|Hne]; [tauto|].
  rewrite IH; tauto.
Qed.

Lemma keyed_distinct {V : Type} (g : string -> PyVal -> V) (items : dict) :
  NoDup (keys items) ->
  Defaulted.keyed g items = map (fun kv => (fst kv, g (fst kv) (snd kv))) items.
Proof.
  unfold Defaulted.keyed.
  assert (G : forall acc : list (string * V),
            NoDup (keys acc ++ keys items)%list ->
            fold_left (fun acc kv => dict_set acc (fst kv) (g (fst kv) (snd kv)))
                      items acc
            = (acc ++ map (fun kv => (fst kv, g (fst kv) (snd kv))) items)%list).
  { induction items as [|[k x] items IH]; simpl; intros acc H.
    - now rewrite app_nil_r.
    - pose proof (NoDup_remove_2 _ _ _ H) as Hk.
      rewrite dict_set_fresh by (intros Hin; apply Hk, in_or_app; now left).
      rewrite IH.
      + now rewrite <- app_assoc.
      + unfold keys in *. rewrite map_app. simpl. rewrite <- app_assoc. exact H. }
  intros H. now rewrite G.
Qed.

Lemma mapM_determined {A B : Type} (f : A -> result B) (g : A -> B)
      (l : list A) (r : list B) :
  (forall x y, f x = Ok y -> y = g x) -> mapM f l = Ok r -> r = map g l.
Proof.
  intros Hf. revert r. induction l as [|x l IH]; simpl; intros r H.
  - now injection H.
  - inv_bind H. subst r. now rewrite (Hf _ _ Ha), (IH _ Ha0).
Qed.

Lemma each_determined (f : PyVal -> string) (v : PyVal) (ls : list string) :
  each f v = Ok ls -> ls = map f (entries v).
Proof.
  unfold each. intros H. inv_bind H. apply py_iter_inv in Ha.
  destruct Ha as [_ ->]. now subst.
Qed.

(** The lines of one step: its name, then its actions in list order. *)
Definition step_block (kv : string * PyVal) : list string :=
  ("  " ++ fst kv ++ ":") :: map (bullet "    ") (entries (snd kv)).

Lemma step_lines_determined (kv : string * PyVal) (ls : list string) :
  step_lines kv = Ok ls -> ls = step_block kv.
Proof.
  unfold step_lines, step_block. intros H. inv_bind H.
  apply each_determined in Ha. now subst.
Qed.

Lemma steps_lines_determined (steps : PyVal) (ls : list string) :
  steps_lines steps = Ok ls -> ls = flat_map step_block (dict_items steps).
Proof.
  unfold steps_lines. intros H. inv_bind H.
  apply py_items_inv in Ha. destruct Ha as [_ ->].
  apply (mapM_determined _ step_block) in Ha0; [|exact step_lines_determined].
  subst. now rewrite flat_map_concat_map.
Qed.

(** The block of one raw algorithm: its label, then among its lines the
    [Steps:] label followed by the steps of the raw mapping in order. *)
Definition algorithm_block (kv : string * PyVal) (block : list string) : Prop :=
  exists head tail,
    block
    = ("Algorithm: " ++ fst kv) :: head +++ ["Steps:"]
        +++ flat_map step_block (dict_items (field (snd kv) "steps" empty_dict))
        +++ tail.

Lemma algorithm_lines_block (k : string) (algo : PyVal) (block : list string) :
  algorithm_lines (k, Defaulted.algorithm k algo) = Ok block ->
  algorithm_block (k, algo) block.
Proof.
  unfold algorithm_lines. cbn [fst snd]. intros H. inv_bind H.
  apply steps_lines_determined in Ha4. subst a4.
  cbn [Defaulted.algorithm Algorithm.steps Algorithm.description] in H.
  unfold algorithm_block. cbn [fst snd].
  exists (("Description: " ++ py_str (field algo "description" empty_str))
            :: "Implementation Requirements:" :: "  Memory Operations:"
            :: a +++ "  Encoding Requirements:" :: a0
            +++ "  Leftover Handling:" :: a1
            +++ "  Padding Rules:" :: "    One Byte:" :: a2
            +++ "    Two Bytes:" :: a3),
         (a5 +++ a6 +++ a7 +++ a8 +++ [""]).
  rewrite <- H. cbn [app]. repeat (rewrite <- app_assoc; cbn [app]).
  reflexivity.
Qed.

(** Lines that open the block of an algorithm. *)
Definition algorithm_label (line : string) : bool := prefixb "Algorithm: " line.

Definition unlabelled (ls : list string) : Prop :=
  Forall (fun line => algorithm_label line = false) ls.

Lemma unlabelled_filter (ls : list string) :
  unlabelled ls -> filter algorithm_label ls = [].
Proof.
  induction 1 as [|l ls Hl _ IH]; simpl; [reflexivity|]. now rewrite Hl.
Qed.

Lemma unlabelled_map {A : Type} (f : A -> string) (l : list A) :
  (forall x, algorithm_label (f x) = false) -> unlabelled (map f l).
Proof. intros H. apply Forall_map, Forall_forall. auto. Qed.

Lemma unlabelled_concat (ll : list (list string)) :
  Forall unlabelled ll -> unlabelled (concat ll).
Proof. induction 1; simpl; [constructor | now apply Forall_app]. Qed.

Lemma each_unlabelled (f : PyVal -> string) (v : PyVal) (ls : list string) :
  (forall x, algorithm_label (f x) = false) -> each f v = Ok ls -> unlabelled ls.
Proof.
  intros Hf H. apply each_determined in H. subst. now apply unlabelled_map.
Qed.

Lemma labelled_unlabelled (label indent : string) (v : PyVal) (ls : list string) :
  algorithm_label label = false ->
  (forall x, algorithm_label (bullet indent x) = false) ->
  labelled label indent v = Ok ls -> unlabelled ls.
Proof.
  unfold labelled. intros Hl Hb H. destruct (truthy v).
  - inv_bind H. subst. constructor; [assumption|].
    now apply (each_unlabelled _ _ _ Hb Ha).
  - injection H as <-. constructor.
Qed.

Lemma mapM_unlabelled {A : Type} (f : A -> result (list string)) (l : list A)
      (ll : list (list string)) :
  (forall x y, f x = Ok y -> unlabelled y) ->
  mapM f l = Ok ll -> unlabelled (concat ll).
Proof.
  intros Hf H. apply unlabelled_concat.
  apply mapM_Forall2 in H. induction H; constructor; eauto.
Qed.

Lemma group_unlabelled (kv : string * PyVal) (ls : list string) :
  group kv = Ok ls -> unlabelled ls.
Proof.
  unfold group. intros H. inv_bind H. subst. constructor; [reflexivity|].
  eapply each_unlabelled; [|exact Ha]. intros; reflexivity.
Qed.

Lemma groups_unlabelled (v : PyVal) (ls : list string) :
  groups v = Ok ls -> unlabelled ls.
Proof.
  unfold groups. intros H. inv_bind H. subst.
  apply (mapM_unlabelled _ _ _ group_unlabelled Ha0).
Qed.

Lemma unlabelled_cons (l : string) (ls : list string) :
  algorithm_label l = false -> unlabelled ls -> unlabelled (l :: ls).
Proof. intros; now constructor. Qed.

Lemma unlabelled_app (l r : list string) :
  unlabelled l -> unlabelled r -> unlabelled (l ++ r)%list.
Proof. intros; now apply Forall_app. Qed.

(** Split a list of lines into its literal lines and its loops. *)
Ltac unlabelled_parts :=
  repeat match goal with
         | |- unlabelled (_ ++ _)%list => apply unlabelled_app
         | |- unlabelled (_ :: _) => apply unlabelled_cons; [reflexivity|]
         | |- unlabelled [] => constructor
         | H : each _ _ = Ok ?a |- unlabelled ?a =>
             eapply each_unlabelled; [|exact H]; intros; reflexivity
         | H : labelled _ _ _ = Ok ?a |- unlabelled ?a =>
             eapply labelled_unlabelled; [| |exact H];
             [reflexivity | intros; reflexivity]
         | H : groups _ = Ok ?a |- unlabelled ?a =>
             exact (groups_unlabelled _ _ H)
         | H : steps_lines _ = Ok ?a |- unlabelled ?a =>
             exact (groups_unlabelled _ _ H)
         end.

Ltac loop_unlabelled lem :=
  match goal with
  | H : mapM _ _ = Ok _ |- _ => exact (mapM_unlabelled _ _ _ lem H)
  end.

Lemma metadata_unlabelled (m : PyVal) (ls : list string) :
  metadata_lines m = Ok ls -> unlabelled ls.
Proof. unfold metadata_lines. intros H. inv_bind H. subst. unlabelled_parts. Qed.

Lemma header_unlabelled (h : HeaderFormat.t) (ls : list string) :
  header_lines h = Ok ls -> unlabelled ls.
Proof. unfold header_lines. intros H. inv_bind H. subst. unlabelled_parts. Qed.

Lemma register_unlabelled (r : RegisterInfo.t) (ls : list string) :
  register_lines r = Ok ls -> unlabelled ls.
Proof.
  unfold register_lines. intros H. inv_bind H. subst. unlabelled_parts.
  destruct (truthy _); [inv_bind Ha; subst | injection Ha as <-]; unlabelled_parts.
Qed.

Lemma register_usage_unlabelled (u : RegisterUsage.t) (ls : list string) :
  register_usage_lines u = Ok ls -> unlabelled ls.
Proof.
  unfold register_usage_lines. intros H. inv_bind H. subst. unlabelled_parts.
  loop_unlabelled register_unlabelled.
Qed.

Lemma structure_unlabelled (kv : string * DataStructure.t) (ls : list string) :
  structure_lines kv = Ok ls -> unlabelled ls.
Proof.
  unfold structure_lines. intros H. inv_bind H. subst. unlabelled_parts.
  now apply unlabelled_map.
Qed.

Lemma structures_unlabelled (ss : list (string * DataStructure.t)) (ls : list string) :
  structures_lines ss = Ok ls -> unlabelled ls.
Proof.
  unfold structures_lines. intros H. inv_bind H. subst. unlabelled_parts.
  loop_unlabelled structure_unlabelled.
Qed.

Lemma error_type_unlabelled (e : ErrorType.t) (ls : list string) :
  error_type_lines e = Ok ls -> unlabelled ls.
Proof. unfold error_type_lines. intros H. inv_bind H. subst. unlabelled_parts. Qed.

Lemma strategies_unlabelled (v : PyVal) (ls : list string) :
  strategies_lines v = Ok ls -> unlabelled ls.
Proof.
  unfold strategies_lines. destruct v; intros H;
    try (injection H as <-; constructor); unlabelled_parts.
Qed.

Lemma error_handling_unlabelled (e : ErrorHandling.t) (ls : list string) :
  error_handling_lines e = Ok ls -> unlabelled ls.
Proof.
  unfold error_handling_lines. intros H. inv_bind H. subst. unlabelled_parts.
  - now apply strategies_unlabelled in Ha.
  - loop_unlabelled error_type_unlabelled.
Qed.

Lemma section_requirements_unlabelled (s : SectionRequirements.t) (ls : list string) :
  section_requirements_lines s = Ok ls -> unlabelled ls.
Proof.
  unfold section_requirements_lines. intros H. inv_bind H. subst. unlabelled_parts.
  apply unlabelled_concat, Forall_map, Forall_forall. intros b _.
  unfold bss_lines. unlabelled_parts.
Qed.

Lemma benchmark_unlabelled (b : Benchmark.t) (ls : list string) :
  benchmark_lines b = Ok ls -> unlabelled ls.
Proof.
  unfold benchmark_lines. intros H. inv_bind H. subst. unlabelled_parts.
  destruct (truthy _); unlabelled_parts.
Qed.

Lemma performance_unlabelled (p : Performance.t) (ls : list string) :
  performance_lines p = Ok ls -> unlabelled ls.
Proof.
  unfold performance_lines. intros H. inv_bind H. subst. unlabelled_parts.
  loop_unlabelled benchmark_unlabelled.
Qed.

Lemma unit_test_unlabelled (t : TestCase.t) (ls : list string) :
  unit_test_lines t = Ok ls -> unlabelled ls.
Proof. unfold unit_test_lines. intros H. inv_bind H. subst. unlabelled_parts. Qed.

Lemma integration_test_unlabelled (t : PyVal) (ls : list string) :
  integration_test_lines t = Ok ls -> unlabelled ls.
Proof.
  unfold integration_test_lines. intros H. inv_bind H. subst. unlabelled_parts.
  apply unlabelled_concat, Forall_map, Forall_forall. intros [k v] _.
  unfold integration_item. cbn [fst snd].
  destruct (String.eqb k "name"); [constructor|].
  destruct v; unlabelled_parts. now apply unlabelled_map.
Qed.

Lemma vector_unlabelled (v : PyVal) (ls : list string) :
  vector_lines v = Ok ls -> unlabelled ls.
Proof. unfold vector_lines. intros H. inv_bind H. subst. unlabelled_parts. Qed.

Lemma conformance_test_unlabelled (t : PyVal) (ls : list string) :
  conformance_test_lines t = Ok ls -> unlabelled ls.
Proof.
  unfold conformance_test_lines. intros H. inv_bind H. subst. unlabelled_parts.
  destruct a0; [inv_bind Ha1; subst | injection Ha1 as <-]; unlabelled_parts.
  loop_unlabelled vector_unlabelled.
Qed.

Lemma testing_unlabelled (t : Testing.t) (ls : list string) :
  testing_lines t = Ok ls -> unlabelled ls.
Proof.
  unfold testing_lines. intros H. inv_bind H. subst. unlabelled_parts.
  - loop_unlabelled unit_test_unlabelled.
  - loop_unlabelled integration_test_unlabelled.
  - loop_unlabelled conformance_test_unlabelled.
Qed.

Lemma code_style_unlabelled (c : CodeStyle.t) (ls : list string) :
  code_style_lines c = Ok ls -> unlabelled ls.
Proof. unfold code_style_lines. intros H. inv_bind H. subst. unlabelled_parts. Qed.

Lemma filter_keep {A : Type} (p : A -> bool) (x : A) (l : list A) :
  p x = true -> filter p (x :: l) = x :: filter p l.
Proof. simpl. now intros ->. Qed.

Lemma filter_drop {A : Type} (p : A -> bool) (x : A) (l : list A) :
  p x = false -> filter p (x :: l) = filter p l.
Proof. simpl. now intros ->. Qed.

Lemma algorithm_lines_label (kv : string * Algorithm.t) (block : list string) :
  algorithm_lines kv = Ok block ->
  filter algorithm_label block = ["Algorithm: " ++ fst kv].
Proof.
  unfold algorithm_lines. intros H. inv_bind H. subst block.
  cbn [app]. rewrite filter_keep by reflexivity.
  f_equal. apply unlabelled_filter. unlabelled_parts.
Qed.

Lemma algorithms_lines_labels (algos : list (string * Algorithm.t))
      (ls : list string) :
  algorithms_lines algos = Ok ls ->
  filter algorithm_label ls = map (fun kv => "Algorithm: " ++ fst kv) algos.
Proof.
  unfold algorithms_lines. intros H. inv_bind H. subst ls.
  rewrite filter_drop by reflexivity.
  apply mapM_Forall2 in Ha.
  induction Ha as [|kv block algos blocks Hb _ IH]; [reflexivity|].
  cbn [concat map]. rewrite filter_app, IH, (algorithm_lines_label _ _ Hb).
  reflexivity.
Qed.

Lemma algorithms_blocks (raw : dict) (blocks : list (list string)) :
  mapM algorithm_lines
       (map (fun kv => (fst kv, Defaulted.algorithm (fst kv) (snd kv))) raw)
  = Ok blocks ->
  Forall2 algorithm_block raw blocks.
Proof.
  revert blocks. induction raw as [|[k algo] raw IH]; simpl; intros blocks H.
  - injection H as <-. constructor.
  - inv_bind H. subst blocks. constructor; [|auto].
    now apply algorithm_lines_block.
Qed.

(** *** From the list of lines to the text *)

Lemma subseq_refl {A : Type} (l : list A) : subseq l l.
Proof. induction l; constructor; assumption. Qed.

Lemma subseq_app {A : Type} (p1 p2 l1 l2 : list A) :
  subseq p1 l1 -> subseq p2 l2 -> subseq (p1 ++ p2)%list (l1 ++ l2)%list.
Proof.
  intros H1 H2. induction H1; simpl; try (constructor; assumption).
  induction l as [|x l IH]; simpl; [assumption | now constructor].
Qed.

Lemma subseq_prefixed {A : Type} (p l r : list A) :
  subseq p r -> subseq p (l ++ r)%list.
Proof. apply (subseq_app [] p l r), subseq_nil. Qed.

Lemma subseq_flat_map {A B : Type} (f g : A -> list B) (l : list A) :
  (forall x, subseq (f x) (g x)) -> subseq (flat_map f l) (flat_map g l).
Proof.
  intros H. induction l as [|x l IH]; simpl; [constructor|].
  now apply subseq_app.
Qed.

(** The lines after the first, each behind its line feed. *)
Fixpoint lines_after (ls : list string) : string :=
  match ls with
  | [] => ""
  | l :: r => newline ++ l ++ lines_after r
  end.

Lemma join_lines_after (x : string) (ls : list string) :
  join newline (x :: ls) = x ++ lines_after ls.
Proof.
  revert x. induction ls as [|y ls IH]; intros x.
  - cbn [join lines_after]. now rewrite append_nil_r.
  - change (join newline (x :: y :: ls)) with (x ++ newline ++ join newline (y :: ls)).
    now rewrite IH.
Qed.

Lemma lines_after_app (l r : list string) :
  lines_after (l +++ r) = lines_after l ++ lines_after r.
Proof.
  induction l as [|x l IH]; cbn [app lines_after]; [reflexivity|].
  now rewrite IH, !append_assoc.
Qed.

Lemma lines_in_order_prefixed (ps : list string) (a t : string) :
  lines_in_order ps t -> lines_in_order ps (a ++ t).
Proof.
  destruct ps as [|p ps]; [trivial|]. intros (a0 & b & -> & H).
  exists (a ++ a0), b. split; [now rewrite append_assoc | exact H].
Qed.

Lemma lines_after_tail (ls : list string) (tail : string) :
  exists b, lines_after ls ++ newline ++ tail = newline ++ b.
Proof.
  destruct ls as [|l ls]; cbn [lines_after].
  - now exists tail.
  - exists (l ++ lines_after ls ++ newline ++ tail). now rewrite !append_assoc.
Qed.

Lemma lines_in_order_after (ps ls : list string) (tail : string) :
  subseq ps ls -> lines_in_order ps (lines_after ls ++ newline ++ tail).
Proof.
  induction 1 as [l|x p l _ IH|x p l _ IH].
  - exact I.
  - cbn [lines_after].
    replace ((newline ++ x ++ lines_after l) ++ newline ++ tail)
      with ((newline ++ x) ++ lines_after l ++ newline ++ tail)
      by now rewrite !append_assoc.
    now apply lines_in_order_prefixed.
  - cbn [lines_after lines_in_order].
    destruct (lines_after_tail l tail) as [b Hb].
    exists "", b. split.
    + rewrite !append_assoc, Hb. reflexivity.
    + rewrite <- Hb. exact IH.
Qed.

Lemma lines_in_order_join (ps pre mid post : list string) :
  pre <> [] -> post <> [] -> subseq ps mid ->
  lines_in_order ps (join newline (pre +++ mid +++ post)).
Proof.
  destruct pre as [|x pre]; [congruence|]. destruct post as [|q post]; [congruence|].
  intros _ _ H. cbn [app]. rewrite join_lines_after, !lines_after_app.
  cbn [lines_after].
  rewrite <- (append_assoc x (lines_after pre)).
  now apply lines_in_order_prefixed, lines_in_order_after.
Qed.

Lemma single_line_cons (c : ascii) (s : string) :
  single_line (String c s) = true ->
  Ascii.eqb line_feed c = false /\ single_line s = true.
Proof.
  unfold single_line. cbn [str_mem]. rewrite negb_orb. intros H.
  apply andb_prop in H. destruct H as [Hc Hs].
  now apply negb_true_iff in Hc.
Qed.

Lemma text_lines_single (s : string) :
  single_line s = true -> text_lines s = [s].
Proof.
  induction s as [|c s IH]; [reflexivity|]. intros H.
  apply single_line_cons in H. destruct H as [Hc Hs].
  cbn [text_lines]. now rewrite Hc, (IH Hs).
Qed.

Lemma text_lines_line (s t : string) :
  single_line s = true -> text_lines (s ++ newline ++ t) = s :: text_lines t.
Proof.
  induction s as [|c s IH]; [reflexivity|]. intros H.
  apply single_line_cons in H. destruct H as [Hc Hs].
  cbn [append text_lines]. now rewrite Hc, (IH Hs).
Qed.

Lemma text_lines_join (ls : list string) :
  ls <> [] -> forallb single_line ls = true -> text_lines (join newline ls) = ls.
Proof.
  induction ls as [|x ls IH]; [congruence|]. intros _ H.
  cbn [forallb] in H. apply andb_prop in H. destruct H as [Hx Hl].
  destruct ls as [|y ls].
  - now apply text_lines_single.
  - change (join newline (x :: y :: ls)) with (x ++ newline ++ join newline (y :: ls)).
    rewrite (text_lines_line _ _ Hx), IH; [reflexivity | discriminate | exact Hl].
Qed.

(** *** The lines of the algorithms in the list *)

Lemma step_text_block (kv : string * PyVal) : subseq (step_text kv) (step_block kv).
Proof.
  destruct kv as [k acts]. unfold step_text, step_block. cbn [fst snd].
  apply subseq_take. destruct acts as [| | | |l|]; try apply subseq_nil.
  change (entries (VList l)) with l.
  induction l as [|a l IH]; [constructor|].
  destruct a; cbn [flat_map action_line map app];
    first [now apply subseq_skip | now apply subseq_take].
Qed.

Lemma algorithm_text_block (kv : string * PyVal) (block : list string) :
  algorithm_block kv block -> subseq (algorithm_text kv) block.
Proof.
  intros (head & tail & ->). unfold algorithm_text.
  apply subseq_take, subseq_prefixed. cbn [app]. apply subseq_take.
  rewrite <- (app_nil_r (flat_map step_text _)).
  apply subseq_app; [|apply subseq_nil].
  apply subseq_flat_map, step_text_block.
Qed.

Lemma algorithms_text_blocks (raw : dict) (blocks : list (list string)) :
  Forall2 algorithm_block raw blocks ->
  subseq (flat_map algorithm_text raw) (concat blocks).
Proof.
  induction 1 as [|kv block raw blocks Hb _ IH]; cbn [flat_map concat];
    [constructor|].
  apply subseq_app; [now apply algorithm_text_block | exact IH].
Qed.

Lemma metadata_lines_first (m : PyVal) (ls : list string) :
  metadata_lines m = Ok ls -> ls <> [].
Proof. unfold metadata_lines. intros H. inv_bind H. now subst. Qed.

Lemma error_handling_lines_first (e : ErrorHandling.t) (ls : list string) :
  error_handling_lines e = Ok ls -> ls <> [].
Proof. unfold error_handling_lines. intros H. inv_bind H. now subst. Qed.

Lemma app_not_nil {A : Type} (l r : list A) : l <> [] -> (l ++ r)%list <> [].
Proof. destruct l; [congruence | discriminate]. Qed.

(** The list of lines of a report: the algorithms section is one block
    per raw algorithm, in the raw order, between the sections before and
    the sections after; no other line carries an algorithm label. *)
Lemma report_lines_algorithms (data : PyVal) (lines : list string) :
  report_lines data = Ok lines ->
  NoDup (keys (dict_items (field data "algorithms" empty_dict))) ->
  exists pre blocks post,
    lines = pre +++ ("=== ALGORITHMS ===" :: concat blocks) +++ post /\
    pre <> [] /\ post <> [] /\
    Forall2 algorithm_block (dict_items (field data "algorithms" empty_dict)) blocks /\
    filter algorithm_label lines
    = map (fun kv => "Algorithm: " ++ fst kv)
          (dict_items (field data "algorithms" empty_dict)).
Proof.
  unfold report_lines. intros H Hk.
  destruct (_create_specification data) as [spec|e] eqn:Hc; [|discriminate].
  apply create_specification_is_defaulted in Hc. subst spec.
  cbn [bind] in H. rename H into Hl.
  unfold format_lines in Hl.
  cbn [Defaulted.specification Specification.metadata Specification.header_format
       Specification.register_usage Specification.structures
       Specification.algorithms Specification.error_handling
       Specification.section_requirements Specification.performance
       Specification.testing Specification.code_style] in Hl.
  inv_bind Hl. subst lines.
  pose proof (algorithms_lines_labels _ _ Ha3) as Hf.
  unfold Defaulted.algorithms in Ha3, Hf.
  rewrite (keyed_distinct _ _ Hk) in Ha3, Hf. rewrite map_map in Hf.
  cbn [fst] in Hf.
  unfold algorithms_lines in Ha3. inv_bind Ha3. subst a3.
  exists (a +++ a0 +++ a1 +++ a2), a9, (a4 +++ a5 +++ a6 +++ a7 +++ a8).
  split; [|split; [|split; [|split]]].
  - repeat (rewrite <- app_assoc; cbn [app]). reflexivity.
  - apply app_not_nil. exact (metadata_lines_first _ _ Ha).
  - apply app_not_nil. exact (error_handling_lines_first _ _ Ha4).
  - now apply algorithms_blocks.
  - rewrite !filter_app, Hf.
    rewrite (unlabelled_filter _ (metadata_unlabelled _ _ Ha)),
      (unlabelled_filter _ (header_unlabelled _ _ Ha0)),
      (unlabelled_filter _ (register_usage_unlabelled _ _ Ha1)),
      (unlabelled_filter _ (structures_unlabelled _ _ Ha2)),
      (unlabelled_filter _ (error_handling_unlabelled _ _ Ha4)),
      (unlabelled_filter _ (section_requirements_unlabelled _ _ Ha5)),
      (unlabelled_filter _ (performance_unlabelled _ _ Ha6)),
      (unlabelled_filter _ (testing_unlabelled _ _ Ha7)),
      (unlabelled_filter _ (code_style_unlabelled _ _ Ha8)).
    cbn [app]. now rewrite app_nil_r.
Qed.

Lemma process_spec_lines (data : PyVal) (fmt report : string) :
  process_spec data fmt = Ok report ->
  exists lines, report_lines data = Ok lines /\ report = join newline lines.
Proof.
  intros H. destruct (process_spec_Ok _ _ _ H) as (spec & lines & Hb & Hl & ->).
  exists lines. split; [|reflexivity].
  unfold report_lines, _create_specification. now rewrite Hb.
Qed.

(** Three algorithms; the first has two steps. *)
Definition pipeline_doc : PyVal :=
  VDict [("metadata", VDict [("name", VStr "b64"); ("version", VStr "3");
                             ("description", VStr "base64 codec")]);
         ("algorithms",
          VDict [("parse", VDict [("steps",
                                   VDict [("scan", VList [VStr "read"; VStr "check"]);
                                          ("emit", VList [VStr "write"])])]);
                 ("encode", VDict []);
                 ("flush", VDict [("description", VStr "drain the buffer")])])].

Lemma pipeline_doc_distinct :
  NoDup (keys (dict_items (field pipeline_doc "algorithms" empty_dict))).
Proof.
  repeat constructor; simpl; intuition discriminate.
Defined.

(** ** What the report shows of the model *)

(** [s] is a piece of the line. *)
Definition occurs (s line : string) : Prop := exists a b, line = a ++ s ++ b.

Lemma occurs_refl (s : string) : occurs s s.
Proof. exists "", "". simpl. now rewrite append_nil_r. Qed.

Lemma occurs_head (s q : string) : occurs s (s ++ q).
Proof. now exists "", q. Qed.

Lemma occurs_prefixed (p s line : string) : occurs s line -> occurs s (p ++ line).
Proof. intros (a & b & ->). exists (p ++ a), b. now rewrite append_assoc. Qed.

Lemma occurs_join (sep s : string) (l : list string) :
  In s l -> occurs s (join sep l).
Proof.
  induction l as [|x l IH]; simpl; [tauto|].
  destruct l as [|y l].
  - intros [->|[]]. apply occurs_refl.
  - intros [->|Hin].
    + apply occurs_head.
    + now apply occurs_prefixed, occurs_prefixed, IH.
Qed.

Lemma occurs_later (c : ascii) (s line : string) :
  occurs s line -> occurs s (String c line).
Proof. apply (occurs_prefixed (String c "")). Qed.

Ltac occurs_here :=
  solve [repeat first [ apply occurs_refl | apply occurs_head
                      | apply occurs_later | apply occurs_prefixed ]].

(** The text of [v] is a piece of some line of [ls]. *)
Definition shown_in (ls : list string) (v : PyVal) : Prop :=
  exists line, In line ls /\ occurs (py_str v) line.

(** Every value of [vs] is shown in [ls]. *)
Definition covers (ls : list string) (vs : list PyVal) : Prop :=
  Forall (shown_in ls) vs.

Lemma covers_nil (ls : list string) : covers ls [].
Proof. constructor. Qed.

Lemma covers_mono (ls ls' : list string) (vs : list PyVal) :
  (forall l, In l ls -> In l ls') -> covers ls vs -> covers ls' vs.
Proof.
  intros Hin H. unfold covers in *. rewrite Forall_forall in *.
  intros v Hv. destruct (H v Hv) as (line & Hl & Ho). exists line. auto.
Qed.

Lemma covers_skip_line (l : string) (ls : list string) (vs : list PyVal) :
  covers ls vs -> covers (l :: ls) vs.
Proof. apply covers_mono. intros; now right. Qed.

Lemma covers_skip (l r : list string) (vs : list PyVal) :
  covers r vs -> covers (l ++ r)%list vs.
Proof. apply covers_mono. intros; apply in_or_app; now right. Qed.

Lemma covers_line (l : string) (ls : list string) (v : PyVal) (vs : list PyVal) :
  occurs (py_str v) l -> covers (l :: ls) vs -> covers (l :: ls) (v :: vs).
Proof. intros Ho H. constructor; [|exact H]. exists l. split; [now left | exact Ho]. Qed.

Lemma covers_app (l r : list string) (vs ws : list PyVal) :
  covers l vs -> covers r ws -> covers (l ++ r)%list (vs ++ ws)%list.
Proof.
  intros Hl Hr. apply Forall_app. split.
  - revert Hl. apply covers_mono. intros; apply in_or_app; now left.
  - now apply covers_skip.
Qed.

Lemma covers_map (f : PyVal -> string) (l : list PyVal) :
  (forall x, occurs (py_str x) (f x)) -> covers (map f l) l.
Proof.
  intros Hf. apply Forall_forall. intros x Hx.
  exists (f x). split; [now apply in_map | apply Hf].
Qed.

Lemma covers_concat {A : Type} (shown : A -> list PyVal) (items : list A)
      (blocks : list (list string)) :
  Forall2 (fun x b => covers b (shown x)) items blocks ->
  covers (concat blocks) (flat_map shown items).
Proof. induction 1; simpl; [constructor | now apply covers_app]. Qed.

Lemma covers_mapM {A : Type} (f : A -> result (list string)) (shown : A -> list PyVal)
      (items : list A) (blocks : list (list string)) :
  (forall x b, f x = Ok b -> covers b (shown x)) ->
  mapM f items = Ok blocks ->
  covers (concat blocks) (flat_map shown items).
Proof.
  intros Hf H. apply covers_concat. apply mapM_Forall2 in H.
  revert H. apply Forall2_weaken. exact Hf.
Qed.

Lemma falsy_entries (v : PyVal) : truthy v = false -> entries v = [].
Proof. destruct v as [| | |[|]|[|]|[|]]; try reflexivity; discriminate. Qed.

Lemma bullet_shows (indent : string) (x : PyVal) :
  occurs (py_str x) (bullet indent x).
Proof. unfold bullet. occurs_here. Qed.

Lemma covers_each (f : PyVal -> string) (v : PyVal) (ls : list string) :
  (forall x, occurs (py_str x) (f x)) -> each f v = Ok ls -> covers ls (entries v).
Proof. intros Hf H. apply each_determined in H. subst. now apply covers_map. Qed.

Lemma covers_labelled (label indent : string) (v : PyVal) (ls : list string) :
  labelled label indent v = Ok ls -> covers ls (entries v).
Proof.
  unfold labelled. destruct (truthy v) eqn:E; intros H.
  - inv_bind H. subst. apply covers_skip_line.
    apply (covers_each _ _ _ (bullet_shows indent) Ha).
  - rewrite (falsy_entries _ E). constructor.
Qed.

(** The names and the entries of a mapping of lists. *)
Definition shown_groups (v : PyVal) : list PyVal :=
  flat_map (fun kv => VStr (fst kv) :: entries (snd kv)) (dict_items v).

Lemma covers_group (kv : string * PyVal) (ls : list string) :
  group kv = Ok ls -> covers ls (VStr (fst kv) :: entries (snd kv)).
Proof.
  unfold group. intros H. inv_bind H. subst.
  apply covers_line; [cbn [py_str]; occurs_here|].
  apply covers_skip_line. apply (covers_each _ _ _ (bullet_shows _) Ha).
Qed.

Lemma covers_groups (v : PyVal) (ls : list string) :
  groups v = Ok ls -> covers ls (shown_groups v).
Proof.
  unfold groups, shown_groups. intros H. inv_bind H. subst.
  apply py_items_inv in Ha. destruct Ha as [_ ->].
  apply (covers_mapM _ _ _ _ covers_group Ha0).
Qed.

Lemma covers_keep (l r : list string) (vs : list PyVal) :
  covers l vs -> covers (l ++ r)%list vs.
Proof. apply covers_mono. intros; apply in_or_app; now left. Qed.

(** A loop of the renderer covers the entries it walks. *)
Ltac covers_loop :=
  match goal with
  | H : each _ ?v = Ok ?a |- covers ?a (entries ?v) =>
      eapply covers_each; [|exact H]; intros; unfold bullet; occurs_here
  | H : labelled _ _ ?v = Ok ?a |- covers ?a (entries ?v) =>
      exact (covers_labelled _ _ _ _ H)
  | H : groups ?v = Ok ?a |- covers ?a (shown_groups ?v) =>
      exact (covers_groups _ _ H)
  | H : steps_lines ?v = Ok ?a |- covers ?a (shown_groups ?v) =>
      exact (covers_groups _ _ H)
  end.

(** Walk the lines and the values side by side. *)
Ltac cover :=
  cbn [app];
  repeat match goal with
         | |- covers _ [] => apply covers_nil
         | |- covers (_ :: _) (_ :: _) =>
             first [ apply covers_line; [cbn [py_str]; occurs_here|]
                   | apply covers_skip_line ]
         | |- covers (_ :: _) _ => apply covers_skip_line
         | |- covers (_ ++ _)%list (_ ++ _)%list =>
             apply covers_app; [solve [covers_loop]|]
         | |- covers (_ ++ _)%list _ =>
             first [ apply covers_keep; solve [covers_loop] | apply covers_skip ]
         | |- covers _ _ => solve [covers_loop]
         end.

(** The values of the model that the report has to show, section by
    section and in the order of the report.  Left out are the three
    header lines besides the border, the constraints of a structure
    field, the examples and complexity of a structure and of an
    algorithm: [format_text] never reads them. *)
Module Shown.
Local Open Scope list_scope.

Definition metadata (m : PyVal) : list PyVal :=
  [field m "name" VNone; field m "version" VNone; field m "description" VNone].

Definition header_format (h : HeaderFormat.t) : list PyVal :=
  [HeaderFormat.border_line h] ++ entries (HeaderFormat.assembly_lines h)
  ++ entries (HeaderFormat.directives h).

Definition register (r : RegisterInfo.t) : list PyVal :=
  [RegisterInfo.name r; RegisterInfo.purpose r]
  ++ entries (RegisterInfo.byte_regs r) ++ entries (RegisterInfo.constraints r).

Definition register_usage (u : RegisterUsage.t) : list PyVal :=
  flat_map register (RegisterUsage.general_purpose u).

Definition struct_field (f : Field.t) : list PyVal :=
  [Field.name f; Field.type f; Field.description f].

Definition structure (kv : string * DataStructure.t) : list PyVal :=
  [VStr (fst kv); DataStructure.documentation (snd kv)]
  ++ flat_map struct_field (DataStructure.fields (snd kv))
  ++ entries (DataStructure.constraints (snd kv)).

Definition algorithm (kv : string * Algorithm.t) : list PyVal :=
  let algo := snd kv in
  let req := Algorithm.implementation_requirements algo in
  let pad := ImplementationRequirements.padding_rules req in
  [VStr (fst kv); Algorithm.description algo]
  ++ entries (ImplementationRequirements.memory_operations req)
  ++ entries (ImplementationRequirements.encoding_requirements req)
  ++ entries (ImplementationRequirements.leftover_handling req)
  ++ entries (PaddingRules.one_byte pad) ++ entries (PaddingRules.two_bytes pad)
  ++ shown_groups (Algorithm.steps algo)
  ++ entries (Algorithm.edge_cases algo) ++ entries (Algorithm.preconditions algo)
  ++ entries (Algorithm.postconditions algo) ++ entries (Algorithm.invariants algo).

Definition strategies (v : PyVal) : list PyVal :=
  match v with
  | VDict _ => shown_groups v
  | VList l => l
  | _ => []
  end.

Definition error_type (e : ErrorType.t) : list PyVal :=
  [ErrorType.name e; ErrorType.description e] ++ entries (ErrorType.handling e).

Definition error_handling (e : ErrorHandling.t) : list PyVal :=
  strategies (ErrorHandling.strategies e)
  ++ flat_map error_type (ErrorHandling.error_types e)
  ++ entries (ErrorHandling.syscall_requirements e).

Definition bss_variable (b : BssVariable.t) : list PyVal :=
  [BssVariable.name b; BssVariable.size b; BssVariable.align b;
   BssVariable.purpose b].

Definition section_requirements (s : SectionRequirements.t) : list PyVal :=
  entries (SectionRequirements.data s)
  ++ flat_map bss_variable (SectionRequirements.bss s)
  ++ shown_groups (SectionRequirements.text s).

Definition benchmark (b : Benchmark.t) : list PyVal :=
  [Benchmark.name b; Benchmark.input_size b]
  ++ (if truthy (Benchmark.expected_time b) then [Benchmark.expected_time b] else [])
  ++ entries (Benchmark.requirements b).

Definition performance (p : Performance.t) : list PyVal :=
  [Performance.time_complexity p; Performance.space_complexity p]
  ++ entries (Performance.constraints p) ++ entries (Performance.register_usage p)
  ++ entries (Performance.memory_access p)
  ++ flat_map benchmark (Performance.benchmarks p).

Definition unit_test (t : TestCase.t) : list PyVal :=
  [TestCase.name t; TestCase.input t; TestCase.expected_output t]
  ++ entries (TestCase.validation t).

Definition integration_item (kv : string * PyVal) : list PyVal :=
  if String.eqb (fst kv) "name" then []
  else VStr (fst kv) :: match snd kv with VList l => l | value => [value] end.

Definition integration_test (t : PyVal) : list PyVal :=
  field t "name" VNone :: flat_map integration_item (dict_items t).

Definition vector (v : PyVal) : list PyVal :=
  [field v "input" VNone; field v "output" VNone].

Definition conformance_test (t : PyVal) : list PyVal :=
  field t "standard" VNone
  :: (if has_key "test_vectors" t
      then flat_map vector (entries (field t "test_vectors" VNone))
      else []).

Definition testing (t : Testing.t) : list PyVal :=
  flat_map unit_test (Testing.unit_tests t)
  ++ flat_map integration_test (Testing.integration_tests t)
  ++ flat_map conformance_test (Testing.conformance_tests t).

Definition code_style (c : CodeStyle.t) : list PyVal :=
  entries (CodeStyle.indentation c) ++ entries (CodeStyle.comments c)
  ++ entries (CodeStyle.naming c) ++ entries (CodeStyle.organization c).

Definition specification (spec : Specification.t) : list PyVal :=
  metadata (Specification.metadata spec)
  ++ header_format (Specification.header_format spec)
  ++ register_usage (Specification.register_usage spec)
  ++ flat_map structure (Specification.structures spec)
  ++ flat_map algorithm (Specification.algorithms spec)
  ++ error_handling (Specification.error_handling spec)
  ++ section_requirements (Specification.section_requirements spec)
  ++ performance (Specification.performance spec)
  ++ testing (Specification.testing spec)
  ++ code_style (Specification.code_style spec).

End Shown.

Lemma py_getitem_value (v : PyVal) (k : string) (x : PyVal) :
  py_getitem v k = Ok x -> x = field v k VNone.
Proof.
  intros H. destruct (py_getitem_dict _ _ _ H) as (d & -> & E).
  simpl. now rewrite E.
Qed.

Lemma covers_metadata (m : PyVal) (ls : list string) :
  metadata_lines m = Ok ls -> covers ls (Shown.metadata m).
Proof.
  unfold metadata_lines, Shown.metadata. intros H. inv_bind H. subst.
  apply py_getitem_value in Ha, Ha0, Ha1. subst. cover.
Qed.

Lemma covers_header (h : HeaderFormat.t) (ls : list string) :
  header_lines h = Ok ls -> covers ls (Shown.header_format h).
Proof.
  unfold header_lines, Shown.header_format. intros H. inv_bind H. subst. cover.
Qed.

Ltac covers_loop ::=
  match goal with
  | H : covers ?a ?vs |- covers ?a ?vs => exact H
  | H : each _ ?v = Ok ?a |- covers ?a (entries ?v) =>
      eapply covers_each; [|exact H]; intros; unfold bullet; occurs_here
  | H : labelled _ _ ?v = Ok ?a |- covers ?a (entries ?v) =>
      exact (covers_labelled _ _ _ _ H)
  | H : groups ?v = Ok ?a |- covers ?a (shown_groups ?v) =>
      exact (covers_groups _ _ H)
  | H : steps_lines ?v = Ok ?a |- covers ?a (shown_groups ?v) =>
      exact (covers_groups _ _ H)
  end.

Lemma strs_from_inv (l : list PyVal) (ss : list string) :
  forall i, strs_from i l = Ok ss -> l = map VStr ss.
Proof.
  revert ss. induction l as [|x l IH]; simpl; intros ss i H.
  - now injection H as <-.
  - inv_bind H. subst ss. destruct x; try discriminate.
    injection Ha as <-. simpl. f_equal. eauto.
Qed.

Lemma py_join_shows (sep : string) (v : PyVal) (j : string) :
  py_join sep v = Ok j ->
  Forall (fun x => occurs (py_str x) j) (entries v).
Proof.
  unfold py_join, entries. destruct (py_iter v) as [l|]; [|discriminate].
  intros H. inv_bind H. subst j. apply strs_from_inv in Ha. subst l.
  apply Forall_forall. intros x Hx. apply in_map_iff in Hx.
  destruct Hx as (s & <- & Hs). now apply occurs_join.
Qed.

Lemma covers_register (r : RegisterInfo.t) (ls : list string) :
  register_lines r = Ok ls -> covers ls (Shown.register r).
Proof.
  unfold register_lines, Shown.register. intros H. inv_bind H. subst.
  assert (covers a (entries (RegisterInfo.byte_regs r))).
  { destruct (truthy _) eqn:E.
    - inv_bind Ha. subst a. apply py_join_shows in Ha1.
      apply Forall_forall. intros x Hx. rewrite Forall_forall in Ha1.
      eexists. split; [now left|].
      apply (occurs_prefixed "Byte Registers: "). auto.
    - rewrite (falsy_entries _ E). constructor. }
  cover.
Qed.

Lemma covers_register_usage (u : RegisterUsage.t) (ls : list string) :
  register_usage_lines u = Ok ls -> covers ls (Shown.register_usage u).
Proof.
  unfold register_usage_lines, Shown.register_usage. intros H. inv_bind H. subst.
  apply covers_skip_line. apply (covers_mapM _ _ _ _ covers_register Ha).
Qed.

Lemma covers_fields (fields : list Field.t) :
  covers (map field_line fields) (flat_map Shown.struct_field fields).
Proof.
  induction fields as [|f fields IH]; simpl; [constructor|].
  unfold field_line at 1.
  repeat (apply covers_line; [occurs_here|]).
  now apply covers_skip_line.
Qed.

Lemma covers_structure (kv : string * DataStructure.t) (ls : list string) :
  structure_lines kv = Ok ls -> covers ls (Shown.structure kv).
Proof.
  unfold structure_lines, Shown.structure. intros H. inv_bind H. subst.
  pose proof (covers_fields (DataStructure.fields (snd kv))). cover.
Qed.

Lemma covers_structures (ss : list (string * DataStructure.t)) (ls : list string) :
  structures_lines ss = Ok ls -> covers ls (flat_map Shown.structure ss).
Proof.
  unfold structures_lines. intros H. inv_bind H. subst.
  apply covers_skip_line. apply (covers_mapM _ _ _ _ covers_structure Ha).
Qed.

Lemma covers_algorithm (kv : string * Algorithm.t) (ls : list string) :
  algorithm_lines kv = Ok ls -> covers ls (Shown.algorithm kv).
Proof.
  unfold algorithm_lines, Shown.algorithm. intros H. inv_bind H. subst. cover.
Qed.

Lemma covers_algorithms (als : list (string * Algorithm.t)) (ls : list string) :
  algorithms_lines als = Ok ls -> covers ls (flat_map Shown.algorithm als).
Proof.
  unfold algorithms_lines. intros H. inv_bind H. subst.
  apply covers_skip_line. apply (covers_mapM _ _ _ _ covers_algorithm Ha).
Qed.

Lemma covers_strategies (v : PyVal) (ls : list string) :
  strategies_lines v = Ok ls -> covers ls (Shown.strategies v).
Proof.
  unfold strategies_lines, Shown.strategies. destruct v; intros H;
    try (injection H as <-; constructor).
  - apply each_determined in H. subst. apply covers_map.
    intros; unfold bullet; occurs_here.
  - now apply covers_groups.
Qed.

Lemma covers_error_type (e : ErrorType.t) (ls : list string) :
  error_type_lines e = Ok ls -> covers ls (Shown.error_type e).
Proof.
  unfold error_type_lines, Shown.error_type. intros H. inv_bind H. subst. cover.
Qed.

Lemma covers_error_handling (e : ErrorHandling.t) (ls : list string) :
  error_handling_lines e = Ok ls -> covers ls (Shown.error_handling e).
Proof.
  unfold error_handling_lines, Shown.error_handling. intros H. inv_bind H. subst.
  apply covers_strategies in Ha.
  apply (covers_mapM _ _ _ _ covers_error_type) in Ha0. cover.
Qed.

Lemma covers_bss (bss : list BssVariable.t) :
  covers (concat (map bss_lines bss)) (flat_map Shown.bss_variable bss).
Proof.
  induction bss as [|b bss IH]; simpl; [constructor|].
  apply (covers_app (bss_lines b) _ (Shown.bss_variable b)); [|exact IH].
  unfold bss_lines, Shown.bss_variable. cover.
Qed.

Lemma covers_section_requirements (s : SectionRequirements.t) (ls : list string) :
  section_requirements_lines s = Ok ls -> covers ls (Shown.section_requirements s).
Proof.
  unfold section_requirements_lines, Shown.section_requirements.
  intros H. inv_bind H. subst.
  pose proof (covers_bss (SectionRequirements.bss s)). cover.
Qed.

Lemma covers_benchmark (b : Benchmark.t) (ls : list string) :
  benchmark_lines b = Ok ls -> covers ls (Shown.benchmark b).
Proof.
  unfold benchmark_lines, Shown.benchmark. intros H. inv_bind H. subst.
  destruct (truthy _); cover.
Qed.

Lemma covers_performance (p : Performance.t) (ls : list string) :
  performance_lines p = Ok ls -> covers ls (Shown.performance p).
Proof.
  unfold performance_lines, Shown.performance. intros H. inv_bind H. subst.
  apply (covers_mapM _ _ _ _ covers_benchmark) in Ha2. cover.
Qed.

Lemma covers_unit_test (t : TestCase.t) (ls : list string) :
  unit_test_lines t = Ok ls -> covers ls (Shown.unit_test t).
Proof.
  unfold unit_test_lines, Shown.unit_test. intros H. inv_bind H. subst. cover.
Qed.

Lemma covers_integration_items (items : dict) :
  covers (concat (map integration_item items))
         (flat_map Shown.integration_item items).
Proof.
  induction items as [|[k v] items IH]; simpl; [constructor|].
  apply (covers_app (integration_item (k, v)) _ (Shown.integration_item (k, v)));
    [|exact IH].
  unfold integration_item, Shown.integration_item. cbn [fst snd].
  destruct (String.eqb k "name"); [constructor|].
  destruct v; cbn [py_str];
    try (apply covers_line; [cbn [py_str]; occurs_here|];
         apply covers_line; [cbn [py_str]; occurs_here|]; constructor).
  apply covers_line; [cbn [py_str]; occurs_here|].
  apply covers_skip_line, covers_map. intros; unfold bullet; occurs_here.
Qed.

Lemma covers_integration_test (t : PyVal) (ls : list string) :
  integration_test_lines t = Ok ls -> covers ls (Shown.integration_test t).
Proof.
  unfold integration_test_lines, Shown.integration_test. intros H. inv_bind H. subst.
  apply py_getitem_value in Ha. apply py_items_inv in Ha0.
  destruct Ha0 as [_ ->]. subst.
  apply covers_line; [occurs_here|].
  apply covers_skip_line, covers_integration_items.
Qed.

Lemma covers_vector (v : PyVal) (ls : list string) :
  vector_lines v = Ok ls -> covers ls (Shown.vector v).
Proof.
  unfold vector_lines, Shown.vector. intros H. inv_bind H. subst.
  apply py_getitem_value in Ha, Ha0. subst. cover.
Qed.

Lemma covers_conformance_test (t : PyVal) (ls : list string) :
  conformance_test_lines t = Ok ls -> covers ls (Shown.conformance_test t).
Proof.
  unfold conformance_test_lines, Shown.conformance_test. intros H. inv_bind H. subst.
  pose proof (has_key_is_dict _ _ (py_getitem_inv _ _ _ Ha)) as Hd.
  apply py_getitem_value in Ha. subst.
  rewrite (py_contains_dict _ _ Hd) in Ha0. injection Ha0 as <-.
  apply covers_line; [occurs_here|]. apply covers_skip_line.
  destruct (has_key "test_vectors" t); [|constructor].
  inv_bind Ha1. subst. apply py_getitem_value in Ha. subst.
  apply py_iter_inv in Ha0. destruct Ha0 as [_ ->].
  apply covers_skip_line. apply (covers_mapM _ _ _ _ covers_vector Ha2).
Qed.

Lemma covers_testing (t : Testing.t) (ls : list string) :
  testing_lines t = Ok ls -> covers ls (Shown.testing t).
Proof.
  unfold testing_lines, Shown.testing. intros H. inv_bind H. subst.
  apply (covers_mapM _ _ _ _ covers_unit_test) in Ha.
  apply (covers_mapM _ _ _ _ covers_integration_test) in Ha0.
  apply (covers_mapM _ _ _ _ covers_conformance_test) in Ha1.
  cover.
Qed.

Lemma covers_code_style (c : CodeStyle.t) (ls : list string) :
  code_style_lines c = Ok ls -> covers ls (Shown.code_style c).
Proof.
  unfold code_style_lines, Shown.code_style. intros H. inv_bind H. subst. cover.
Qed.

Lemma covers_format_lines (spec : Specification.t) (lines : list string) :
  format_lines spec = Ok lines -> covers lines (Shown.specification spec).
Proof.
  unfold format_lines, Shown.specification. intros H. inv_bind H. subst.
  apply covers_metadata in Ha. apply covers_header in Ha0.
  apply covers_register_usage in Ha1. apply covers_structures in Ha2.
  apply covers_algorithms in Ha3. apply covers_error_handling in Ha4.
  apply covers_section_requirements in Ha5. apply covers_performance in Ha6.
  apply covers_testing in Ha7. apply covers_code_style in Ha8.
  repeat (apply covers_app; [assumption|]). assumption.
Qed.

Lemma occurs_in_join (sep s line : string) (lines : list string) :
  In line lines -> occurs s line -> occurs s (join sep lines).
Proof.
  intros Hin (a & b & ->).
  destruct (occurs_join sep _ _ Hin) as (a' & b' & ->).
  exists (a' ++ a), (b ++ b'). now rewrite !append_assoc.
Qed.

(** ** Reports whose lines are the lines of the text

    When the text of every value that the renderer reads is free of line
    feeds, so is every entry of the list of lines. *)

Definition plain (v : PyVal) : Prop := single_line (py_str v) = true.

Definition plain_lines (ls : list string) : Prop :=
  Forall (fun l => single_line l = true) ls.

Lemma str_mem_app (c : ascii) (a b : string) :
  str_mem c (a ++ b) = str_mem c a || str_mem c b.
Proof.
  induction a as [|d a IH]; cbn [append str_mem]; [reflexivity|].
  now rewrite IH, orb_assoc.
Qed.

Lemma single_line_app (a b : string) :
  single_line (a ++ b) = single_line a && single_line b.
Proof. unfold single_line. now rewrite str_mem_app, negb_orb. Qed.

Lemma plain_lines_cons (l : string) (ls : list string) :
  single_line l = true -> plain_lines ls -> plain_lines (l :: ls).
Proof. intros; now constructor. Qed.

Lemma plain_lines_app (l r : list string) :
  plain_lines l -> plain_lines r -> plain_lines (l ++ r)%list.
Proof. intros; now apply Forall_app. Qed.

Lemma plain_lines_concat (ll : list (list string)) :
  Forall plain_lines ll -> plain_lines (concat ll).
Proof. induction 1; simpl; [constructor | now apply plain_lines_app]. Qed.

Lemma single_line_String (c : ascii) (s : string) :
  single_line (String c s) = negb (Ascii.eqb line_feed c) && single_line s.
Proof. unfold single_line. cbn [str_mem]. now rewrite negb_orb. Qed.

(** A line made of literal pieces and of the texts of plain values. *)
Ltac plain_text :=
  unfold bullet;
  repeat match goal with
         | H : plain _ |- _ => unfold plain in H; cbn [py_str] in H
         end;
  cbn [py_str];
  repeat first [rewrite single_line_String | rewrite single_line_app];
  repeat match goal with
         | H : single_line ?s = true |- context [single_line ?s] => rewrite H
         end;
  reflexivity.

Ltac plain_hyps :=
  repeat match goal with
         | H : Forall _ (_ ++ _)%list |- _ =>
             apply Forall_app in H; destruct H
         | H : Forall _ (_ :: _) |- _ =>
             apply Forall_cons_iff in H; destruct H
         | H : Forall _ [] |- _ => clear H
         end.

Lemma plain_lines_map (f : PyVal -> string) (l : list PyVal) :
  (forall x, plain x -> single_line (f x) = true) ->
  Forall plain l -> plain_lines (map f l).
Proof.
  intros Hf H. apply Forall_map. revert H. apply Forall_impl. exact Hf.
Qed.

Lemma plain_each (f : PyVal -> string) (v : PyVal) (ls : list string) :
  (forall x, plain x -> single_line (f x) = true) ->
  each f v = Ok ls -> Forall plain (entries v) -> plain_lines ls.
Proof.
  intros Hf H Hv. apply each_determined in H. subst. now apply plain_lines_map.
Qed.

Lemma plain_bullet (indent : string) (x : PyVal) :
  single_line indent = true -> plain x -> single_line (bullet indent x) = true.
Proof. intros Hi Hx. plain_text. Qed.

Lemma plain_labelled (label indent : string) (v : PyVal) (ls : list string) :
  single_line label = true -> single_line indent = true ->
  labelled label indent v = Ok ls -> Forall plain (entries v) -> plain_lines ls.
Proof.
  unfold labelled. intros Hl Hi H Hv. destruct (truthy v).
  - inv_bind H. subst. apply plain_lines_cons; [exact Hl|].
    apply (plain_each _ _ _ (fun x => plain_bullet indent x Hi) Ha Hv).
  - injection H as <-. constructor.
Qed.

Lemma plain_mapM {A : Type} (f : A -> result (list string)) (shown : A -> list PyVal)
      (items : list A) (blocks : list (list string)) :
  (forall x b, f x = Ok b -> Forall plain (shown x) -> plain_lines b) ->
  mapM f items = Ok blocks ->
  Forall plain (flat_map shown items) -> plain_lines (concat blocks).
Proof.
  intros Hf H. apply mapM_Forall2 in H.
  induction H as [|x b items blocks Hx _ IH]; cbn [flat_map concat]; intros Hv.
  - constructor.
  - apply Forall_app in Hv. destruct Hv as [Hv1 Hv2].
    apply plain_lines_app; eauto.
Qed.

Lemma plain_group (kv : string * PyVal) (ls : list string) :
  group kv = Ok ls -> Forall plain (VStr (fst kv) :: entries (snd kv)) ->
  plain_lines ls.
Proof.
  unfold group. intros H Hv. inv_bind H. subst. plain_hyps.
  apply plain_lines_cons; [plain_text|].
  apply (plain_each _ _ _ (fun x => plain_bullet "    " x eq_refl) Ha); assumption.
Qed.

Lemma plain_groups (v : PyVal) (ls : list string) :
  groups v = Ok ls -> Forall plain (shown_groups v) -> plain_lines ls.
Proof.
  unfold groups, shown_groups. intros H. inv_bind H. subst.
  apply py_items_inv in Ha. destruct Ha as [_ ->].
  exact (plain_mapM _ _ _ _ plain_group Ha0).
Qed.

(** Split a list of lines into its literal lines and its loops. *)
Ltac plain_parts :=
  repeat match goal with
         | |- plain_lines (_ ++ _)%list => apply plain_lines_app
         | |- plain_lines (_ :: _) => apply plain_lines_cons; [plain_text|]
         | |- plain_lines [] => constructor
         | H : plain_lines ?a |- plain_lines ?a => exact H
         | H : each _ ?v = Ok ?a, Hv : Forall plain (entries ?v) |- plain_lines ?a =>
             refine (plain_each _ _ _ _ H Hv); intros; plain_text
         | H : labelled _ _ ?v = Ok ?a, Hv : Forall plain (entries ?v)
           |- plain_lines ?a =>
             refine (plain_labelled _ _ _ _ _ _ H Hv); reflexivity
         | H : groups ?v = Ok ?a, Hv : Forall plain (shown_groups ?v)
           |- plain_lines ?a =>
             exact (plain_groups _ _ H Hv)
         | H : steps_lines ?v = Ok ?a, Hv : Forall plain (shown_groups ?v)
           |- plain_lines ?a =>
             exact (plain_groups _ _ H Hv)
         end.

Lemma plain_metadata (m : PyVal) (ls : list string) :
  metadata_lines m = Ok ls -> Forall plain (Shown.metadata m) -> plain_lines ls.
Proof.
  unfold metadata_lines, Shown.metadata. intros H Hv. inv_bind H. subst.
  apply py_getitem_value in Ha, Ha0, Ha1. subst. plain_hyps. plain_parts.
Qed.

Lemma plain_header (h : HeaderFormat.t) (ls : list string) :
  header_lines h = Ok ls -> Forall plain (Shown.header_format h) -> plain_lines ls.
Proof.
  unfold header_lines, Shown.header_format. intros H Hv. inv_bind H. subst.
  plain_hyps. plain_parts.
Qed.

Lemma plain_join (ss : list string) :
  Forall (fun s => single_line s = true) ss -> single_line (join ", " ss) = true.
Proof.
  induction 1 as [|s ss Hs _ IH]; [reflexivity|].
  destruct ss as [|t ss]; [exact Hs|].
  change (join ", " (s :: t :: ss)) with (s ++ ", " ++ join ", " (t :: ss)).
  now rewrite !single_line_app, Hs, IH.
Qed.

Lemma plain_py_join (v : PyVal) (j : string) :
  py_join ", " v = Ok j -> Forall plain (entries v) -> single_line j = true.
Proof.
  unfold py_join, entries. destruct (py_iter v) as [l|]; [|discriminate].
  intros H Hv. inv_bind H. subst j. apply strs_from_inv in Ha. subst l.
  apply plain_join. rewrite Forall_map in Hv. exact Hv.
Qed.

Lemma plain_register (r : RegisterInfo.t) (ls : list string) :
  register_lines r = Ok ls -> Forall plain (Shown.register r) -> plain_lines ls.
Proof.
  unfold register_lines, Shown.register. intros H Hv. inv_bind H. subst.
  plain_hyps.
  assert (plain_lines a).
  { destruct (truthy _).
    - inv_bind Ha. subst a.
      pose proof (plain_py_join _ _ Ha1 ltac:(assumption)). plain_parts.
    - injection Ha as <-. constructor. }
  plain_parts.
Qed.

Lemma plain_register_usage (u : RegisterUsage.t) (ls : list string) :
  register_usage_lines u = Ok ls -> Forall plain (Shown.register_usage u) ->
  plain_lines ls.
Proof.
  unfold register_usage_lines, Shown.register_usage. intros H Hv. inv_bind H. subst.
  apply plain_lines_cons; [reflexivity|].
  exact (plain_mapM _ _ _ _ plain_register Ha Hv).
Qed.

Lemma plain_fields (fields : list Field.t) :
  Forall plain (flat_map Shown.struct_field fields) ->
  plain_lines (map field_line fields).
Proof.
  induction fields as [|f fields IH]; cbn [flat_map map]; intros Hv;
    [constructor|].
  unfold Shown.struct_field at 1 in Hv. plain_hyps.
  apply plain_lines_cons; [unfold field_line; plain_text | auto].
Qed.

Lemma plain_structure (kv : string * DataStructure.t) (ls : list string) :
  structure_lines kv = Ok ls -> Forall plain (Shown.structure kv) -> plain_lines ls.
Proof.
  unfold structure_lines, Shown.structure. intros H Hv. inv_bind H. subst.
  plain_hyps.
  pose proof (plain_fields (DataStructure.fields (snd kv)) ltac:(assumption)).
  plain_parts.
Qed.

Lemma plain_structures (ss : list (string * DataStructure.t)) (ls : list string) :
  structures_lines ss = Ok ls -> Forall plain (flat_map Shown.structure ss) ->
  plain_lines ls.
Proof.
  unfold structures_lines. intros H Hv. inv_bind H. subst.
  apply plain_lines_cons; [reflexivity|].
  exact (plain_mapM _ _ _ _ plain_structure Ha Hv).
Qed.

Lemma plain_algorithm (kv : string * Algorithm.t) (ls : list string) :
  algorithm_lines kv = Ok ls -> Forall plain (Shown.algorithm kv) -> plain_lines ls.
Proof.
  unfold algorithm_lines, Shown.algorithm. intros H Hv. inv_bind H. subst.
  cbv zeta in Hv. plain_hyps. plain_parts.
Qed.

Lemma plain_algorithms (als : list (string * Algorithm.t)) (ls : list string) :
  algorithms_lines als = Ok ls -> Forall plain (flat_map Shown.algorithm als) ->
  plain_lines ls.
Proof.
  unfold algorithms_lines. intros H Hv. inv_bind H. subst.
  apply plain_lines_cons; [reflexivity|].
  exact (plain_mapM _ _ _ _ plain_algorithm Ha Hv).
Qed.

Lemma plain_strategies (v : PyVal) (ls : list string) :
  strategies_lines v = Ok ls -> Forall plain (Shown.strategies v) -> plain_lines ls.
Proof.
  unfold strategies_lines, Shown.strategies. destruct v; intros H Hv;
    try (injection H as <-; constructor).
  - apply each_determined in H. subst.
    apply plain_lines_map; [|exact Hv]. intros x Hx. plain_text.
  - now apply (plain_groups _ _ H).
Qed.

Lemma plain_error_type (e : ErrorType.t) (ls : list string) :
  error_type_lines e = Ok ls -> Forall plain (Shown.error_type e) -> plain_lines ls.
Proof.
  unfold error_type_lines, Shown.error_type. intros H Hv. inv_bind H. subst.
  plain_hyps. plain_parts.
Qed.

Lemma plain_error_handling (e : ErrorHandling.t) (ls : list string) :
  error_handling_lines e = Ok ls -> Forall plain (Shown.error_handling e) ->
  plain_lines ls.
Proof.
  unfold error_handling_lines, Shown.error_handling. intros H Hv. inv_bind H. subst.
  plain_hyps.
  pose proof (plain_strategies _ _ Ha ltac:(assumption)).
  pose proof (plain_mapM _ _ _ _ plain_error_type Ha0 ltac:(assumption)).
  plain_parts.
Qed.

Lemma plain_bss (bss : list BssVariable.t) :
  Forall plain (flat_map Shown.bss_variable bss) ->
  plain_lines (concat (map bss_lines bss)).
Proof.
  induction bss as [|b bss IH]; cbn [flat_map map concat]; intros Hv;
    [constructor|].
  unfold Shown.bss_variable at 1 in Hv. plain_hyps.
  apply plain_lines_app; [unfold bss_lines; plain_parts | auto].
Qed.

Lemma plain_section_requirements (s : SectionRequirements.t) (ls : list string) :
  section_requirements_lines s = Ok ls ->
  Forall plain (Shown.section_requirements s) -> plain_lines ls.
Proof.
  unfold section_requirements_lines, Shown.section_requirements.
  intros H Hv. inv_bind H. subst. plain_hyps.
  pose proof (plain_bss (SectionRequirements.bss s) ltac:(assumption)).
  plain_parts.
Qed.

Lemma plain_benchmark (b : Benchmark.t) (ls : list string) :
  benchmark_lines b = Ok ls -> Forall plain (Shown.benchmark b) -> plain_lines ls.
Proof.
  unfold benchmark_lines, Shown.benchmark. intros H Hv. inv_bind H. subst.
  destruct (truthy _); plain_hyps; plain_parts.
Qed.

Lemma plain_performance (p : Performance.t) (ls : list string) :
  performance_lines p = Ok ls -> Forall plain (Shown.performance p) -> plain_lines ls.
Proof.
  unfold performance_lines, Shown.performance. intros H Hv. inv_bind H. subst.
  plain_hyps.
  pose proof (plain_mapM _ _ _ _ plain_benchmark Ha2 ltac:(assumption)).
  plain_parts.
Qed.

Lemma plain_unit_test (t : TestCase.t) (ls : list string) :
  unit_test_lines t = Ok ls -> Forall plain (Shown.unit_test t) -> plain_lines ls.
Proof.
  unfold unit_test_lines, Shown.unit_test. intros H Hv. inv_bind H. subst.
  plain_hyps. plain_parts.
Qed.

Lemma plain_integration_items (items : dict) :
  Forall plain (flat_map Shown.integration_item items) ->
  plain_lines (concat (map integration_item items)).
Proof.
  induction items as [|[k v] items IH]; cbn [flat_map map concat]; intros Hv;
    [constructor|].
  apply Forall_app in Hv. destruct Hv as [Hv Hr].
  apply plain_lines_app; [|auto].
  unfold integration_item, Shown.integration_item in *. cbn [fst snd] in *.
  destruct (String.eqb k "name"); [constructor|].
  destruct v; plain_hyps; plain_parts.
  apply plain_lines_map; [|assumption]. intros x Hx. plain_text.
Qed.

Lemma plain_integration_test (t : PyVal) (ls : list string) :
  integration_test_lines t = Ok ls -> Forall plain (Shown.integration_test t) ->
  plain_lines ls.
Proof.
  unfold integration_test_lines, Shown.integration_test. intros H Hv.
  inv_bind H. subst.
  apply py_getitem_value in Ha. apply py_items_inv in Ha0.
  destruct Ha0 as [_ ->]. subst. plain_hyps.
  pose proof (plain_integration_items _ ltac:(eassumption)).
  plain_parts.
Qed.

Lemma plain_vector (v : PyVal) (ls : list string) :
  vector_lines v = Ok ls -> Forall plain (Shown.vector v) -> plain_lines ls.
Proof.
  unfold vector_lines, Shown.vector. intros H Hv. inv_bind H. subst.
  apply py_getitem_value in Ha, Ha0. subst. plain_hyps. plain_parts.
Qed.

Lemma plain_conformance_test (t : PyVal) (ls : list string) :
  conformance_test_lines t = Ok ls -> Forall plain (Shown.conformance_test t) ->
  plain_lines ls.
Proof.
  unfold conformance_test_lines, Shown.conformance_test. intros H Hv.
  inv_bind H. subst.
  pose proof (has_key_is_dict _ _ (py_getitem_inv _ _ _ Ha)) as Hd.
  apply py_getitem_value in Ha. subst.
  rewrite (py_contains_dict _ _ Hd) in Ha0. injection Ha0 as <-.
  plain_hyps. apply plain_lines_cons; [plain_text|].
  destruct (has_key "test_vectors" t); [|injection Ha1 as <-; constructor].
  inv_bind Ha1. subst. apply py_getitem_value in Ha. subst.
  apply py_iter_inv in Ha0. destruct Ha0 as [_ ->].
  apply plain_lines_cons; [reflexivity|].
  exact (plain_mapM _ _ _ _ plain_vector Ha2 ltac:(assumption)).
Qed.

Lemma plain_testing (t : Testing.t) (ls : list string) :
  testing_lines t = Ok ls -> Forall plain (Shown.testing t) -> plain_lines ls.
Proof.
  unfold testing_lines, Shown.testing. intros H Hv. inv_bind H. subst.
  plain_hyps.
  pose proof (plain_mapM _ _ _ _ plain_unit_test Ha ltac:(assumption)).
  pose proof (plain_mapM _ _ _ _ plain_integration_test Ha0 ltac:(assumption)).
  pose proof (plain_mapM _ _ _ _ plain_conformance_test Ha1 ltac:(assumption)).
  plain_parts.
Qed.

Lemma plain_code_style (c : CodeStyle.t) (ls : list string) :
  code_style_lines c = Ok ls -> Forall plain (Shown.code_style c) -> plain_lines ls.
Proof.
  unfold code_style_lines, Shown.code_style. intros H Hv. inv_bind H. subst.
  plain_hyps. plain_parts.
Qed.

Lemma plain_format_lines (spec : Specification.t) (lines : list string) :
  format_lines spec = Ok lines -> Forall plain (Shown.specification spec) ->
  plain_lines lines.
Proof.
  unfold format_lines, Shown.specification. intros H Hv. inv_bind H. subst.
  plain_hyps.
  repeat apply plain_lines_app;
    eauto using plain_metadata, plain_header, plain_register_usage,
      plain_structures, plain_algorithms, plain_error_handling,
      plain_section_requirements, plain_performance, plain_testing,
      plain_code_style.
Qed.

(** ** The algorithms in the text of the report *)

(** No value that the renderer reads from the normalized document has
    a line feed in its text. *)
Definition single_line_values (data : PyVal) : bool :=
  forallb (fun v => single_line (py_str v))
          (Shown.specification (Defaulted.specification data)).

Lemma report_lines_plain (data : PyVal) (lines : list string) :
  report_lines data = Ok lines -> single_line_values data = true ->
  forallb single_line lines = true.
Proof.
  unfold report_lines, single_line_values. intros H Hv.
  destruct (_create_specification data) as [spec|e] eqn:Hc; [|discriminate].
  apply create_specification_is_defaulted in Hc. subst spec. cbn [bind] in H.
  apply forallb_forall. apply Forall_forall.
  apply (plain_format_lines _ _ H).
  apply Forall_forall. rewrite forallb_forall in Hv. exact Hv.
Qed.

(** C8: the text of the report of a raw document (whose [algorithms]
    mapping, like every mapping, has distinct keys) has, each as a line
    of its own and one after the other: for every raw algorithm in the
    raw iteration order its label [Algorithm: name], then [Steps:], then
    for every step of its raw mapping, in that order, the name of the
    step and the actions of its list in list order (those that are
    strings, each as it is written).  And when no value that the
    renderer reads holds a line feed, the lines of the text are the
    entries of the list that [format_text] joins, and those that carry
    an algorithm label are exactly the labels of the raw algorithms in
    the raw order. *)
Theorem algorithms_order_preserved (data : PyVal) (fmt report : string) :
  process_spec data fmt = Ok report ->
  NoDup (keys (dict_items (field data "algorithms" empty_dict))) ->
  lines_in_order
    (flat_map algorithm_text (dict_items (field data "algorithms" empty_dict)))
    report /\
  (single_line_values data = true ->
   report_lines data = Ok (text_lines report) /\
   filter algorithm_label (text_lines report)
   = map (fun kv => "Algorithm: " ++ fst kv)
         (dict_items (field data "algorithms" empty_dict))).
Proof.
  intros H Hk.
  destruct (process_spec_lines _ _ _ H) as (lines & Hl & ->).
  destruct (report_lines_algorithms _ _ Hl Hk)
    as (pre & blocks & post & Hs & Hpre & Hpost & Hb & Hf).
  split.
  - rewrite Hs. apply lines_in_order_join; try assumption.
    apply subseq_skip. now apply algorithms_text_blocks.
  - intros Hv.
    assert (Ht : text_lines (join newline lines) = lines).
    { apply text_lines_join; [rewrite Hs; now apply app_not_nil|].
      now apply (report_lines_plain data). }
    rewrite Ht. split; [exact Hl | exact Hf].
Qed.

Lemma algorithms_order_preserved_witness :
  exists report,
    process_spec pipeline_doc "text" = Ok report /\
    lines_in_order
      ["Algorithm: parse"; "Steps:"; "  scan:"; "    - read"; "    - check";
       "  emit:"; "    - write"; "Algorithm: encode"; "Steps:";
       "Algorithm: flush"; "Steps:"]
      report /\
    filter algorithm_label (text_lines report)
    = ["Algorithm: parse"; "Algorithm: encode"; "Algorithm: flush"].
Proof.
  eexists. split; [reflexivity|].
  destruct (algorithms_order_preserved pipeline_doc "text" _ eq_refl
              pipeline_doc_distinct) as [Ho Hb].
  split; [exact Ho|].
  exact (proj2 (Hb eq_refl)).
Defined.

(** ** Fields the report leaves out *)

Lemma prefixb_head (s b : string) : prefixb s (s ++ b) = true.
Proof.
  induction s as [|c s IH]; simpl; [reflexivity|]. now rewrite Ascii.eqb_refl.
Qed.

Lemma substringb_unfold (p s : string) :
  substringb p s
  = prefixb p s || match s with
                   | EmptyString => false
                   | String _ s' => substringb p s'
                   end.
Proof. destruct s; reflexivity. Qed.

Lemma occurs_substringb (s line : string) :
  occurs s line -> substringb s line = true.
Proof.
  intros (a & b & ->). induction a as [|c a IH].
  - cbn [append]. now rewrite substringb_unfold, prefixb_head.
  - cbn [append]. rewrite substringb_unfold, IH. apply orb_true_r.
Qed.

(** The model with the fields that [format_text] never reads put back
    to their defaults. *)
Module Unrendered.

Definition header_format (h : HeaderFormat.t) : HeaderFormat.t :=
  HeaderFormat.mk (HeaderFormat.border_line h) empty_str empty_str empty_str
    (HeaderFormat.assembly_lines h) (HeaderFormat.directives h).

Definition struct_field (f : Field.t) : Field.t :=
  Field.mk (Field.name f) (Field.type f) (Field.description f) empty_list.

Definition structure (s : DataStructure.t) : DataStructure.t :=
  DataStructure.mk (DataStructure.name s)
    (map struct_field (DataStructure.fields s))
    (DataStructure.documentation s) (DataStructure.constraints s)
    empty_list empty_dict.

Definition algorithm (a : Algorithm.t) : Algorithm.t :=
  Algorithm.mk (Algorithm.name a) (Algorithm.description a)
    (Algorithm.implementation_requirements a) (Algorithm.steps a) empty_dict
    (Algorithm.edge_cases a) (Algorithm.preconditions a)
    (Algorithm.postconditions a) (Algorithm.invariants a) empty_list.

Definition erase (spec : Specification.t) : Specification.t :=
  Specification.mk (Specification.metadata spec)
    (header_format (Specification.header_format spec))
    (Specification.register_usage spec)
    (map (fun kv => (fst kv, structure (snd kv))) (Specification.structures spec))
    (map (fun kv => (fst kv, algorithm (snd kv))) (Specification.algorithms spec))
    (Specification.error_handling spec)
    (Specification.section_requirements spec)
    (Specification.performance spec)
    (Specification.testing spec)
    (Specification.code_style spec).

End Unrendered.

Lemma mapM_map_same {A B : Type} (f : A -> result B) (g : A -> A) (l : list A) :
  (forall x, f (g x) = f x) -> mapM f (map g l) = mapM f l.
Proof.
  intros Hf. induction l as [|x l IH]; simpl; [reflexivity|].
  now rewrite Hf, IH.
Qed.

Lemma structure_lines_erased (kv : string * DataStructure.t) :
  structure_lines (fst kv, Unrendered.structure (snd kv)) = structure_lines kv.
Proof.
  destruct kv as [k s]. unfold structure_lines, Unrendered.structure.
  cbn [fst snd DataStructure.constraints DataStructure.documentation
       DataStructure.fields].
  rewrite map_map. reflexivity.
Qed.

Lemma algorithm_lines_erased (kv : string * Algorithm.t) :
  algorithm_lines (fst kv, Unrendered.algorithm (snd kv)) = algorithm_lines kv.
Proof. destruct kv as [k a]. reflexivity. Qed.

Lemma format_lines_erased (spec : Specification.t) :
  format_lines (Unrendered.erase spec) = format_lines spec.
Proof.
  unfold format_lines, Unrendered.erase.
  cbn [Specification.metadata Specification.header_format
       Specification.register_usage Specification.structures
       Specification.algorithms Specification.error_handling
       Specification.section_requirements Specification.performance
       Specification.testing Specification.code_style].
  unfold structures_lines, algorithms_lines.
  rewrite (mapM_map_same structure_lines
             (fun kv => (fst kv, Unrendered.structure (snd kv))))
    by exact structure_lines_erased.
  rewrite (mapM_map_same algorithm_lines
             (fun kv => (fst kv, Unrendered.algorithm (snd kv))))
    by exact algorithm_lines_erased.
  reflexivity.
Qed.

(** X1: [format_text] never reads the file name, description and blank
    comment lines of the header, the constraints of a structure field,
    the examples and complexity of a structure or of an algorithm: the
    result, report or exception, is the same when they are put back to
    their defaults. *)
Theorem format_text_ignores_unrendered (spec : Specification.t) :
  format_text (Unrendered.erase spec) = format_text spec.
Proof. unfold format_text. now rewrite format_lines_erased. Qed.

(** X2: When [format_text] returns a report, the report contains the text
    of every value the renderer reads from the model (the values of
    [Shown.specification], section by section). *)
Theorem report_shows_rendered_fields (spec : Specification.t) (report : string) :
  format_text spec = Ok report ->
  forall v, In v (Shown.specification spec) -> occurs (py_str v) report.
Proof.
  unfold format_text. intros H. inv_bind H. subst report.
  intros v Hv. pose proof (covers_format_lines _ _ Ha) as Hc.
  unfold covers in Hc. rewrite Forall_forall in Hc.
  destruct (Hc v Hv) as (line & Hin & Ho).
  now apply (occurs_in_join _ _ line).
Qed.

(** A document that fills every field the report leaves out. *)
Definition codec_doc : PyVal :=
  VDict [("metadata", VDict [("name", VStr "codec"); ("version", VStr "0.9");
                             ("description", VStr "frame codec")]);
         ("header_format",
          VDict [("border_line", VStr "; ========");
                 ("file_name_line", VStr "; File: codec.asm");
                 ("description_line", VStr "; Purpose: framing");
                 ("blank_comment", VStr ";;;")]);
         ("structures",
          VDict [("Frame",
                  VDict [("fields",
                          VList [VDict [("name", VStr "len"); ("type", VStr "u16");
                                        ("constraints", VList [VStr "nonzero-length"])]]);
                         ("examples", VList [VStr "sample-frame"]);
                         ("complexity", VDict [("lookup", VStr "O(1) access")])])]);
         ("algorithms",
          VDict [("encode",
                  VDict [("complexity", VDict [("time", VStr "O(n) pass")]);
                         ("examples", VList [VDict [("input", VStr "sample-run")]])])])].

Definition codec_spec : Specification.t := Defaulted.specification codec_doc.

Lemma report_shows_rendered_fields_witness :
  exists report,
    format_text codec_spec = Ok report /\
    occurs "; ========" report /\ occurs "u16" report.
Proof.
  eexists. split; [reflexivity|].
  pose proof (report_shows_rendered_fields codec_spec _ eq_refl) as Hs.
  split.
  - apply (Hs (VStr "; ========")). vm_compute. tauto.
  - apply (Hs (VStr "u16")). vm_compute. tauto.
Defined.

(** C4, as stated, fails: the model of [codec_doc] has populated file
    name, description and blank comment lines, a field constraint,
    structure examples and complexity, algorithm complexity and
    examples; none of their texts is in the report. *)
Lemma unrendered_fields_dropped :
  exists report,
    _create_specification codec_doc = Ok codec_spec /\
    format_text codec_spec = Ok report /\
    HeaderFormat.file_name_line (Specification.header_format codec_spec)
    = VStr "; File: codec.asm" /\
    HeaderFormat.description_line (Specification.header_format codec_spec)
    = VStr "; Purpose: framing" /\
    HeaderFormat.blank_comment (Specification.header_format codec_spec)
    = VStr ";;;" /\
    map (fun kv => DataStructure.examples (snd kv)) (Specification.structures codec_spec)
    = [VList [VStr "sample-frame"]] /\
    map (fun kv => DataStructure.complexity (snd kv)) (Specification.structures codec_spec)
    = [VDict [("lookup", VStr "O(1) access")]] /\
    map (fun kv => Algorithm.complexity (snd kv)) (Specification.algorithms codec_spec)
    = [VDict [("time", VStr "O(n) pass")]] /\
    map (fun kv => Algorithm.examples (snd kv)) (Specification.algorithms codec_spec)
    = [VList [VDict [("input", VStr "sample-run")]]] /\
    ~ occurs "; File: codec.asm" report /\
    ~ occurs "; Purpose: framing" report /\
    ~ occurs ";;;" report /\
    ~ occurs "nonzero-length" report /\
    ~ occurs "sample-frame" report /\
    ~ occurs "O(1) access" report /\
    ~ occurs "O(n) pass" report /\
    ~ occurs "sample-run" report.
Proof.
  eexists. split; [reflexivity|]. split; [reflexivity|].
  repeat (split; [reflexivity|]).
  repeat split; intros Ho; apply occurs_substringb in Ho;
    vm_compute in Ho; discriminate.
Qed.

(** C4, amended: the report contains the text of every value that the
    renderer reads from the model (the values of [Shown.specification]:
    metadata, border line, assembly lines and directives, registers,
    structures with their documentation, fields and constraints,
    algorithms with their description, requirements, steps, edge cases
    and conditions, error handling, section requirements, performance,
    tests and code style), and it is the report of every model that
    differs only in the fields the renderer never reads: the file name,
    description and blank comment lines of the header, the constraints
    of a structure field, the examples and complexity of a structure
    and of an algorithm are left out whether populated or not. *)
Theorem rendered_fields_reported (spec : Specification.t) (report : string) :
  format_text spec = Ok report ->
  (forall v, In v (Shown.specification spec) -> occurs (py_str v) report) /\
  (forall spec', Unrendered.erase spec' = Unrendered.erase spec ->
                 format_text spec' = Ok report).
Proof.
  intros H. split.
  - unfold format_text in H. inv_bind H. subst report.
    intros v Hv. pose proof (covers_format_lines _ _ Ha) as Hc.
    unfold covers in Hc. rewrite Forall_forall in Hc.
    destruct (Hc v Hv) as (line & Hin & Ho).
    now apply (occurs_in_join _ _ line).
  - intros spec' He. rewrite <- H. unfold format_text.
    now rewrite <- (format_lines_erased spec'), He, format_lines_erased.
Qed.

Lemma rendered_fields_reported_witness :
  exists report,
    format_text codec_spec = Ok report /\
    occurs "frame codec" report /\
    format_text (Unrendered.erase codec_spec) = Ok report.
Proof.
  eexists. split; [reflexivity|].
  destruct (rendered_fields_reported codec_spec _ eq_refl) as [Hs He].
  split.
  - apply (Hs (VStr "frame codec")). vm_compute. tauto.
  - apply He. reflexivity.
Defined.

(** * Further properties of the normalizer *)

(** ** Strategies and error types *)

(** X6: After normalization the strategies are always a mapping, so the
    renderer takes its mapping branch: the branch for a list of
    strategies is never reached on a normalized model. *)
Theorem strategies_always_mapping (data : PyVal) (eh : ErrorHandling.t) :
  process_error_handling data = Ok eh ->
  is_dict (ErrorHandling.strategies eh) = true /\
  strategies_lines (ErrorHandling.strategies eh)
  = groups (ErrorHandling.strategies eh).
Proof.
  unfold process_error_handling. intros H. inv_bind H. subst eh.
  cbn [ErrorHandling.strategies].
  destruct a3; split; reflexivity.
Qed.

Lemma strategies_always_mapping_witness :
  exists eh,
    process_error_handling strategies_list_doc = Ok eh /\
    is_dict (ErrorHandling.strategies eh) = true.
Proof.
  eexists. split; [reflexivity|].
  exact (proj1 (strategies_always_mapping strategies_list_doc _ eq_refl)).
Defined.

(** Entries of [error_types] the loop keeps: strings and mappings. *)
Definition kept_error_type (v : PyVal) : bool := is_str v || is_dict v.

(** The name the error type of a kept entry gets. *)
Definition error_type_name (v : PyVal) : PyVal :=
  match v with
  | VStr _ => v
  | _ => field v "name" VNone
  end.

Lemma error_type_names (l : list PyVal) :
  map ErrorType.name (flat_map Defaulted.error_type l)
  = map error_type_name (filter kept_error_type l).
Proof.
  induction l as [|x l IH]; [reflexivity|].
  cbn [flat_map filter]. rewrite map_app, IH.
  destruct x; reflexivity.
Qed.

Lemma process_error_handling_defaulted (data : PyVal) (eh : ErrorHandling.t) :
  process_error_handling data = Ok eh ->
  is_dict data = true /\ eh = Defaulted.error_handling data.
Proof.
  intros H. pose proof (error_handling_shape _ _ H) as Hs.
  assert (Hd : is_dict data = true).
  { unfold process_error_handling in H. inv_bind H.
    now apply py_get_inv in Ha. }
  rewrite (error_handling_defaulted _ Hd Hs) in H. injection H as <-. auto.
Qed.

Lemma raw_entries_fields (data : PyVal) (section key : string) :
  is_dict data = true -> is_dict (field data section empty_dict) = true ->
  raw_entries data section key
  = entries (field (field data section empty_dict) key empty_list).
Proof.
  intros Hd Hs. unfold raw_entries.
  rewrite (py_get_field _ _ _ Hd), (py_get_field _ _ _ Hs). reflexivity.
Qed.

(** X7: An [error_types] entry that is neither a string nor a mapping (a
    number, a list, a null) is skipped without an error: the normalized
    error types are those of the string and mapping entries, in order. *)
Theorem error_types_skip_other_entries (data : PyVal) (eh : ErrorHandling.t) :
  process_error_handling data = Ok eh ->
  map ErrorType.name (ErrorHandling.error_types eh)
  = map error_type_name
        (filter kept_error_type (raw_entries data "error_handling" "error_types")) /\
  length (ErrorHandling.error_types eh)
  = length (filter kept_error_type (raw_entries data "error_handling" "error_types")).
Proof.
  intros H. pose proof (error_handling_shape _ _ H) as Hs.
  destruct (process_error_handling_defaulted _ _ H) as [Hd ->].
  unfold Shape.error_handling in Hs. apply andb_prop in Hs. destruct Hs as [Hs _].
  rewrite (raw_entries_fields _ _ _ Hd Hs).
  cbn [Defaulted.error_handling ErrorHandling.error_types].
  assert (E := error_type_names
                 (entries (field (field data "error_handling" empty_dict)
                                 "error_types" empty_list))).
  split; [exact E|].
  apply (f_equal (@length PyVal)) in E. now rewrite !length_map in E.
Qed.

Definition mixed_error_types_doc : PyVal :=
  VDict [("error_handling",
          VDict [("error_types",
                  VList [VStr "overflow"; VInt 7; VDict [("name", VStr "io")];
                         VNone; VList [VStr "nested"]])])].

Lemma error_types_skip_other_entries_witness :
  exists eh,
    process_error_handling mixed_error_types_doc = Ok eh /\
    map ErrorType.name (ErrorHandling.error_types eh) = [VStr "overflow"; VStr "io"].
Proof.
  eexists. split; [reflexivity|].
  exact (proj1 (error_types_skip_other_entries mixed_error_types_doc _ eq_refl)).
Defined.

(** ** Sections are read one by one *)

Lemma py_get_same (d1 d2 : dict) (k : string) (dflt : PyVal) :
  lookup k d1 = lookup k d2 -> py_get (VDict d1) k dflt = py_get (VDict d2) k dflt.
Proof. unfold py_get. now intros ->. Qed.

(** X8: Each [process_*] routine reads its own top-level key and nothing
    else: two documents that agree on that key get the same result,
    model or exception, whatever their other sections are. *)
Theorem sections_normalize_independently (d1 d2 : dict) :
  (lookup "metadata" d1 = lookup "metadata" d2 ->
   process_metadata (VDict d1) = process_metadata (VDict d2)) /\
  (lookup "header_format" d1 = lookup "header_format" d2 ->
   process_header_format (VDict d1) = process_header_format (VDict d2)) /\
  (lookup "register_usage" d1 = lookup "register_usage" d2 ->
   process_register_usage (VDict d1) = process_register_usage (VDict d2)) /\
  (lookup "structures" d1 = lookup "structures" d2 ->
   process_data_structures (VDict d1) = process_data_structures (VDict d2)) /\
  (lookup "algorithms" d1 = lookup "algorithms" d2 ->
   process_algorithms (VDict d1) = process_algorithms (VDict d2)) /\
  (lookup "error_handling" d1 = lookup "error_handling" d2 ->
   process_error_handling (VDict d1) = process_error_handling (VDict d2)) /\
  (lookup "section_requirements" d1 = lookup "section_requirements" d2 ->
   process_section_requirements (VDict d1) = process_section_requirements (VDict d2)) /\
  (lookup "performance" d1 = lookup "performance" d2 ->
   process_performance (VDict d1) = process_performance (VDict d2)) /\
  (lookup "testing" d1 = lookup "testing" d2 ->
   process_testing (VDict d1) = process_testing (VDict d2)) /\
  (lookup "code_style" d1 = lookup "code_style" d2 ->
   process_code_style (VDict d1) = process_code_style (VDict d2)).
Proof.
  unfold process_metadata, process_header_format, process_register_usage,
    process_data_structures, process_algorithms, process_error_handling,
    process_section_requirements, process_performance, process_testing,
    process_code_style.
  repeat split; intros E; now rewrite (py_get_same _ _ _ _ E).
Qed.

Lemma sections_normalize_independently_witness :
  process_code_style memcpy_doc = process_code_style optional_fields_doc /\
  process_testing memcpy_doc = process_testing codec_doc.
Proof.
  split.
  - apply (sections_normalize_independently _ _). reflexivity.
  - apply (sections_normalize_independently _ _). reflexivity.
Defined.

Lemma py_get_empty_section (s : string) (d : dict) (k : string) :
  lookup s d = None ->
  py_get (VDict ((s, VDict []) :: d)) k empty_dict = py_get (VDict d) k empty_dict.
Proof.
  intros H. unfold py_get. cbn [lookup].
  destruct (String.eqb_spec k s) as [->|_]; [|reflexivity].
  now rewrite H.
Qed.

(** X9: A section given as the empty mapping normalizes like an absent
    section: adding [s: {}] to a document that has no key [s] changes
    neither the model nor the exception of [_create_specification]. *)
Theorem empty_section_is_absent_section (s : string) (d : dict) :
  lookup s d = None ->
  _create_specification (VDict ((s, VDict []) :: d))
  = _create_specification (VDict d).
Proof.
  intros H.
  unfold _create_specification, build_specification, process_metadata,
    process_header_format, process_register_usage, process_data_structures,
    process_algorithms, process_error_handling, process_section_requirements,
    process_performance, process_testing, process_code_style.
  now rewrite !(py_get_empty_section s d) by exact H.
Qed.

Lemma empty_section_is_absent_section_witness :
  _create_specification
    (VDict [("performance", VDict []);
            ("metadata", VDict [("name", VStr "m")])])
  = _create_specification (VDict [("metadata", VDict [("name", VStr "m")])]).
Proof. apply empty_section_is_absent_section. reflexivity. Defined.

(** ** Structures and algorithms are stored under their names *)

Lemma dict_set_keys {V : Type} (d : list (string * V)) (k : string) (v : V) :
  keys (dict_set d k v)
  = if existsb (String.eqb k) (keys d) then keys d else (keys d ++ [k])%list.
Proof.
  induction d as [|[k' v'] d IH]; simpl; [reflexivity|].
  destruct (String.eqb_spec k k') as [->|Hne]; simpl; [reflexivity|].
  rewrite IH. destruct (existsb (String.eqb k) (keys d)); reflexivity.
Qed.

Lemma dict_set_NoDup {V : Type} (d : list (string * V)) (k : string) (v : V) :
  NoDup (keys d) -> NoDup (keys (dict_set d k v)).
Proof.
  intros H. rewrite dict_set_keys.
  destruct (existsb (String.eqb k) (keys d)) eqn:E; [assumption|].
  apply NoDup_app; [assumption | repeat constructor; simpl; tauto |].
  intros x Hx [Hk|[]]. subst x.
  assert (existsb (String.eqb k) (keys d) = true); [|congruence].
  apply existsb_exists. exists k. split; [assumption | apply String.eqb_refl].
Qed.

Lemma keyed_NoDup {V : Type} (g : string -> PyVal -> V) (items : dict) :
  NoDup (keys (Defaulted.keyed g items)).
Proof.
  unfold Defaulted.keyed.
  assert (G : forall acc : list (string * V),
            NoDup (keys acc) ->
            NoDup (keys (fold_left
                           (fun acc kv => dict_set acc (fst kv) (g (fst kv) (snd kv)))
                           items acc))).
  { induction items as [|[k x] items IH]; simpl; intros acc H; [assumption|].
    apply IH. now apply dict_set_NoDup. }
  apply G. constructor.
Qed.

Lemma keys_map_keyed {V : Type} (g : string -> PyVal -> V) (items : dict) :
  keys (map (fun kv => (fst kv, g (fst kv) (snd kv))) items) = keys items.
Proof. unfold keys. rewrite map_map. reflexivity. Qed.

(** X10: Every structure of the model is stored under its own name, no name
    is stored twice, and when the raw names are distinct (as the keys
    of a mapping are) the model has them in the raw order. *)
Theorem structures_keyed_by_name (data : PyVal)
        (ss : list (string * DataStructure.t)) :
  process_data_structures data = Ok ss ->
  Forall (fun kv => DataStructure.name (snd kv) = fst kv) ss /\
  NoDup (keys ss) /\
  (NoDup (keys (dict_items (field data "structures" empty_dict))) ->
   keys ss = keys (dict_items (field data "structures" empty_dict))).
Proof.
  intros H. pose proof (structures_shape _ _ H) as Hs.
  assert (Hd : is_dict data = true).
  { unfold process_data_structures in H. inv_bind H. now apply py_get_inv in Ha. }
  rewrite (structures_defaulted _ Hd Hs) in H. injection H as <-.
  unfold Defaulted.structures. split; [|split].
  - apply (keyed_Forall _ _ (fun _ => true)); [reflexivity|].
    apply forallb_forall. reflexivity.
  - apply keyed_NoDup.
  - intros Hk. rewrite (keyed_distinct _ _ Hk). apply keys_map_keyed.
Qed.

Lemma structures_keyed_by_name_witness :
  exists ss,
    process_data_structures codec_doc = Ok ss /\ keys ss = ["Frame"] /\
    Forall (fun kv => DataStructure.name (snd kv) = fst kv) ss.
Proof.
  eexists. split; [reflexivity|].
  pose proof (structures_keyed_by_name codec_doc _ eq_refl) as (Hn & _ & Hk).
  split; [|exact Hn].
  apply Hk. repeat constructor. simpl. tauto.
Defined.

(** X11: Every algorithm of the model is stored under its own name, no name
    is stored twice, and when the raw names are distinct the model has
    them in the raw order. *)
Theorem algorithms_keyed_by_name (data : PyVal)
        (als : list (string * Algorithm.t)) :
  process_algorithms data = Ok als ->
  Forall (fun kv => Algorithm.name (snd kv) = fst kv) als /\
  NoDup (keys als) /\
  (NoDup (keys (dict_items (field data "algorithms" empty_dict))) ->
   keys als = keys (dict_items (field data "algorithms" empty_dict))).
Proof.
  intros H. pose proof (algorithms_shape _ _ H) as Hs.
  assert (Hd : is_dict data = true).
  { unfold process_algorithms in H. inv_bind H. now apply py_get_inv in Ha. }
  rewrite (algorithms_defaulted _ Hd Hs) in H. injection H as <-.
  unfold Defaulted.algorithms. split; [|split].
  - apply (keyed_Forall _ _ (fun _ => true)); [reflexivity|].
    apply forallb_forall. reflexivity.
  - apply keyed_NoDup.
  - intros Hk. rewrite (keyed_distinct _ _ Hk). apply keys_map_keyed.
Qed.

Lemma algorithms_keyed_by_name_witness :
  exists als,
    process_algorithms pipeline_doc = Ok als /\
    keys als = ["parse"; "encode"; "flush"].
Proof.
  eexists. split; [reflexivity|].
  exact (proj2 (proj2 (algorithms_keyed_by_name pipeline_doc _ eq_refl))
               pipeline_doc_distinct).
Defined.

(** * The cache *)

(** [Cache]: the dictionary [_cache] behind its methods.  The lock of
    the class makes each call atomic; the state it protects is the
    dictionary alone. *)
Module Cache.

Definition t : Type := dict.

(** [__init__] *)
Definition init : t := [].

(** [get]: [self._cache.get(key)] *)
Definition get (c : t) (key : string) : PyVal := or_default (lookup key c) VNone.

(** [set]: [self._cache[key] = value] *)
Definition set (c : t) (key : string) (value : PyVal) : t := dict_set c key value.

(** [clear] *)
Definition clear (c : t) : t := [].

End Cache.

Lemma lookup_dict_set_same {V : Type} (d : list (string * V)) (k : string) (v : V) :
  lookup k (dict_set d k v) = Some v.
Proof.
  induction d as [|[k' v'] d IH]; simpl.
  - now rewrite String.eqb_refl.
  - destruct (String.eqb k k') eqn:E; simpl.
    + now rewrite String.eqb_refl.
    + now rewrite E.
Qed.

Lemma lookup_dict_set_other {V : Type} (d : list (string * V)) (k k' : string) (v : V) :
  k' <> k -> lookup k' (dict_set d k v) = lookup k' d.
Proof.
  intros Hne. induction d as [|[k0 v0] d IH]; simpl.
  - destruct (String.eqb_spec k' k); [contradiction | reflexivity].
  - destruct (String.eqb_spec k k0) as [->|Hk]; simpl.
    + destruct (String.eqb_spec k' k0); [contradiction | reflexivity].
    + destruct (String.eqb k' k0); [reflexivity | exact IH].
Qed.

(** X12: A value stored in the cache is the value read back under its key,
    a store leaves every other key as it was and keeps one entry per
    key, a second store under a key replaces the first, and a new or
    cleared cache answers [None] for every key. *)
Theorem cache_store_and_lookup (c : Cache.t) (k : string) (v : PyVal) :
  Cache.get (Cache.set c k v) k = v /\
  (forall k', k' <> k -> Cache.get (Cache.set c k v) k' = Cache.get c k') /\
  (forall v', Cache.get (Cache.set (Cache.set c k v) k v') k = v') /\
  (NoDup (keys c) -> NoDup (keys (Cache.set c k v))) /\
  Cache.get (Cache.clear (Cache.set c k v)) k = VNone /\
  Cache.get Cache.init k = VNone.
Proof.
  unfold Cache.get, Cache.set, Cache.clear, Cache.init.
  split; [now rewrite lookup_dict_set_same|].
  split; [intros k' Hne; now rewrite lookup_dict_set_other|].
  split; [intros v'; now rewrite lookup_dict_set_same|].
  split; [apply dict_set_NoDup|].
  split; reflexivity.
Qed.

Lemma cache_store_and_lookup_witness :
  Cache.get (Cache.set (Cache.set Cache.init "a" (VInt 1)) "b" (VInt 2)) "a" = VInt 1.
Proof.
  rewrite (proj1 (proj2 (cache_store_and_lookup
                           (Cache.set Cache.init "a" (VInt 1)) "b" (VInt 2))) "a")
    by discriminate.
  exact (proj1 (cache_store_and_lookup Cache.init "a" (VInt 1))).
Defined.

(** * Which fields a validation error can name *)

(** The fields that the normalizer reads by subscript. *)
Definition required_item_fields : list string :=
  ["name"; "purpose"; "type"; "size"; "align"; "input_size"].

(** A [KeyError] of [m], if any, is for one of the keys [ks]. *)
Definition raises_only {A : Type} (ks : list string) (m : result A) : Prop :=
  forall k, m = Err (KeyError k) -> In k ks.

Lemma raises_only_Ok {A : Type} (ks : list string) (a : A) : raises_only ks (Ok a).
Proof. intros k H. discriminate. Qed.

Lemma raises_only_bind {A B : Type} (ks : list string) (m : result A)
      (f : A -> result B) :
  raises_only ks m -> (forall a, raises_only ks (f a)) -> raises_only ks (bind m f).
Proof.
  intros Hm Hf k. destruct m as [a|e]; simpl; [exact (Hf a k)|].
  intros H. injection H as ->. now apply Hm.
Qed.

Lemma raises_only_py_get (ks : list string) (v : PyVal) (k : string) (dflt : PyVal) :
  raises_only ks (py_get v k dflt).
Proof. intros k'. unfold py_get, no_attribute. destruct v; discriminate. Qed.

Lemma raises_only_py_iter (ks : list string) (v : PyVal) : raises_only ks (py_iter v).
Proof. intros k'. unfold py_iter. destruct v; discriminate. Qed.

Lemma raises_only_py_items (ks : list string) (v : PyVal) : raises_only ks (py_items v).
Proof. intros k'. unfold py_items, no_attribute. destruct v; discriminate. Qed.

Lemma raises_only_py_getitem (ks : list string) (v : PyVal) (k : string) :
  In k ks -> raises_only ks (py_getitem v k).
Proof.
  intros Hin k'. unfold py_getitem. destruct v as [| | | | |d]; try discriminate.
  destruct (lookup k d); [discriminate|]. intros H. now injection H as <-.
Qed.

Lemma raises_only_mapM {A B : Type} (ks : list string) (f : A -> result B)
      (l : list A) :
  (forall x, raises_only ks (f x)) -> raises_only ks (mapM f l).
Proof.
  intros Hf. induction l as [|x l IH]; simpl; [apply raises_only_Ok|].
  apply raises_only_bind; [apply Hf|]. intros y.
  apply raises_only_bind; [apply IH|]. intros ys. apply raises_only_Ok.
Qed.

Lemma raises_only_foldM {A S : Type} (ks : list string) (f : S -> A -> result S)
      (l : list A) :
  (forall s x, raises_only ks (f s x)) -> forall s, raises_only ks (foldM f l s).
Proof.
  intros Hf. induction l as [|x l IH]; simpl; intros s; [apply raises_only_Ok|].
  apply raises_only_bind; [apply Hf | apply IH].
Qed.

(** Follow a routine through its accesses. *)
Ltac raises_only_steps :=
  repeat first
    [ apply raises_only_Ok
    | apply raises_only_py_get
    | apply raises_only_py_iter
    | apply raises_only_py_items
    | apply raises_only_py_getitem; simpl; tauto
    | apply raises_only_bind; [|intros ?] ].

Lemma build_specification_raises (data : PyVal) :
  raises_only required_item_fields (build_specification data).
Proof.
  unfold build_specification, process_metadata, process_header_format,
    process_register_usage, process_data_structures, process_algorithms,
    process_error_handling, process_section_requirements, process_performance,
    process_testing, process_code_style.
  raises_only_steps.
  - apply raises_only_mapM. intros reg. unfold register_info. raises_only_steps.
  - apply raises_only_foldM. intros structures kv. unfold data_structure.
    raises_only_steps.
    apply raises_only_mapM. intros f. unfold field_of. raises_only_steps.
  - apply raises_only_foldM. intros algorithms kv. unfold algorithm.
    raises_only_steps.
  - apply raises_only_mapM. intros err. unfold error_type.
    destruct err; raises_only_steps.
  - apply raises_only_mapM. intros var. unfold bss_variable. raises_only_steps.
  - apply raises_only_mapM. intros b. unfold benchmark. raises_only_steps.
  - apply raises_only_mapM. intros t. unfold unit_test.
    destruct t; raises_only_steps.
Qed.

(** X13: A validation error of the normalizer names a field of an item, one
    of name, purpose, type, size, align, input_size, with the text
    "Missing required field: " before the quoted key; no other key, and
    so neither [version] nor [description] of the metadata, is ever
    reported missing by [_create_specification]. *)
Theorem validation_error_names_item_field (data : PyVal) (m : string) :
  _create_specification data = Err (ValidationError m) ->
  exists k, In k required_item_fields /\
            m = "Missing required field: " ++ repr_str k.
Proof.
  unfold _create_specification.
  destruct (build_specification data) as [spec|e] eqn:E; [discriminate|].
  destruct e; intros H; try discriminate.
  injection H as <-. exists s. split; [|reflexivity].
  now apply (build_specification_raises data).
Qed.

Lemma validation_error_names_item_field_witness :
  exists k, In k required_item_fields /\
            "Missing required field: 'align'" = "Missing required field: " ++ repr_str k.
Proof.
  exact (validation_error_names_item_field without_align_doc _ eq_refl).
Defined.

(** X14: When the document does not have the shape the normalizer needs,
    [process_spec] fails with a [SpecForgeError] whose message is
    "Failed to process specification: " followed either by "Missing
    required field: " and the quoted name of an item field, or by "Error
    creating specification: " and the text of the exception. *)
Theorem process_spec_normalization_failure (data : PyVal) (fmt : string) :
  normalizable data = false ->
  (exists k, In k required_item_fields /\
             process_spec data fmt
             = Err (SpecForgeError
                      ("Failed to process specification: "
                         ++ "Missing required field: " ++ repr_str k))) \/
  (exists m, process_spec data fmt
             = Err (SpecForgeError
                      ("Failed to process specification: "
                         ++ "Error creating specification: " ++ m))).
Proof.
  intros Hn. pose proof (create_specification_normalizable data) as Hc.
  rewrite Hn in Hc. unfold process_spec.
  pose proof (build_specification_raises data) as Hv.
  unfold _create_specification in *.
  destruct (build_specification data) as [spec|e]; [discriminate|].
  destruct e; cbn [bind str_exn];
    try (right; eexists; reflexivity).
  left. exists s. split; [now apply Hv | reflexivity].
Qed.

Lemma process_spec_normalization_failure_witness :
  (exists k, In k required_item_fields /\
             process_spec without_purpose_doc "text"
             = Err (SpecForgeError
                      ("Failed to process specification: "
                         ++ "Missing required field: " ++ repr_str k))) \/
  (exists m, process_spec without_purpose_doc "text"
             = Err (SpecForgeError
                      ("Failed to process specification: "
                         ++ "Error creating specification: " ++ m))).
Proof.
  apply process_spec_normalization_failure. reflexivity.
Defined.

(** * The section labels of a report *)

(** ** Lines that a test on lines rejects *)

Section Rejected.
Variable p : string -> bool.

(** No line of [ls] passes the test [p]. *)
Definition rejected (ls : list string) : Prop :=
  Forall (fun line => p line = false) ls.

Lemma rejected_filter (ls : list string) : rejected ls -> filter p ls = [].
Proof.
  induction 1 as [|l ls Hl _ IH]; simpl; [reflexivity|]. now rewrite Hl.
Qed.

Lemma rejected_cons (l : string) (ls : list string) :
  p l = false -> rejected ls -> rejected (l :: ls).
Proof. intros; now constructor. Qed.

Lemma rejected_app (l r : list string) :
  rejected l -> rejected r -> rejected (l ++ r)%list.
Proof. intros; now apply Forall_app. Qed.

Lemma rejected_map {A : Type} (f : A -> string) (l : list A) :
  (forall x, p (f x) = false) -> rejected (map f l).
Proof. intros H. apply Forall_map, Forall_forall. auto. Qed.

Lemma rejected_concat (ll : list (list string)) :
  Forall rejected ll -> rejected (concat ll).
Proof. induction 1; simpl; [constructor | now apply rejected_app]. Qed.

Lemma each_rejected (f : PyVal -> string) (v : PyVal) (ls : list string) :
  (forall x, p (f x) = false) -> each f v = Ok ls -> rejected ls.
Proof.
  intros Hf H. apply each_determined in H. subst. now apply rejected_map.
Qed.

Lemma labelled_rejected (label indent : string) (v : PyVal) (ls : list string) :
  p label = false -> (forall x, p (bullet indent x) = false) ->
  labelled label indent v = Ok ls -> rejected ls.
Proof.
  unfold labelled. intros Hl Hb H. destruct (truthy v).
  - inv_bind H. subst. apply rejected_cons; [assumption|].
    now apply (each_rejected _ _ _ Hb Ha).
  - injection H as <-. constructor.
Qed.

Lemma mapM_rejected {A : Type} (f : A -> result (list string)) (l : list A)
      (ll : list (list string)) :
  (forall x y, f x = Ok y -> rejected y) ->
  mapM f l = Ok ll -> rejected (concat ll).
Proof.
  intros Hf H. apply rejected_concat.
  apply mapM_Forall2 in H. induction H; constructor; eauto.
Qed.

(** Indented lines are rejected. *)
Hypothesis indented : forall s, p (String " " s) = false.

Lemma group_rejected (kv : string * PyVal) (ls : list string) :
  group kv = Ok ls -> rejected ls.
Proof.
  unfold group. intros H. inv_bind H. subst.
  apply rejected_cons; [exact (indented _)|].
  eapply each_rejected; [|exact Ha]. intros x. exact (indented _).
Qed.

Lemma groups_rejected (v : PyVal) (ls : list string) :
  groups v = Ok ls -> rejected ls.
Proof.
  unfold groups. intros H. inv_bind H. subst.
  apply (mapM_rejected _ _ _ group_rejected Ha0).
Qed.

End Rejected.

(** Split a list of lines into its literal lines and its loops; the
    test is decided on the literal head of each line. *)
Ltac rejected_parts :=
  repeat match goal with
         | |- rejected _ (_ ++ _)%list => apply rejected_app
         | |- rejected _ (_ :: _) => apply rejected_cons; [reflexivity|]
         | |- rejected _ [] => constructor
         | H : each _ _ = Ok ?a |- rejected _ ?a =>
             eapply each_rejected; [|exact H]; intros; reflexivity
         | H : labelled _ _ _ = Ok ?a |- rejected _ ?a =>
             eapply labelled_rejected; [| |exact H];
             [reflexivity | intros; reflexivity]
         | H : groups _ = Ok ?a |- rejected _ ?a =>
             eapply groups_rejected; [|exact H]; intros; reflexivity
         | H : steps_lines _ = Ok ?a |- rejected _ ?a =>
             eapply groups_rejected; [|exact H]; intros; reflexivity
         | H : rejected ?p ?a |- rejected ?p ?a => exact H
         end.

Ltac loop_rejected lem :=
  match goal with
  | H : mapM _ _ = Ok _ |- _ => exact (mapM_rejected _ _ _ _ lem H)
  end.

(** ** No item line is a section label *)

Lemma register_headless (r : RegisterInfo.t) (ls : list string) :
  register_lines r = Ok ls -> rejected is_header ls.
Proof.
  unfold register_lines. intros H. inv_bind H. subst. rejected_parts.
  destruct (truthy _); [inv_bind Ha; subst | injection Ha as <-]; rejected_parts.
Qed.

Lemma structure_headless (kv : string * DataStructure.t) (ls : list string) :
  structure_lines kv = Ok ls -> rejected is_header ls.
Proof.
  unfold structure_lines. intros H. inv_bind H. subst. rejected_parts.
  now apply rejected_map.
Qed.

Lemma algorithm_headless (kv : string * Algorithm.t) (ls : list string) :
  algorithm_lines kv = Ok ls -> rejected is_header ls.
Proof. unfold algorithm_lines. intros H. inv_bind H. subst. rejected_parts. Qed.

Lemma error_type_headless (e : ErrorType.t) (ls : list string) :
  error_type_lines e = Ok ls -> rejected is_header ls.
Proof. unfold error_type_lines. intros H. inv_bind H. subst. rejected_parts. Qed.

Lemma strategies_headless (v : PyVal) (ls : list string) :
  strategies_lines v = Ok ls -> rejected is_header ls.
Proof.
  unfold strategies_lines. destruct v; intros H;
    try (injection H as <-; constructor); rejected_parts.
Qed.

Lemma benchmark_headless (b : Benchmark.t) (ls : list string) :
  benchmark_lines b = Ok ls -> rejected is_header ls.
Proof.
  unfold benchmark_lines. intros H. inv_bind H. subst. rejected_parts.
  destruct (truthy _); rejected_parts.
Qed.

Lemma unit_test_headless (t : TestCase.t) (ls : list string) :
  unit_test_lines t = Ok ls -> rejected is_header ls.
Proof. unfold unit_test_lines. intros H. inv_bind H. subst. rejected_parts. Qed.

Lemma integration_test_headless (t : PyVal) (ls : list string) :
  integration_test_lines t = Ok ls -> rejected is_header ls.
Proof.
  unfold integration_test_lines. intros H. inv_bind H. subst. rejected_parts.
  apply rejected_concat, Forall_map, Forall_forall. intros [k v] _.
  unfold integration_item. cbn [fst snd].
  destruct (String.eqb k "name"); [constructor|].
  destruct v; rejected_parts. now apply rejected_map.
Qed.

Lemma vector_headless (v : PyVal) (ls : list string) :
  vector_lines v = Ok ls -> rejected is_header ls.
Proof. unfold vector_lines. intros H. inv_bind H. subst. rejected_parts. Qed.

Lemma conformance_test_headless (t : PyVal) (ls : list string) :
  conformance_test_lines t = Ok ls -> rejected is_header ls.
Proof.
  unfold conformance_test_lines. intros H. inv_bind H. subst. rejected_parts.
  destruct a0; [inv_bind Ha1; subst | injection Ha1 as <-]; rejected_parts.
  loop_rejected vector_headless.
Qed.

(** ** Each section opens with its label and has no other *)

Ltac one_header :=
  let H := fresh "H" in
  intros H; inv_bind H; subst; cbn [app];
  rewrite filter_keep by reflexivity; f_equal;
  apply rejected_filter; rejected_parts.

Lemma metadata_header (m : PyVal) (ls : list string) :
  metadata_lines m = Ok ls -> filter is_header ls = ["=== SPECIFICATION ==="].
Proof. unfold metadata_lines. one_header. Qed.

Lemma header_format_header (h : HeaderFormat.t) (ls : list string) :
  header_lines h = Ok ls -> filter is_header ls = ["=== HEADER FORMAT ==="].
Proof. unfold header_lines. one_header. Qed.

Lemma register_usage_header (u : RegisterUsage.t) (ls : list string) :
  register_usage_lines u = Ok ls -> filter is_header ls = ["=== REGISTER USAGE ==="].
Proof. unfold register_usage_lines. one_header. loop_rejected register_headless. Qed.

Lemma structures_header (ss : list (string * DataStructure.t)) (ls : list string) :
  structures_lines ss = Ok ls -> filter is_header ls = ["=== DATA STRUCTURES ==="].
Proof. unfold structures_lines. one_header. loop_rejected structure_headless. Qed.

Lemma algorithms_header (als : list (string * Algorithm.t)) (ls : list string) :
  algorithms_lines als = Ok ls -> filter is_header ls = ["=== ALGORITHMS ==="].
Proof. unfold algorithms_lines. one_header. loop_rejected algorithm_headless. Qed.

Lemma error_handling_header (e : ErrorHandling.t) (ls : list string) :
  error_handling_lines e = Ok ls -> filter is_header ls = ["=== ERROR HANDLING ==="].
Proof.
  unfold error_handling_lines. one_header.
  - match goal with
    | H : strategies_lines _ = Ok _ |- _ => exact (strategies_headless _ _ H)
    end.
  - loop_rejected error_type_headless.
Qed.

Lemma section_requirements_header (s : SectionRequirements.t) (ls : list string) :
  section_requirements_lines s = Ok ls ->
  filter is_header ls = ["=== SECTION REQUIREMENTS ==="].
Proof.
  unfold section_requirements_lines. one_header.
  apply rejected_concat, Forall_map, Forall_forall. intros b _.
  unfold bss_lines. rejected_parts.
Qed.

Lemma performance_header (p : Performance.t) (ls : list string) :
  performance_lines p = Ok ls -> filter is_header ls = ["=== PERFORMANCE ==="].
Proof. unfold performance_lines. one_header. loop_rejected benchmark_headless. Qed.

Lemma testing_header (t : Testing.t) (ls : list string) :
  testing_lines t = Ok ls -> filter is_header ls = ["=== TESTING ==="].
Proof.
  unfold testing_lines. one_header.
  - loop_rejected unit_test_headless.
  - loop_rejected integration_test_headless.
  - loop_rejected conformance_test_headless.
Qed.

Lemma code_style_header (c : CodeStyle.t) (ls : list string) :
  code_style_lines c = Ok ls -> filter is_header ls = ["=== CODE STYLE ==="].
Proof. unfold code_style_lines. one_header. Qed.

(** X3: Whenever [format_text] returns a report, the lines of the report
    that are top-level section labels are the ten labels, each once and
    in the fixed order, whatever the model holds: no section is skipped
    or repeated, and no value of the model can pass for a label. *)
Theorem section_headers_in_order (spec : Specification.t) (report : string) :
  format_text spec = Ok report ->
  exists lines,
    format_lines spec = Ok lines /\
    report = join newline lines /\
    filter is_header lines = section_headers.
Proof.
  unfold format_text. intros H.
  destruct (format_lines spec) as [lines|e] eqn:Hl; [|discriminate].
  cbn [bind] in H. injection H as <-.
  exists lines. split; [reflexivity|]. split; [reflexivity|].
  unfold format_lines in Hl. inv_bind Hl. subst lines.
  rewrite !filter_app.
  rewrite (metadata_header _ _ Ha), (header_format_header _ _ Ha0),
    (register_usage_header _ _ Ha1), (structures_header _ _ Ha2),
    (algorithms_header _ _ Ha3), (error_handling_header _ _ Ha4),
    (section_requirements_header _ _ Ha5), (performance_header _ _ Ha6),
    (testing_header _ _ Ha7), (code_style_header _ _ Ha8).
  reflexivity.
Qed.

Lemma section_headers_in_order_witness :
  exists lines,
    format_lines codec_spec = Ok lines /\
    filter is_header lines = section_headers.
Proof.
  destruct (section_headers_in_order codec_spec _ eq_refl) as (lines & Hl & _ & Hf).
  exists lines. split; assumption.
Defined.

(** ** Optional sub-labels *)

Lemma labelled_filter (label indent : string) (v : PyVal) (ls : list string) :
  (forall x, String.eqb label (bullet indent x) = false) ->
  labelled label indent v = Ok ls ->
  filter (String.eqb label) ls = if truthy v then [label] else [].
Proof.
  unfold labelled. intros Hb H. destruct (truthy v).
  - inv_bind H. subst. rewrite filter_keep by apply String.eqb_refl.
    f_equal. apply rejected_filter. now apply (each_rejected _ _ _ _ Hb Ha).
  - now injection H as <-.
Qed.

(** Filter a block whose loops are all rejected but one labelled list. *)
Ltac filter_block p :=
  repeat match goal with
         | H : each _ _ = Ok ?a |- _ =>
             lazymatch goal with
             | _ : rejected p a |- _ => fail
             | _ => assert (rejected p a) by (solve [rejected_parts])
             end
         | H : labelled _ _ _ = Ok ?a |- _ =>
             lazymatch goal with
             | _ : rejected p a |- _ => fail
             | _ => assert (rejected p a) by (solve [rejected_parts])
             end
         | H : steps_lines _ = Ok ?a |- _ =>
             lazymatch goal with
             | _ : rejected p a |- _ => fail
             | _ => assert (rejected p a) by (solve [rejected_parts])
             end
         end;
  cbn [app];
  repeat first [rewrite filter_drop by reflexivity | rewrite filter_app];
  repeat match goal with
         | H : rejected p ?a |- _ => rewrite (rejected_filter p a H); clear H
         end;
  cbn [app filter];
  match goal with
  | H : labelled ?l _ _ = Ok ?a |- context [filter _ ?a] =>
      let E := fresh "E" in
      pose proof (fun Hb => labelled_filter l _ _ _ Hb H) as E;
      rewrite E by (intros; reflexivity)
  end;
  rewrite ?app_nil_r; try reflexivity.

(** X4: In the block of an algorithm each of the labels [Edge Cases:],
    [Preconditions:], [Postconditions:] and [Invariants:] is there once
    when the list behind it is populated and not at all otherwise; no
    other line of the block can pass for one of them. *)
Theorem algorithm_optional_labels (kv : string * Algorithm.t) (ls : list string) :
  algorithm_lines kv = Ok ls ->
  filter (String.eqb "Edge Cases:") ls
  = (if truthy (Algorithm.edge_cases (snd kv)) then ["Edge Cases:"] else []) /\
  filter (String.eqb "Preconditions:") ls
  = (if truthy (Algorithm.preconditions (snd kv)) then ["Preconditions:"] else []) /\
  filter (String.eqb "Postconditions:") ls
  = (if truthy (Algorithm.postconditions (snd kv)) then ["Postconditions:"] else []) /\
  filter (String.eqb "Invariants:") ls
  = (if truthy (Algorithm.invariants (snd kv)) then ["Invariants:"] else []).
Proof.
  unfold algorithm_lines. intros H. inv_bind H. subst ls.
  repeat split.
  - filter_block (String.eqb "Edge Cases:").
  - filter_block (String.eqb "Preconditions:").
  - filter_block (String.eqb "Postconditions:").
  - filter_block (String.eqb "Invariants:").
Qed.

Definition edge_cases_only : string * Algorithm.t :=
  ("encode",
   Defaulted.algorithm "encode" (VDict [("edge_cases", VList [VStr "empty input"])])).

Lemma algorithm_optional_labels_witness :
  exists ls,
    algorithm_lines edge_cases_only = Ok ls /\
    filter (String.eqb "Edge Cases:") ls = ["Edge Cases:"] /\
    filter (String.eqb "Invariants:") ls = [].
Proof.
  eexists. split; [reflexivity|].
  pose proof (algorithm_optional_labels edge_cases_only _ eq_refl)
    as (He & _ & _ & Hi).
  split; [exact He | exact Hi].
Defined.

(** * When the forge operation succeeds *)

Lemma each_iterable (f : PyVal -> string) (v : PyVal) (ls : list string) :
  each f v = Ok ls -> iterable v = true.
Proof. unfold each. intros H. inv_bind H. now apply py_iter_inv in Ha. Qed.

Lemma labelled_listable (label indent : string) (v : PyVal) (ls : list string) :
  labelled label indent v = Ok ls -> listable v = true.
Proof.
  unfold labelled, listable. destruct (truthy v); [|reflexivity].
  intros H. inv_bind H. now apply each_iterable in Ha.
Qed.

Lemma strs_from_is_str (l : list PyVal) (ss : list string) (i : nat) :
  strs_from i l = Ok ss -> forallb is_str l = true.
Proof.
  intros H. apply strs_from_inv in H. subst l.
  induction ss; simpl; auto.
Qed.

Lemma byte_regs_joinable (v : PyVal) (ls : list string) :
  (if truthy v then j <- py_join ", " v ;; Ok ["Byte Registers: " ++ j] else Ok [])
  = Ok ls ->
  joinable v = true.
Proof.
  unfold joinable. destruct (truthy v); [|reflexivity].
  intros H. inv_bind H. unfold py_join in Ha.
  destruct (py_iter v) as [l|] eqn:E; [|discriminate].
  apply py_iter_inv in E. destruct E as [Hi ->].
  inv_bind Ha. apply strs_from_is_str in Ha0. now rewrite Hi, Ha0.
Qed.

Lemma group_iterable (kv : string * PyVal) (ls : list string) :
  group kv = Ok ls -> iterable (snd kv) = true.
Proof. unfold group. intros H. inv_bind H. now apply each_iterable in Ha. Qed.

Lemma groups_all_values (v : PyVal) (ls : list string) :
  groups v = Ok ls -> all_values iterable v = true.
Proof.
  unfold groups, all_values. intros H. inv_bind H.
  apply py_items_inv in Ha. destruct Ha as [Hd ->].
  rewrite Hd. simpl.
  apply (mapM_shape group (fun kv => iterable (snd kv)) _ _ group_iterable Ha0).
Qed.

Lemma mapM_map_shape {A B C : Type} (f : B -> result C) (g : A -> B) (P : A -> bool)
      (l : list A) (r : list C) :
  (forall x y, f (g x) = Ok y -> P x = true) ->
  mapM f (map g l) = Ok r -> forallb P l = true.
Proof.
  intros Hf. revert r. induction l as [|x l IH]; simpl; intros r H; [reflexivity|].
  inv_bind H. rewrite (Hf _ _ Ha). simpl. eauto.
Qed.

Lemma mapM_app_inv {A B : Type} (f : A -> result B) (l1 l2 : list A) (r : list B) :
  mapM f (l1 ++ l2)%list = Ok r ->
  exists r1 r2, mapM f l1 = Ok r1 /\ mapM f l2 = Ok r2.
Proof.
  revert r. induction l1 as [|x l1 IH]; simpl; intros r H.
  - eauto.
  - inv_bind H. destruct (IH _ Ha0) as (r1 & r2 & H1 & H2).
    rewrite Ha, H1. simpl. eauto.
Qed.

Lemma mapM_flat_map_shape {A B C : Type} (f : B -> result C) (g : A -> list B)
      (P : A -> bool) (l : list A) (r : list C) :
  (forall x y, mapM f (g x) = Ok y -> P x = true) ->
  mapM f (flat_map g l) = Ok r -> forallb P l = true.
Proof.
  intros Hf. revert r. induction l as [|x l IH]; simpl; intros r H; [reflexivity|].
  destruct (mapM_app_inv _ _ _ _ H) as (r1 & r2 & H1 & H2).
  rewrite (Hf _ _ H1). simpl. eauto.
Qed.

(** Read back what each successful loop says about the value walked. *)
Ltac walked :=
  repeat match goal with
         | H : each _ _ = Ok _ |- _ => apply each_iterable in H
         | H : labelled _ _ _ = Ok _ |- _ => apply labelled_listable in H
         | H : groups _ = Ok _ |- _ => apply groups_all_values in H
         | H : steps_lines _ = Ok _ |- _ => apply groups_all_values in H
         end.

Ltac holds :=
  repeat match goal with
         | H : ?b = true |- context [?b] => rewrite H
         end;
  try reflexivity.

Lemma metadata_lines_renders (data : PyVal) (ls : list string) :
  metadata_lines (field data "metadata" empty_dict) = Ok ls ->
  Render.metadata data = true.
Proof.
  unfold metadata_lines, Render.metadata. intros H. inv_bind H.
  accessed. shape_holds.
Qed.

Lemma header_lines_renders (data : PyVal) (ls : list string) :
  header_lines (Defaulted.header_format data) = Ok ls ->
  Render.header_format data = true.
Proof.
  unfold header_lines, Render.header_format, Defaulted.header_format.
  cbn [HeaderFormat.assembly_lines HeaderFormat.directives].
  intros H. inv_bind H. walked. holds.
Qed.

Lemma register_lines_renders (reg : PyVal) (ls : list string) :
  register_lines (Defaulted.register reg) = Ok ls -> Render.register reg = true.
Proof.
  unfold register_lines, Render.register, Defaulted.register.
  cbn [RegisterInfo.byte_regs RegisterInfo.constraints].
  intros H. inv_bind H. apply byte_regs_joinable in Ha. walked. holds.
Qed.

Lemma register_usage_lines_renders (data : PyVal) (ls : list string) :
  register_usage_lines (Defaulted.register_usage data) = Ok ls ->
  Render.register_usage data = true.
Proof.
  unfold register_usage_lines, Render.register_usage, Defaulted.register_usage.
  cbn [RegisterUsage.general_purpose]. intros H. inv_bind H.
  apply (mapM_map_shape _ _ Render.register _ _ register_lines_renders Ha).
Qed.

Lemma structure_lines_renders (kv : string * PyVal) (ls : list string) :
  structure_lines (fst kv, Defaulted.structure (fst kv) (snd kv)) = Ok ls ->
  Render.structure (snd kv) = true.
Proof.
  unfold structure_lines, Render.structure, Defaulted.structure.
  cbn [snd fst DataStructure.constraints]. intros H. inv_bind H.
  walked. assumption.
Qed.

Lemma algorithm_lines_renders (kv : string * PyVal) (ls : list string) :
  algorithm_lines (fst kv, Defaulted.algorithm (fst kv) (snd kv)) = Ok ls ->
  Render.algorithm (snd kv) = true.
Proof.
  unfold algorithm_lines, Render.algorithm, Defaulted.algorithm.
  cbn [snd fst Algorithm.implementation_requirements Algorithm.steps
       Algorithm.edge_cases Algorithm.preconditions Algorithm.postconditions
       Algorithm.invariants ImplementationRequirements.memory_operations
       ImplementationRequirements.encoding_requirements
       ImplementationRequirements.leftover_handling
       ImplementationRequirements.padding_rules PaddingRules.one_byte
       PaddingRules.two_bytes].
  intros H. inv_bind H. walked. holds.
Qed.

Lemma strategies_lines_renders (raw : PyVal) (ls : list string) :
  strategies_lines (Defaulted.strategies raw) = Ok ls ->
  Render.strategies raw = true.
Proof.
  destruct raw as [| | | |l|d]; try reflexivity.
  cbn [Defaulted.strategies strategies_lines Render.strategies]. intros H.
  apply groups_all_values in H. unfold all_values in H.
  apply andb_prop in H. now destruct H.
Qed.

Lemma error_type_lines_renders (err : PyVal) (r : list (list string)) :
  mapM error_type_lines (Defaulted.error_type err) = Ok r ->
  Render.error_type err = true.
Proof.
  destruct err as [| | |s|l|d]; try reflexivity.
  cbn [Defaulted.error_type mapM Render.error_type]. intros H. inv_bind H.
  unfold error_type_lines in Ha. cbn [ErrorType.handling] in Ha. inv_bind Ha.
  now apply each_iterable in Ha1.
Qed.

Lemma error_handling_lines_renders (data : PyVal) (ls : list string) :
  error_handling_lines (Defaulted.error_handling data) = Ok ls ->
  Render.error_handling data = true.
Proof.
  unfold error_handling_lines, Render.error_handling, Defaulted.error_handling.
  cbn [ErrorHandling.strategies ErrorHandling.error_types
       ErrorHandling.syscall_requirements].
  intros H. inv_bind H. walked.
  apply strategies_lines_renders in Ha.
  apply (mapM_flat_map_shape _ _ Render.error_type _ _ error_type_lines_renders)
    in Ha0.
  holds.
Qed.

Lemma section_requirements_lines_renders (data : PyVal) (ls : list string) :
  section_requirements_lines (Defaulted.section_requirements data) = Ok ls ->
  Render.section_requirements data = true.
Proof.
  unfold section_requirements_lines, Render.section_requirements,
    Defaulted.section_requirements.
  cbn [SectionRequirements.data SectionRequirements.text].
  intros H. inv_bind H. walked. holds.
Qed.

Lemma benchmark_lines_renders (bench : PyVal) (ls : list string) :
  benchmark_lines (Defaulted.benchmark bench) = Ok ls ->
  Render.benchmark bench = true.
Proof.
  unfold benchmark_lines, Render.benchmark, Defaulted.benchmark.
  cbn [Benchmark.requirements]. intros H. inv_bind H. walked. assumption.
Qed.

Lemma performance_lines_renders (data : PyVal) (ls : list string) :
  performance_lines (Defaulted.performance data) = Ok ls ->
  Render.performance data = true.
Proof.
  unfold performance_lines, Render.performance, Defaulted.performance.
  cbn [Performance.constraints Performance.register_usage
       Performance.memory_access Performance.benchmarks].
  intros H. inv_bind H. walked.
  apply (mapM_map_shape _ _ Render.benchmark _ _ benchmark_lines_renders) in Ha2.
  holds.
Qed.

Lemma unit_test_lines_renders (test : PyVal) (ls : list string) :
  unit_test_lines (Defaulted.unit_test test) = Ok ls ->
  Render.unit_test test = true.
Proof.
  unfold unit_test_lines, Render.unit_test.
  destruct test; try reflexivity;
    cbn [Defaulted.unit_test TestCase.validation]; intros H; inv_bind H;
    walked; assumption.
Qed.

Lemma integration_test_lines_renders (test : PyVal) (ls : list string) :
  integration_test_lines (Defaulted.wrap "name" test) = Ok ls ->
  Render.integration_test test = true.
Proof.
  unfold integration_test_lines, Render.integration_test.
  destruct test; try reflexivity; cbn [Defaulted.wrap]; intros H; inv_bind H;
    now apply py_getitem_inv in Ha.
Qed.

Lemma vector_lines_renders (v : PyVal) (ls : list string) :
  vector_lines v = Ok ls -> Render.vector v = true.
Proof.
  unfold vector_lines, Render.vector. intros H. inv_bind H.
  accessed. holds.
Qed.

Lemma conformance_test_lines_renders (test : PyVal) (ls : list string) :
  conformance_test_lines (Defaulted.wrap "standard" test) = Ok ls ->
  Render.conformance_test test = true.
Proof.
  unfold conformance_test_lines, Render.conformance_test.
  destruct test as [| | |s|l|d]; try reflexivity; cbn [Defaulted.wrap];
    intros H; inv_bind H;
    pose proof (py_getitem_inv _ _ _ Ha) as Hk; try discriminate.
  rewrite Hk. cbn [andb].
  assert (Hb : a0 = has_key "test_vectors" (VDict d)).
  { rewrite (py_contains_dict "test_vectors" (VDict d) eq_refl) in Ha0.
    congruence. }
  rewrite Hb in Ha1. clear Hb Ha0.
  destruct (has_key "test_vectors" (VDict d)); [|reflexivity].
  cbn [negb orb]. inv_bind Ha1.
  match goal with
  | H : py_getitem _ "test_vectors" = Ok _ |- _ => apply py_getitem_value in H; subst
  end.
  match goal with
  | H : py_iter _ = Ok _ |- _ =>
      apply py_iter_inv in H; destruct H as [Hi ->]
  end.
  unfold all_entries. rewrite Hi. cbn [andb].
  match goal with
  | H : mapM vector_lines _ = Ok _ |- _ =>
      exact (mapM_shape _ _ _ _ vector_lines_renders H)
  end.
Qed.

Lemma testing_lines_renders (data : PyVal) (ls : list string) :
  testing_lines (Defaulted.testing data) = Ok ls -> Render.testing data = true.
Proof.
  unfold testing_lines, Render.testing, Defaulted.testing.
  cbn [Testing.unit_tests Testing.integration_tests Testing.conformance_tests].
  intros H. inv_bind H.
  apply (mapM_map_shape _ _ Render.unit_test _ _ unit_test_lines_renders) in Ha.
  apply (mapM_map_shape _ _ Render.integration_test _ _
           integration_test_lines_renders) in Ha0.
  apply (mapM_map_shape _ _ Render.conformance_test _ _
           conformance_test_lines_renders) in Ha1.
  holds.
Qed.

Lemma code_style_lines_renders (data : PyVal) (ls : list string) :
  code_style_lines (Defaulted.code_style data) = Ok ls ->
  Render.code_style data = true.
Proof.
  unfold code_style_lines, Render.code_style, Defaulted.code_style.
  cbn [CodeStyle.indentation CodeStyle.comments CodeStyle.naming
       CodeStyle.organization].
  intros H. inv_bind H. walked. holds.
Qed.

Lemma structures_lines_renders (data : PyVal) (ls : list string) :
  NoDup (keys (dict_items (field data "structures" empty_dict))) ->
  structures_lines (Defaulted.structures data) = Ok ls ->
  Render.structures data = true.
Proof.
  unfold structures_lines, Render.structures, Defaulted.structures.
  intros Hk H. rewrite (keyed_distinct _ _ Hk) in H. inv_bind H.
  apply (mapM_map_shape _ _ (fun kv => Render.structure (snd kv)) _ _
           structure_lines_renders Ha).
Qed.

Lemma algorithms_lines_renders (data : PyVal) (ls : list string) :
  NoDup (keys (dict_items (field data "algorithms" empty_dict))) ->
  algorithms_lines (Defaulted.algorithms data) = Ok ls ->
  Render.algorithms data = true.
Proof.
  unfold algorithms_lines, Render.algorithms, Defaulted.algorithms.
  intros Hk H. rewrite (keyed_distinct _ _ Hk) in H. inv_bind H.
  apply (mapM_map_shape _ _ (fun kv => Render.algorithm (snd kv)) _ _
           algorithm_lines_renders Ha).
Qed.

Lemma format_lines_renders (data : PyVal) (lines : list string) :
  NoDup (keys (dict_items (field data "structures" empty_dict))) ->
  NoDup (keys (dict_items (field data "algorithms" empty_dict))) ->
  format_lines (Defaulted.specification data) = Ok lines ->
  Render.metadata data = true /\ renderable data = true.
Proof.
  intros Hs Ha' H. unfold format_lines in H.
  cbn [Defaulted.specification Specification.metadata Specification.header_format
       Specification.register_usage Specification.structures
       Specification.algorithms Specification.error_handling
       Specification.section_requirements Specification.performance
       Specification.testing Specification.code_style] in H.
  inv_bind H. unfold renderable.
  rewrite (metadata_lines_renders _ _ Ha), (header_lines_renders _ _ Ha0),
    (register_usage_lines_renders _ _ Ha1), (structures_lines_renders _ _ Hs Ha2),
    (algorithms_lines_renders _ _ Ha' Ha3), (error_handling_lines_renders _ _ Ha4),
    (section_requirements_lines_renders _ _ Ha5),
    (performance_lines_renders _ _ Ha6), (testing_lines_renders _ _ Ha7),
    (code_style_lines_renders _ _ Ha8).
  split; reflexivity.
Qed.

(** X5: On printable documents the forge operation succeeds exactly
    when the document normalizes, has the three metadata fields and can
    be rendered: [process_spec] returns a report if and only if the
    document is [normalizable], its metadata is complete and it is
    [renderable] (the names of its structures and of its algorithms
    being distinct, as the keys of a mapping are). *)
Theorem forge_succeeds_exactly (data : PyVal) (fmt : string) :
  printable data = true ->
  NoDup (keys (dict_items (field data "structures" empty_dict))) ->
  NoDup (keys (dict_items (field data "algorithms" empty_dict))) ->
  is_ok (process_spec data fmt)
  = normalizable data && Render.metadata data && renderable data.
Proof.
  intros _ Hs Ha.
  destruct (normalizable data) eqn:Hn.
  - cbn [andb]. unfold process_spec, format_text.
    rewrite (create_specification_defaulted _ Hn). cbn [bind].
    destruct (format_lines (Defaulted.specification data)) as [lines|e] eqn:Hl.
    + destruct (format_lines_renders _ _ Hs Ha Hl) as [-> ->]. reflexivity.
    + cbn [bind is_ok].
      destruct (Render.metadata data) eqn:Hm; [|reflexivity].
      destruct (renderable data) eqn:Hr; [|reflexivity].
      pose proof (format_lines_ok _ Hm Hr) as Hok. rewrite Hl in Hok. discriminate.
  - cbn [andb]. pose proof (create_specification_normalizable data) as Hc.
    rewrite Hn in Hc. unfold process_spec.
    destruct (_create_specification data); [discriminate | reflexivity].
Qed.

Lemma forge_succeeds_exactly_witness :
  is_ok (process_spec pipeline_doc "text") = true /\
  is_ok (process_spec without_purpose_doc "text") = false.
Proof.
  split.
  - rewrite (forge_succeeds_exactly pipeline_doc "text");
      [reflexivity | reflexivity | repeat constructor | exact pipeline_doc_distinct].
  - rewrite (forge_succeeds_exactly without_purpose_doc "text");
      [reflexivity | reflexivity | repeat constructor | repeat constructor].
Defined.
